(** * WinPR waitable timers and timer queues (winpr/libwinpr/synch/timer.c)

    A shallow embedding of the non-Windows implementation of the WinPR
    timer primitives, and the properties its design document states
    about them.

    Data model.  The target is an LP64 platform: [int] and [UINT32] are
    32 bits wide, [long], [time_t], [LONGLONG] and [UINT64] are 64 bits
    wide.  Integers are values of [Z]; every conversion the C code
    performs is written out with the wrap-around functions below.
    Pointers and handles are addresses in [Z], [NULL] is 0.  Heap objects
    live in finite maps from addresses to structures; [free] removes the
    object, so that a pointer to freed storage is a key without a value.

    Effects.  Functions that touch memory run in a small state monad
    whose results distinguish normal return, a fault (a dereference of
    storage that holds no live object) and a loop that is still running
    when the fuel of the model is exhausted.  Calls that leave the
    program (user callbacks, pthread and timer system calls, [free]) are
    recorded, in order, in the trace of the memory; the diagnostics
    written with [printf] and [perror] are left out. *)

From stdpp Require Import gmap list.
From Stdlib Require Import ZArith Lia.

Local Open Scope Z_scope.

(** ** Machine integers *)

Module CInt.

(** Conversion to an unsigned type of [w] bits. *)
Definition to_unsigned (w : Z) (x : Z) : Z := x mod 2 ^ w.

(** Conversion to a signed type of [w] bits (two's complement). *)
Definition to_signed (w : Z) (x : Z) : Z :=
  (x + 2 ^ (w - 1)) mod 2 ^ w - 2 ^ (w - 1).

Definition UINT32 : Z -> Z := to_unsigned 32.
Definition UINT64 : Z -> Z := to_unsigned 64.
Definition INT32 : Z -> Z := to_signed 32.
Definition INT64 : Z -> Z := to_signed 64.

Definition INT64_MIN : Z := - 2 ^ 63.
Definition INT64_MAX : Z := 2 ^ 63 - 1.

End CInt.
Import CInt.

(** ** Deadline arithmetic *)

(** [struct timespec] and [struct timeval]. *)
Record timespec : Type := mk_timespec { tv_sec : Z; tv_nsec : Z }.
Record timeval : Type := mk_timeval { tval_sec : Z; tval_usec : Z }.

(** [struct itimerspec]. *)
Record itimerspec : Type :=
  mk_itimerspec { it_interval : timespec; it_value : timespec }.

#[global] Instance timespec_eq_dec : EqDecision timespec.
Proof. solve_decision. Defined.

#[global] Instance itimerspec_eq_dec : EqDecision itimerspec.
Proof. solve_decision. Defined.

(** A normalized timestamp has its nanoseconds in [0, 1e9). *)
Definition normalized (ts : timespec) : Prop :=
  0 <= tv_nsec ts < 1000000000.

(** The instant a timestamp denotes, in nanoseconds. *)
Definition total_ns (ts : timespec) : Z :=
  tv_sec ts * 1000000000 + tv_nsec ts.

(** [timespec_add_ms], lines 329-334.  [ms] is a [UINT32] and 1000000 an
    [int], so the product is computed in 32-bit unsigned arithmetic; the
    sum with the [long] nanoseconds is a [long], converted to [UINT64]
    on assignment to [ns].  [tv_sec += ns / 1000000000] is an unsigned
    64-bit addition converted back to [time_t]. *)
Definition timespec_add_ms (tspec : timespec) (ms : Z) : timespec :=
  let ns := UINT64 (INT64 (tv_nsec tspec + UINT32 (ms * 1000000))) in
  {| tv_sec := INT64 (UINT64 (UINT64 (tv_sec tspec) + ns / 1000000000));
     tv_nsec := ns mod 1000000000 |}.

(** [timespec_gettimeofday], lines 336-342; [tval] is what
    [gettimeofday] stored. *)
Definition timespec_gettimeofday (tval : timeval) : timespec :=
  {| tv_sec := tval_sec tval; tv_nsec := INT64 (tval_usec tval * 1000) |}.

(** [timespec_compare], lines 344-353.  The difference of the [long]
    nanoseconds is converted to the [int] return type. *)
Definition timespec_compare (tspec1 tspec2 : timespec) : Z :=
  if tv_sec tspec1 <? tv_sec tspec2 then -1
  else if tv_sec tspec1 >? tv_sec tspec2 then 1
  else INT32 (INT64 (tv_nsec tspec1 - tv_nsec tspec2)).

(** [timespec_copy], lines 355-359: the value stored into [dst]. *)
Definition timespec_copy (src : timespec) : timespec :=
  {| tv_sec := tv_sec src; tv_nsec := tv_nsec src |}.

(** What the design document asks of [add_ms]: the normalized timestamp
    [ms] milliseconds after [ts]. *)
Definition add_ms_spec (ts : timespec) (ms : Z) : timespec :=
  let ns := tv_nsec ts + ms * 1000000 in
  {| tv_sec := tv_sec ts + ns / 1000000000; tv_nsec := ns mod 1000000000 |}.

(** ** Objects *)

Definition NULL : Z := 0.

(** [WINPR_TIMER], the waitable timer.  The structure is declared in
    synch.h, which is not part of this file; the fields are the ones
    timer.c reads and writes. *)
Record WINPR_TIMER : Type := mk_WINPR_TIMER {
  fd : Z;
  lPeriod : Z;
  bManualReset : bool;
  pfnCompletionRoutine : Z;
  lpArgToCompletionRoutine : Z;
  bInit : bool;
  tid : Z;
  timeout : itimerspec
}.

(** [WINPR_TIMER_QUEUE_TIMER], one entry of a timer queue, declared in
    synch.h as well.  [Param] is the field [Parameter] of the C
    structure; [DueTime] and [Period] hold [DWORD] values; [FireCount]
    is a counter that the model does not bound. *)
Record WINPR_TIMER_QUEUE_TIMER : Type := mk_WINPR_TIMER_QUEUE_TIMER {
  Flags : Z;
  DueTime : Z;
  Period : Z;
  Param : Z;
  Callback : Z;
  FireCount : Z;
  StartTime : timespec;
  ExpirationTime : timespec;
  timerQueue : Z;
  next : Z
}.

(** [WINPR_TIMER_QUEUE].  Its condition variable, its two mutexes and
    its thread are pthread objects; the calls on them appear in the
    trace. *)
Record WINPR_TIMER_QUEUE : Type := mk_WINPR_TIMER_QUEUE { head : Z }.

Inductive HANDLE_TYPE : Type :=
| HANDLE_TYPE_TIMER
| HANDLE_TYPE_TIMER_QUEUE
| HANDLE_TYPE_TIMER_QUEUE_TIMER.

#[global] Instance HANDLE_TYPE_eq_dec : EqDecision HANDLE_TYPE.
Proof. solve_decision. Defined.

(** The two mutexes of a timer queue. *)
Inductive queue_mutex : Type := cond_mutex | mutex.

(** Calls that leave the program. *)
Inductive event : Type :=
| Ev_Callback (fn param : Z) (TimerOrWaitFired : bool)
| Ev_free (p : Z)
| Ev_pthread_mutex_lock (q : Z) (mu : queue_mutex)
| Ev_pthread_mutex_unlock (q : Z) (mu : queue_mutex)
| Ev_pthread_cond_timedwait (q : Z) (abstime : timespec)
| Ev_pthread_cond_signal (q : Z)
| Ev_sigaction_SIGALRM
| Ev_timerfd_create
| Ev_fcntl_O_NONBLOCK (fildes : Z)
| Ev_close (fildes : Z)
| Ev_timer_create (sival_ptr : Z)
| Ev_timerfd_settime (fildes : Z) (new_value : itimerspec)
| Ev_timer_settime (timerid : Z) (new_value : itimerspec).

#[global] Instance queue_mutex_eq_dec : EqDecision queue_mutex.
Proof. solve_decision. Defined.

#[global] Instance event_eq_dec : EqDecision event.
Proof. solve_decision. Defined.

(** ** Memory and the monad of the model *)

Record memory : Type := mk_memory {
  waitable_timers : gmap Z WINPR_TIMER;
  timer_queues : gmap Z WINPR_TIMER_QUEUE;
  queue_timers : gmap Z WINPR_TIMER_QUEUE_TIMER;
  g_WaitableTimerSignalHandlerInstalled : bool;
  trace : list event
}.

Inductive result (A : Type) : Type :=
| Done (a : A) (m : memory)
| Fault (m : memory)
| OutOfFuel (m : memory).

Arguments Done {A} a m.
Arguments Fault {A} m.
Arguments OutOfFuel {A} m.

Definition M (A : Type) : Type := memory -> result A.

Definition ret {A : Type} (a : A) : M A := fun m => Done a m.

Definition bind {A B : Type} (c : M A) (k : A -> M B) : M B :=
  fun m =>
    match c m with
    | Done a m' => k a m'
    | Fault m' => Fault m'
    | OutOfFuel m' => OutOfFuel m'
    end.

Definition fault {A : Type} : M A := fun m => Fault m.
Definition out_of_fuel {A : Type} : M A := fun m => OutOfFuel m.

Declare Scope timer_scope.
Delimit Scope timer_scope with timer.
Notation "x <- c ;; k" := (bind c (fun x => k))
  (at level 20, c at level 99, k at level 200, only parsing) : timer_scope.
Notation "c ;;; k" := (bind c (fun _ => k))
  (at level 100, k at level 200, only parsing, right associativity)
  : timer_scope.
Local Open Scope timer_scope.

(** The memory of the last state a computation reached. *)
Definition final_memory {A : Type} (r : result A) : memory :=
  match r with Done _ m | Fault m | OutOfFuel m => m end.

Definition emit (e : event) : M unit := fun m =>
  Done tt {| waitable_timers := waitable_timers m;
             timer_queues := timer_queues m;
             queue_timers := queue_timers m;
             g_WaitableTimerSignalHandlerInstalled :=
               g_WaitableTimerSignalHandlerInstalled m;
             trace := trace m ++ [e] |}.

Definition set_waitable_timers (f : gmap Z WINPR_TIMER -> gmap Z WINPR_TIMER)
    (m : memory) : memory :=
  {| waitable_timers := f (waitable_timers m);
     timer_queues := timer_queues m;
     queue_timers := queue_timers m;
     g_WaitableTimerSignalHandlerInstalled :=
       g_WaitableTimerSignalHandlerInstalled m;
     trace := trace m |}.

Definition set_timer_queues
    (f : gmap Z WINPR_TIMER_QUEUE -> gmap Z WINPR_TIMER_QUEUE)
    (m : memory) : memory :=
  {| waitable_timers := waitable_timers m;
     timer_queues := f (timer_queues m);
     queue_timers := queue_timers m;
     g_WaitableTimerSignalHandlerInstalled :=
       g_WaitableTimerSignalHandlerInstalled m;
     trace := trace m |}.

Definition set_queue_timers
    (f : gmap Z WINPR_TIMER_QUEUE_TIMER -> gmap Z WINPR_TIMER_QUEUE_TIMER)
    (m : memory) : memory :=
  {| waitable_timers := waitable_timers m;
     timer_queues := timer_queues m;
     queue_timers := f (queue_timers m);
     g_WaitableTimerSignalHandlerInstalled :=
       g_WaitableTimerSignalHandlerInstalled m;
     trace := trace m |}.

Definition set_installed (b : bool) (m : memory) : memory :=
  {| waitable_timers := waitable_timers m;
     timer_queues := timer_queues m;
     queue_timers := queue_timers m;
     g_WaitableTimerSignalHandlerInstalled := b;
     trace := trace m |}.

(** Reading and writing an object through a pointer faults when no live
    object is stored there. *)
Definition load_timer (p : Z) : M WINPR_TIMER := fun m =>
  match waitable_timers m !! p with
  | Some t => Done t m
  | None => Fault m
  end.

Definition store_timer (p : Z) (t : WINPR_TIMER) : M unit := fun m =>
  match waitable_timers m !! p with
  | Some _ => Done tt (set_waitable_timers (insert p t) m)
  | None => Fault m
  end.

Definition load_entry (p : Z) : M WINPR_TIMER_QUEUE_TIMER := fun m =>
  match queue_timers m !! p with
  | Some t => Done t m
  | None => Fault m
  end.

Definition store_entry (p : Z) (t : WINPR_TIMER_QUEUE_TIMER) : M unit :=
  fun m =>
    match queue_timers m !! p with
    | Some _ => Done tt (set_queue_timers (insert p t) m)
    | None => Fault m
    end.

(** [*pHead] for [pHead = &(timerQueue->head)]: the location is named by
    the address of the queue that holds it. *)
Definition load_head (pHead : Z) : M Z := fun m =>
  match timer_queues m !! pHead with
  | Some q => Done (head q) m
  | None => Fault m
  end.

Definition store_head (pHead : Z) (p : Z) : M unit := fun m =>
  match timer_queues m !! pHead with
  | Some _ => Done tt (set_timer_queues (insert pHead {| head := p |}) m)
  | None => Fault m
  end.

(** [free(p)]: the object at [p] is gone; freeing storage that holds no
    live object is a fault. *)
Definition free (p : Z) : M unit := fun m =>
  match waitable_timers m !! p, timer_queues m !! p, queue_timers m !! p with
  | None, None, None => Fault m
  | _, _, _ =>
      emit (Ev_free p)
        (set_waitable_timers (delete p)
           (set_timer_queues (delete p) (set_queue_timers (delete p) m)))
  end.

(** ** Timer-queue timers *)

Definition set_next (p : Z) (t : WINPR_TIMER_QUEUE_TIMER)
    : WINPR_TIMER_QUEUE_TIMER :=
  {| Flags := Flags t; DueTime := DueTime t; Period := Period t;
     Param := Param t; Callback := Callback t; FireCount := FireCount t;
     StartTime := StartTime t; ExpirationTime := ExpirationTime t;
     timerQueue := timerQueue t; next := p |}.

Definition set_FireCount (c : Z) (t : WINPR_TIMER_QUEUE_TIMER)
    : WINPR_TIMER_QUEUE_TIMER :=
  {| Flags := Flags t; DueTime := DueTime t; Period := Period t;
     Param := Param t; Callback := Callback t; FireCount := c;
     StartTime := StartTime t; ExpirationTime := ExpirationTime t;
     timerQueue := timerQueue t; next := next t |}.

Definition set_ExpirationTime (ts : timespec) (t : WINPR_TIMER_QUEUE_TIMER)
    : WINPR_TIMER_QUEUE_TIMER :=
  {| Flags := Flags t; DueTime := DueTime t; Period := Period t;
     Param := Param t; Callback := Callback t; FireCount := FireCount t;
     StartTime := StartTime t; ExpirationTime := ts;
     timerQueue := timerQueue t; next := next t |}.

(** The [while (node->next)] loop of [InsertTimerQueueTimer], lines
    373-379; the result is the value of [node] when the loop is left. *)
Fixpoint InsertTimerQueueTimer_loop (fuel : nat) (timer node : Z) : M Z :=
  match fuel with
  | O => out_of_fuel
  | S fuel' =>
      n <- load_entry node ;;
      if next n =? NULL then ret node
      else
        t <- load_entry timer ;;
        if timespec_compare (ExpirationTime t) (ExpirationTime n) <? 0
        then ret node
        else InsertTimerQueueTimer_loop fuel' timer (next n)
  end.

(** [InsertTimerQueueTimer], lines 361-385. *)
Definition InsertTimerQueueTimer (fuel : nat) (pHead timer : Z) : M unit :=
  h <- load_head pHead ;;
  if h =? NULL then store_head pHead timer
  else
    node <- InsertTimerQueueTimer_loop fuel timer h ;;
    n <- load_entry node ;;
    (if next n =? NULL then ret tt
     else
       nn <- load_entry (next n) ;;
       t <- load_entry timer ;;
       store_entry timer (set_next (next nn) t)) ;;;
    n' <- load_entry node ;;
    store_entry node (set_next timer n').

(** [node->Callback(node->Parameter, TRUE)]: user code.  The model
    records the call; the callback is taken not to touch the objects of
    the queue. *)
Definition call_Callback (fn param : Z) (fired : bool) : M unit :=
  emit (Ev_Callback fn param fired).

(** The [while (node)] loop of [FireExpiredTimerQueueTimers], lines
    399-421. *)
Fixpoint FireExpiredTimerQueueTimers_loop (fuel : nat)
    (CurrentTime : timespec) (timerQueue node : Z) : M unit :=
  match fuel with
  | O => out_of_fuel
  | S fuel' =>
      if node =? NULL then ret tt
      else
        n <- load_entry node ;;
        if timespec_compare CurrentTime (ExpirationTime n) >=? 0 then
          call_Callback (Callback n) (Param n) true ;;;
          n <- load_entry node ;;
          let n := set_FireCount (FireCount n + 1) n in
          store_entry node n ;;;
          if negb (Period n =? 0) then
            let n :=
              set_ExpirationTime
                (timespec_add_ms (ExpirationTime n) (Period n)) n in
            store_entry node n ;;;
            store_head timerQueue (next n) ;;;
            store_entry node (set_next NULL n) ;;;
            InsertTimerQueueTimer fuel' timerQueue node ;;;
            h <- load_head timerQueue ;;
            FireExpiredTimerQueueTimers_loop fuel' CurrentTime timerQueue h
          else
            FireExpiredTimerQueueTimers_loop fuel' CurrentTime timerQueue node
        else ret tt
  end.

(** [FireExpiredTimerQueueTimers], lines 387-424; [tval] is the clock
    reading of this pass. *)
Definition FireExpiredTimerQueueTimers (fuel : nat) (tval : timeval)
    (timerQueue : Z) : M Z :=
  h <- load_head timerQueue ;;
  if h =? NULL then ret 0
  else
    let CurrentTime := timespec_gettimeofday tval in
    h <- load_head timerQueue ;;
    FireExpiredTimerQueueTimers_loop fuel CurrentTime timerQueue h ;;;
    ret 0.

(** One turn of the [while (1)] of [TimerQueueThread], lines 434-450.
    [tval_idle] is the clock read for the idle timeout, [tval_fire] the
    one read by the firing pass after the wait.  The wait is taken to
    return with the objects as they were when it began. *)
Definition TimerQueueThread_turn (fuel : nat) (tval_idle tval_fire : timeval)
    (timerQueue : Z) : M unit :=
  emit (Ev_pthread_mutex_lock timerQueue cond_mutex) ;;;
  h <- load_head timerQueue ;;
  abstime <-
    (if h =? NULL
     then ret (timespec_add_ms (timespec_gettimeofday tval_idle) 20)
     else n <- load_entry h ;; ret (timespec_copy (ExpirationTime n))) ;;
  emit (Ev_pthread_cond_timedwait timerQueue abstime) ;;;
  FireExpiredTimerQueueTimers fuel tval_fire timerQueue ;;;
  emit (Ev_pthread_mutex_unlock timerQueue cond_mutex).

(** What [malloc] answered: the address ([NULL] on failure) and the
    indeterminate contents of the fresh storage. *)
Record malloc_result (A : Type) : Type :=
  mk_malloc_result { malloc_addr : Z; malloc_contents : A }.
Arguments mk_malloc_result {A} _ _.
Arguments malloc_addr {A} _.
Arguments malloc_contents {A} _.

Definition malloc_entry (r : malloc_result WINPR_TIMER_QUEUE_TIMER) : M Z :=
  fun m =>
    if malloc_addr r =? NULL then Done NULL m
    else Done (malloc_addr r)
           (set_queue_timers (insert (malloc_addr r) (malloc_contents r)) m).

(** [CreateTimerQueueTimer], lines 516-548.  The result is the returned
    [BOOL] and the value stored through [phNewTimer], if any. *)
Definition CreateTimerQueueTimer (fuel : nat)
    (alloc : malloc_result WINPR_TIMER_QUEUE_TIMER) (tval : timeval)
    (TimerQueue : Z) (Callback_ Parameter_ DueTime_ Period_ Flags_ : Z)
    : M (bool * option Z) :=
  timer <- malloc_entry alloc ;;
  if (timer =? NULL) || (TimerQueue =? NULL) then ret (false, None)
  else
    t <- load_entry timer ;;
    let start := timespec_add_ms (timespec_gettimeofday tval) DueTime_ in
    store_entry timer
      {| Flags := Flags_; DueTime := DueTime_; Period := Period_;
         Param := Parameter_; Callback := Callback_; FireCount := 0;
         StartTime := start; ExpirationTime := timespec_copy start;
         timerQueue := TimerQueue; next := next t |} ;;;
    InsertTimerQueueTimer fuel TimerQueue timer ;;;
    ret (true, Some timer).

(** [ChangeTimerQueueTimer], lines 550-562. *)
Definition ChangeTimerQueueTimer (TimerQueue Timer : Z)
    (DueTime_ Period_ : Z) : M bool :=
  if (TimerQueue =? NULL) || (Timer =? NULL) then ret false
  else ret true.

(** [DeleteTimerQueueTimer], lines 564-578. *)
Definition DeleteTimerQueueTimer (TimerQueue Timer CompletionEvent : Z)
    : M bool :=
  if (TimerQueue =? NULL) || (Timer =? NULL) then ret false
  else free Timer ;;; ret true.

(** The chain of a queue: the addresses met from [p] along [next] until
    [NULL]; [None] when the walk reaches storage that holds no live
    entry or is longer than [fuel]. *)
Fixpoint chain_from (fuel : nat) (m : memory) (p : Z) : option (list Z) :=
  match fuel with
  | O => None
  | S fuel' =>
      if p =? NULL then Some []
      else
        match queue_timers m !! p with
        | None => None
        | Some t =>
            match chain_from fuel' m (next t) with
            | Some l => Some (p :: l)
            | None => None
            end
        end
  end.

Definition chain (fuel : nat) (m : memory) (timerQueue : Z)
    : option (list Z) :=
  match timer_queues m !! timerQueue with
  | None => None
  | Some q => chain_from fuel m (head q)
  end.

(** The deadlines along a chain. *)
Definition deadlines (m : memory) (l : list Z) : list Z :=
  omap (fun p => total_ns ∘ ExpirationTime <$> queue_timers m !! p) l.

Fixpoint sorted (l : list Z) : bool :=
  match l with
  | [] => true
  | x :: l' =>
      match l' with
      | [] => true
      | y :: _ => (x <=? y) && sorted l'
      end
  end.

(** ** Waitable timers *)

(** The configuration macros the file is compiled under. *)
Record build : Type :=
  mk_build { WITH_POSIX_TIMER : bool; HAVE_TIMERFD_H : bool }.

(** What the operating system answers to the calls of one
    [SetWaitableTimer]: each call is made at most once. *)
Record os_answers : Type := mk_os_answers {
  timerfd_create_ret : Z;
  fcntl_ret : Z;
  timer_create_ret : Z;
  timer_create_timerid : Z;
  timerfd_settime_ret : Z;
  timer_settime_ret : Z
}.

Definition set_fd (v : Z) (t : WINPR_TIMER) : WINPR_TIMER :=
  {| fd := v; lPeriod := lPeriod t; bManualReset := bManualReset t;
     pfnCompletionRoutine := pfnCompletionRoutine t;
     lpArgToCompletionRoutine := lpArgToCompletionRoutine t;
     bInit := bInit t; tid := tid t; timeout := timeout t |}.

Definition set_tid (v : Z) (t : WINPR_TIMER) : WINPR_TIMER :=
  {| fd := fd t; lPeriod := lPeriod t; bManualReset := bManualReset t;
     pfnCompletionRoutine := pfnCompletionRoutine t;
     lpArgToCompletionRoutine := lpArgToCompletionRoutine t;
     bInit := bInit t; tid := v; timeout := timeout t |}.

Definition set_bInit (v : bool) (t : WINPR_TIMER) : WINPR_TIMER :=
  {| fd := fd t; lPeriod := lPeriod t; bManualReset := bManualReset t;
     pfnCompletionRoutine := pfnCompletionRoutine t;
     lpArgToCompletionRoutine := lpArgToCompletionRoutine t;
     bInit := v; tid := tid t; timeout := timeout t |}.

Definition set_timeout (v : itimerspec) (t : WINPR_TIMER) : WINPR_TIMER :=
  {| fd := fd t; lPeriod := lPeriod t; bManualReset := bManualReset t;
     pfnCompletionRoutine := pfnCompletionRoutine t;
     lpArgToCompletionRoutine := lpArgToCompletionRoutine t;
     bInit := bInit t; tid := tid t; timeout := v |}.

(** The three stores of lines 210-212. *)
Definition set_arm_arguments (period routine arg : Z) (t : WINPR_TIMER)
    : WINPR_TIMER :=
  {| fd := fd t; lPeriod := period; bManualReset := bManualReset t;
     pfnCompletionRoutine := routine; lpArgToCompletionRoutine := arg;
     bInit := bInit t; tid := tid t; timeout := timeout t |}.

(** [InstallWaitableTimerSignalHandler], lines 68-86. *)
Definition InstallWaitableTimerSignalHandler : M Z :=
  fun m =>
    if negb (g_WaitableTimerSignalHandlerInstalled m) then
      (emit Ev_sigaction_SIGALRM ;;;
       (fun m' => Done tt (set_installed true m')) ;;;
       ret 0) m
    else ret 0 m.

(** [InitializeWaitableTimer], lines 90-138. *)
Definition InitializeWaitableTimer (cfg : build) (os : os_answers)
    (timer : Z) : M Z :=
  t <- load_timer timer ;;
  if lpArgToCompletionRoutine t =? NULL then
    if HAVE_TIMERFD_H cfg then
      emit Ev_timerfd_create ;;;
      let t := set_fd (timerfd_create_ret os) t in
      store_timer timer t ;;;
      if fd t <=? 0 then free timer ;;; ret (-1)
      else
        emit (Ev_fcntl_O_NONBLOCK (fd t)) ;;;
        if negb (fcntl_ret os =? 0) then emit (Ev_close (fd t)) ;;; ret (-1)
        else store_timer timer (set_bInit true t) ;;; ret 0
    else store_timer timer (set_bInit true t) ;;; ret 0
  else
    if WITH_POSIX_TIMER cfg then
      InstallWaitableTimerSignalHandler ;;;
      emit (Ev_timer_create timer) ;;;
      if negb (timer_create_ret os =? 0) then ret (-1)
      else
        let t := set_tid (timer_create_timerid os) t in
        store_timer timer (set_bInit true t) ;;; ret 0
    else store_timer timer (set_bInit true t) ;;; ret 0.

(** [CreateWaitableTimerA], lines 144-165; [tid] and [timeout] keep the
    indeterminate contents of the fresh storage. *)
Definition CreateWaitableTimerA (alloc : malloc_result WINPR_TIMER)
    (bManualReset_ : bool) : M Z :=
  fun m =>
    if malloc_addr alloc =? NULL then Done NULL m
    else
      Done (malloc_addr alloc)
        (set_waitable_timers
           (insert (malloc_addr alloc)
              {| fd := -1; lPeriod := 0; bManualReset := bManualReset_;
                 pfnCompletionRoutine := NULL;
                 lpArgToCompletionRoutine := NULL; bInit := false;
                 tid := tid (malloc_contents alloc);
                 timeout := timeout (malloc_contents alloc) |}) m).

(** Modelled from the spec: [winpr_Handle_GetInfo] is defined in
    ../handle/handle.h, which is not part of this file.  The generic
    handle contract is [resolve(handle) -> (type_tag, object)]: a null
    handle does not resolve, a live object resolves to the tag it was
    created with and to itself.  The contract says nothing of a handle
    to storage that has been released; the model stops there, and no
    property below is stated of such a call. *)
Definition winpr_Handle_GetInfo (handle : Z)
    : M (option (HANDLE_TYPE * Z)) :=
  fun m =>
    if handle =? NULL then Done None m
    else
      match waitable_timers m !! handle, timer_queues m !! handle,
            queue_timers m !! handle with
      | Some _, _, _ => Done (Some (HANDLE_TYPE_TIMER, handle)) m
      | None, Some _, _ => Done (Some (HANDLE_TYPE_TIMER_QUEUE, handle)) m
      | None, None, Some _ =>
          Done (Some (HANDLE_TYPE_TIMER_QUEUE_TIMER, handle)) m
      | None, None, None => Fault m
      end.

Definition zero_timespec : timespec := {| tv_sec := 0; tv_nsec := 0 |}.
Definition zero_itimerspec : itimerspec :=
  {| it_interval := zero_timespec; it_value := zero_timespec |}.

(** Lines 222-258 of [SetWaitableTimer]: the [itimerspec] built from the
    due time and the period, [None] on the branch that returns [FALSE].
    [QuadPart * (-1)] is a [LONGLONG] product; for the least [LONGLONG]
    it is not representable and C leaves the result open: the model
    takes the value of two's-complement arithmetic, which makes the
    countdown a negative time. *)
Definition SetWaitableTimer_timeout (QuadPart lPeriod_ : Z)
    : option itimerspec :=
  let conv :=
    if QuadPart <? 0 then
      let due := INT64 (QuadPart * (-1)) in
      Some (Z.quot due 10000000, INT64 (Z.rem due 10000000 * 100))
    else if QuadPart =? 0 then Some (0, 0)
    else None in
  match conv with
  | None => None
  | Some (seconds, nanoseconds) =>
      let interval :=
        if lPeriod_ >? 0 then
          {| tv_sec := Z.quot lPeriod_ 1000;
             tv_nsec := INT64 (Z.rem lPeriod_ 1000 * 1000000) |}
        else zero_timespec in
      let value :=
        if negb (QuadPart =? 0) then
          {| tv_sec := seconds; tv_nsec := nanoseconds |}
        else interval in
      Some {| it_interval := interval; it_value := value |}
  end.

(** [SetWaitableTimer], lines 186-284.  [lpDueTime] is [None] for a null
    pointer and the pointed-to [QuadPart] otherwise. *)
Definition SetWaitableTimer (cfg : build) (os : os_answers)
    (hTimer : Z) (lpDueTime : option Z) (lPeriod_ : Z)
    (pfnCompletionRoutine_ lpArgToCompletionRoutine_ : Z) (fResume : bool)
    : M bool :=
  info <- winpr_Handle_GetInfo hTimer ;;
  match info with
  | None => ret false
  | Some (Type_, Object) =>
      if negb (bool_decide (Type_ = HANDLE_TYPE_TIMER)) then ret false
      else
        match lpDueTime with
        | None => ret false
        | Some QuadPart =>
            if lPeriod_ <? 0 then ret false
            else
              let timer := Object in
              t <- load_timer timer ;;
              store_timer timer
                (set_arm_arguments lPeriod_ pfnCompletionRoutine_
                   lpArgToCompletionRoutine_ t) ;;;
              t <- load_timer timer ;;
              status <-
                (if negb (bInit t)
                 then InitializeWaitableTimer cfg os timer
                 else ret 0) ;;
              if status <? 0 then ret false
              else if negb (WITH_POSIX_TIMER cfg) then ret true
              else
                t <- load_timer timer ;;
                store_timer timer (set_timeout zero_itimerspec t) ;;;
                match SetWaitableTimer_timeout QuadPart lPeriod_ with
                | None => ret false
                | Some its =>
                    t <- load_timer timer ;;
                    store_timer timer (set_timeout its t) ;;;
                    if pfnCompletionRoutine t =? NULL then
                      if HAVE_TIMERFD_H cfg then
                        emit (Ev_timerfd_settime (fd t) its) ;;;
                        if negb (timerfd_settime_ret os =? 0) then ret false
                        else ret true
                      else ret true
                    else
                      emit (Ev_timer_settime (tid t) its) ;;;
                      if negb (timer_settime_ret os =? 0) then ret false
                      else ret true
                end
        end
  end.

(** The [itimerspec] a settime call programs. *)
Definition programmed (e : event) : option itimerspec :=
  match e with
  | Ev_timerfd_settime _ v | Ev_timer_settime _ v => Some v
  | _ => None
  end.

(** The backing resource an event creates. *)
Inductive backing : Type := Countdown | Interval.

Definition created (e : event) : option backing :=
  match e with
  | Ev_timerfd_create => Some Countdown
  | Ev_timer_create _ => Some Interval
  | _ => None
  end.

(** ** The operating system's side of a settime call *)

(** The calls that [m'] has made beyond those of [m]. *)
Definition calls_since (m m' : memory) : list event :=
  drop (length (trace m)) (trace m').

(** The test the kernel makes of a time before it programs it
    (timerfd_settime(2) and timer_settime(2), EINVAL): no negative
    seconds, nanoseconds in [0, 1e9). *)
Definition valid_timespec (ts : timespec) : bool :=
  (0 <=? tv_sec ts) && (0 <=? tv_nsec ts) && (tv_nsec ts <? 1000000000).

Definition valid_itimerspec (its : itimerspec) : bool :=
  valid_timespec (it_interval its) && valid_timespec (it_value its).

(** [os] refuses an invalid time: a settime call among [tr] that it
    answers with 0 carries a valid [itimerspec]. *)
Definition refuses_invalid_time (os : os_answers) (tr : list event)
    : bool :=
  forallb
    (fun e =>
       match e with
       | Ev_timerfd_settime _ its =>
           negb (timerfd_settime_ret os =? 0) || valid_itimerspec its
       | Ev_timer_settime _ its =>
           negb (timer_settime_ret os =? 0) || valid_itimerspec its
       | _ => true
       end) tr.





(** ** Scenarios *)

(** A Linux build: POSIX timers and timerfd are both available. *)
Definition linux_build : build :=
  {| WITH_POSIX_TIMER := true; HAVE_TIMERFD_H := true |}.

(** An operating system on which every call succeeds. *)
Definition os_ok : os_answers :=
  {| timerfd_create_ret := 5; fcntl_ret := 0; timer_create_ret := 0;
     timer_create_timerid := 9; timerfd_settime_ret := 0;
     timer_settime_ret := 0 |}.

Definition empty_memory : memory :=
  {| waitable_timers := ∅; timer_queues := ∅; queue_timers := ∅;
     g_WaitableTimerSignalHandlerInstalled := false; trace := [] |}.

(** Storage as [malloc] hands it out: nothing in it is meaningful. *)
Definition stale_timer : WINPR_TIMER :=
  {| fd := 3; lPeriod := 17; bManualReset := true;
     pfnCompletionRoutine := 4096; lpArgToCompletionRoutine := 8192;
     bInit := true; tid := 1234;
     timeout := {| it_interval := {| tv_sec := 7; tv_nsec := 7 |};
                   it_value := {| tv_sec := 7; tv_nsec := 7 |} |} |}.

(** The memory after [CreateWaitableTimerA] returned the handle 1. *)
Definition fresh_timer_memory : memory :=
  final_memory
    (CreateWaitableTimerA (mk_malloc_result 1 stale_timer) false
       empty_memory).

Definition at_seconds (s : Z) : timespec := {| tv_sec := s; tv_nsec := 0 |}.
Definition at_millis (ms : Z) : timespec :=
  {| tv_sec := ms / 1000; tv_nsec := (ms mod 1000) * 1000000 |}.

(** An entry of the queue at address 100. *)
Definition queued (cb period : Z) (deadline : timespec) (nx : Z)
    : WINPR_TIMER_QUEUE_TIMER :=
  {| Flags := 0; DueTime := 0; Period := period; Param := 0;
     Callback := cb; FireCount := 0; StartTime := deadline;
     ExpirationTime := deadline; timerQueue := 100; next := nx |}.

(** A memory that holds the queue 100 with head [h] and the entries
    [l]. *)
Definition queue_memory (h : Z)
    (l : list (Z * WINPR_TIMER_QUEUE_TIMER)) : memory :=
  {| waitable_timers := ∅;
     timer_queues := {[ 100 := {| head := h |} ]};
     queue_timers := list_to_map l;
     g_WaitableTimerSignalHandlerInstalled := false; trace := [] |}.

(** Three one-shot entries A, B, C at addresses 1, 2, 3, due at 10 s,
    20 s and 30 s. *)
Definition queue_ABC : memory :=
  queue_memory 1
    [(1, queued 11 0 (at_seconds 10) 2);
     (2, queued 12 0 (at_seconds 20) 3);
     (3, queued 13 0 (at_seconds 30) NULL)].

(** A lone entry with a period of 100 ms, due at 0 ms. *)
Definition queue_periodic : memory :=
  queue_memory 1 [(1, queued 11 100 (at_millis 0) NULL)].

(** The memory after a due one-shot head [n] at [node] was fired [k]
    times. *)
Definition refired (k : nat) (node : Z) (n : WINPR_TIMER_QUEUE_TIMER)
    (m : memory) : memory :=
  {| waitable_timers := waitable_timers m;
     timer_queues := timer_queues m;
     queue_timers :=
       <[node := set_FireCount (FireCount n + Z.of_nat k) n]>
         (queue_timers m);
     g_WaitableTimerSignalHandlerInstalled :=
       g_WaitableTimerSignalHandlerInstalled m;
     trace :=
       trace m ++ replicate k (Ev_Callback (Callback n) (Param n) true) |}.

(** The memory after the due periodic head [n] at [node] was fired and
    detached, before it is inserted again. *)
Definition fired_and_detached (timerQueue_ node : Z)
    (n : WINPR_TIMER_QUEUE_TIMER) (m : memory) : memory :=
  {| waitable_timers := waitable_timers m;
     timer_queues := <[timerQueue_ := {| head := next n |}]> (timer_queues m);
     queue_timers :=
       <[node :=
           set_next NULL
             (set_ExpirationTime
                (timespec_add_ms (ExpirationTime n) (Period n))
                (set_FireCount (FireCount n + 1) n))]> (queue_timers m);
     g_WaitableTimerSignalHandlerInstalled :=
       g_WaitableTimerSignalHandlerInstalled m;
     trace := trace m ++ [Ev_Callback (Callback n) (Param n) true] |}.

(** The number of callback invocations in a trace. *)
Definition is_Callback (e : event) : bool :=
  match e with Ev_Callback _ _ _ => true | _ => false end.

Definition callbacks (tr : list event) : nat :=
  length (List.filter is_Callback tr).

(** The memory after the fresh timer 1 was armed with a relative due
    time of 5,000,000 intervals of 100 ns and no completion routine. *)
Definition armed_500ms : memory :=
  final_memory
    (SetWaitableTimer linux_build os_ok 1 (Some (-5000000)) 0 NULL NULL
       false fresh_timer_memory).

(** The fresh timer 1 after a call with the absolute due time 1, a
    period of 250 ms, the completion routine 77 and its argument 88. *)
Definition after_absolute_arm : memory :=
  final_memory
    (SetWaitableTimer linux_build os_ok 1 (Some 1) 250 77 88 false
       fresh_timer_memory).

(** The timer that [CreateWaitableTimerA] left at address 1. *)
Definition fresh_timer : WINPR_TIMER :=
  {| fd := -1; lPeriod := 0; bManualReset := false;
     pfnCompletionRoutine := NULL; lpArgToCompletionRoutine := NULL;
     bInit := false; tid := tid stale_timer; timeout := timeout stale_timer |}.

(** A computation that makes no call that leaves the program. *)
Definition silent {A : Type} (c : M A) : Prop :=
  forall m, trace (final_memory (c m)) = trace m.

(** The queue ABC after an entry due at 5 s was registered at address
    4; the fresh storage happened to hold a null [next]. *)
Definition after_register_at_5s : memory :=
  final_memory
    (CreateTimerQueueTimer 10
       (mk_malloc_result 4 (queued 0 0 zero_timespec NULL))
       (mk_timeval 5 0) 100 14 0 0 0 0 queue_ABC).

(** The same registration with a deadline of 25 s. *)
Definition after_register_at_25s : memory :=
  final_memory
    (CreateTimerQueueTimer 10
       (mk_malloc_result 4 (queued 0 0 zero_timespec NULL))
       (mk_timeval 25 0) 100 14 0 0 0 0 queue_ABC).

(** The queue ABC after its head A, respectively its second entry B,
    was deleted. *)
Definition after_delete_A : memory :=
  final_memory (DeleteTimerQueueTimer 100 1 NULL queue_ABC).

Definition after_delete_B : memory :=
  final_memory (DeleteTimerQueueTimer 100 2 NULL queue_ABC).

(** The lone periodic entry after one pass of the worker at 250 ms. *)
Definition after_pass_at_250ms : memory :=
  final_memory
    (FireExpiredTimerQueueTimers 10 (mk_timeval 0 250000) 100
       queue_periodic).

(** A computation only adds to the trace. *)
Definition grows {A : Type} (c : M A) : Prop :=
  forall m, exists tr, trace (final_memory (c m)) = trace m ++ tr.

(** The memory after a turn of the loop fired the lone periodic entry
    [n] at [node]: the entry is the head again. *)
Definition lone_fired (node : Z) (n : WINPR_TIMER_QUEUE_TIMER) (m : memory)
    : memory :=
  {| waitable_timers := waitable_timers m;
     timer_queues := timer_queues m;
     queue_timers :=
       <[node :=
           set_next NULL
             (set_ExpirationTime
                (timespec_add_ms (ExpirationTime n) (Period n))
                (set_FireCount (FireCount n + 1) n))]> (queue_timers m);
     g_WaitableTimerSignalHandlerInstalled :=
       g_WaitableTimerSignalHandlerInstalled m;
     trace := trace m ++ [Ev_Callback (Callback n) (Param n) true] |}.

(** The timer at address 1 after it was armed for 500 ms. *)
Definition armed_timer : WINPR_TIMER :=
  {| fd := 5; lPeriod := 0; bManualReset := false;
     pfnCompletionRoutine := NULL; lpArgToCompletionRoutine := NULL;
     bInit := true; tid := tid stale_timer;
     timeout :=
       {| it_interval := zero_timespec;
          it_value := {| tv_sec := 0; tv_nsec := 500000000 |} |} |}.

(** ** Chains as lists *)

(** [linked m p l]: following [next] from [p] in [m] meets exactly the
    entries [l], all of them live, and then [NULL]. *)
Fixpoint linked (m : memory) (p : Z) (l : list Z) : Prop :=
  match l with
  | [] => p = NULL
  | x :: l' =>
      p = x /\ x <> NULL /\
      exists n, queue_timers m !! x = Some n /\ linked m (next n) l'
  end.

(** The chain [InsertTimerQueueTimer] leaves, as a function of the
    chain it finds: [earlier x] tells that the deadline of the new entry
    [t] compares smaller than the one of the queued entry [x].  The walk
    stops at the first entry that has a successor and a later deadline,
    or at the tail; the new entry takes the place of the successor of
    the entry the walk stopped at. *)
Fixpoint insert_chain (earlier : Z -> bool) (t : Z) (l : list Z)
    : list Z :=
  match l with
  | [] => [t]
  | a :: l' =>
      match l' with
      | [] => [a; t]
      | b :: rest =>
          if earlier a then a :: t :: rest
          else a :: insert_chain earlier t l'
      end
  end.

(** The test of the walk on the entries of [m]. *)
Definition earlier_than (m : memory) (t : Z) (x : Z) : bool :=
  match queue_timers m !! t, queue_timers m !! x with
  | Some nt, Some nx =>
      timespec_compare (ExpirationTime nt) (ExpirationTime nx) <? 0
  | _, _ => false
  end.

(** The statements of [InsertTimerQueueTimer] that follow its loop,
    lines 381-384, for the entry [node] the loop stopped at. *)
Definition InsertTimerQueueTimer_link (timer node : Z) : M unit :=
  n <- load_entry node ;;
  (if next n =? NULL then ret tt
   else
     nn <- load_entry (next n) ;;
     t <- load_entry timer ;;
     store_entry timer (set_next (next nn) t)) ;;;
  n' <- load_entry node ;;
  store_entry node (set_next timer n').

(** The deadline [CreateTimerQueueTimer] gives an entry registered with
    [due] milliseconds when the clock reads [tval], lines 531-533. *)
Definition registration_deadline (tval : timeval) (due : Z) : timespec :=
  timespec_copy (timespec_add_ms (timespec_gettimeofday tval) due).

(** The queue ABC with a fourth live entry at address 4 that is not
    queued. *)
Definition queue_ABC_and (deadline : timespec) : memory :=
  queue_memory 1
    [(1, queued 11 0 (at_seconds 10) 2);
     (2, queued 12 0 (at_seconds 20) 3);
     (3, queued 13 0 (at_seconds 30) NULL);
     (4, queued 14 0 deadline NULL)].

(** ** What a firing pass may change *)

(** Two states of one entry that differ at most in the fire count, the
    deadline and the link. *)
Definition same_registration (n n' : WINPR_TIMER_QUEUE_TIMER) : Prop :=
  Flags n' = Flags n /\ DueTime n' = DueTime n /\ Period n' = Period n /\
  Param n' = Param n /\ Callback n' = Callback n /\
  StartTime n' = StartTime n /\ timerQueue n' = timerQueue n.

(** The invariant of the steps of a pass in the model, where the fire
    count is not bounded: the waitable timers and the signal
    handler flag are untouched; the same queues and the same entries
    are allocated; every entry has its registration data and a fire
    count that is not smaller; the trace has grown by invocations of
    callbacks of entries, each with the parameter of its entry and
    [TRUE]. *)
Definition fired_from (m m' : memory) : Prop :=
  waitable_timers m' = waitable_timers m /\
  g_WaitableTimerSignalHandlerInstalled m'
  = g_WaitableTimerSignalHandlerInstalled m /\
  (forall q, is_Some (timer_queues m' !! q)
             <-> is_Some (timer_queues m !! q)) /\
  (forall p,
     match queue_timers m !! p, queue_timers m' !! p with
     | Some n, Some n' =>
         same_registration n n' /\ FireCount n <= FireCount n'
     | None, None => True
     | _, _ => False
     end) /\
  exists tr,
    trace m' = trace m ++ tr /\
    Forall
      (fun e =>
         exists p n,
           queue_timers m !! p = Some n /\
           e = Ev_Callback (Callback n) (Param n) true) tr.

(** What the statements of a pass that has returned leave behind, a
    callback being taken not to touch the queue: the waitable timers and
    the signal handler flag are untouched; the same queues and the same
    entries are allocated; every entry has its registration data; the
    trace has grown by invocations of callbacks of entries, each with
    the parameter of its entry and [TRUE]. *)
Definition only_fired (m m' : memory) : Prop :=
  waitable_timers m' = waitable_timers m /\
  g_WaitableTimerSignalHandlerInstalled m'
  = g_WaitableTimerSignalHandlerInstalled m /\
  (forall q, is_Some (timer_queues m' !! q)
             <-> is_Some (timer_queues m !! q)) /\
  (forall p,
     match queue_timers m !! p, queue_timers m' !! p with
     | Some n, Some n' => same_registration n n'
     | None, None => True
     | _, _ => False
     end) /\
  exists tr,
    trace m' = trace m ++ tr /\
    Forall
      (fun e =>
         exists p n,
           queue_timers m !! p = Some n /\
           e = Ev_Callback (Callback n) (Param n) true) tr.

(** A memory that holds the queue 100, empty, and nothing else. *)
Definition queue_empty : memory := queue_memory NULL [].

(** The fresh timer 1 after it was armed with a zero due time and a
    period of 250 ms. *)
Definition armed_every_250ms : memory :=
  final_memory
    (SetWaitableTimer linux_build os_ok 1 (Some 0) 250 NULL NULL false
       fresh_timer_memory).

(** An operating system that has no descriptor left. *)
Definition os_without_descriptors : os_answers :=
  {| timerfd_create_ret := -1; fcntl_ret := 0; timer_create_ret := 0;
     timer_create_timerid := 9; timerfd_settime_ret := 0;
     timer_settime_ret := 0 |}.

(** ** The signal handler of waitable timers *)

(** [SIGALRM] as <signal.h> defines it on Linux. *)
Definition SIGALRM : Z := 14.

(** The interval of [period] milliseconds as lines 57-58 (and 245-246)
    compute it. *)
Definition period_interval (period : Z) : timespec :=
  {| tv_sec := Z.quot period 1000;
     tv_nsec := INT64 (Z.rem period 1000 * 1000000) |}.

(** [WaitableTimerSignalHandler], lines 44-66; [sival_ptr] is
    [siginfo->si_value.sival_ptr].  The handler returns nothing: the
    result of the model is the call of the completion routine it made,
    if any, as the routine, its argument and the two timer values.  That
    call comes before the [timer_settime] the trace records; the routine
    is taken not to touch the timer. *)
Definition WaitableTimerSignalHandler (signum sival_ptr : Z)
    : M (option (Z * Z * Z * Z)) :=
  let timer := sival_ptr in
  if (timer =? NULL) || negb (signum =? SIGALRM) then ret None
  else
    t <- load_timer timer ;;
    if negb (pfnCompletionRoutine t =? NULL) then
      let call :=
        (pfnCompletionRoutine t, lpArgToCompletionRoutine t, 0, 0) in
      t <- load_timer timer ;;
      if negb (lPeriod t =? 0) then
        let its :=
          {| it_interval := period_interval (lPeriod t);
             it_value := it_value (timeout t) |} in
        store_timer timer (set_timeout its t) ;;;
        emit (Ev_timer_settime (tid t) its) ;;;
        ret (Some call)
      else ret (Some call)
    else ret None.

(** ** The life of a timer queue *)

(** The pthread calls that set a queue up and tear it down.  They act
    on the pthread objects inside the queue, which the memory does not
    hold; the functions below return them, in order, beside their C
    result. *)
Inductive pthread_setup : Type :=
| Call_pthread_cond_init (q : Z)
| Call_pthread_mutex_init (q : Z) (mu : queue_mutex)
| Call_pthread_attr_init (q : Z)
| Call_sched_get_priority_max_SCHED_FIFO
| Call_pthread_attr_setschedparam (q : Z)
| Call_pthread_attr_setschedpolicy_SCHED_FIFO (q : Z)
| Call_pthread_create_TimerQueueThread (q : Z)
| Call_pthread_cond_destroy (q : Z)
| Call_pthread_mutex_destroy (q : Z) (mu : queue_mutex)
| Call_pthread_attr_destroy (q : Z).

(** A store to a field of the queue that the model does not hold: it
    needs the queue to be live. *)
Definition store_queue_field (q : Z) : M unit := fun m =>
  match timer_queues m !! q with
  | Some _ => Done tt m
  | None => Fault m
  end.

(** [StartTimerQueueThread], lines 456-470. *)
Definition StartTimerQueueThread (timerQueue_ : Z)
    : M (Z * list pthread_setup) :=
  store_queue_field timerQueue_ ;;;
  ret (0,
       [Call_pthread_cond_init timerQueue_;
        Call_pthread_mutex_init timerQueue_ cond_mutex;
        Call_pthread_mutex_init timerQueue_ mutex;
        Call_pthread_attr_init timerQueue_;
        Call_sched_get_priority_max_SCHED_FIFO;
        Call_pthread_attr_setschedparam timerQueue_;
        Call_pthread_attr_setschedpolicy_SCHED_FIFO timerQueue_;
        Call_pthread_create_TimerQueueThread timerQueue_]).

(** [CreateTimerQueue], lines 472-488: nothing is stored into the fresh
    queue before the thread is started. *)
Definition CreateTimerQueue (alloc : malloc_result WINPR_TIMER_QUEUE)
    : M (Z * list pthread_setup) :=
  if malloc_addr alloc =? NULL then ret (NULL, [])
  else
    (fun m =>
       Done tt
         (set_timer_queues
            (insert (malloc_addr alloc) (malloc_contents alloc)) m)) ;;;
    r <- StartTimerQueueThread (malloc_addr alloc) ;;
    ret (malloc_addr alloc, snd r).

(** [DeleteTimerQueueEx], lines 490-509. *)
Definition DeleteTimerQueueEx (TimerQueue CompletionEvent : Z)
    : M (bool * list pthread_setup) :=
  if TimerQueue =? NULL then ret (false, [])
  else
    free TimerQueue ;;;
    ret (true,
         [Call_pthread_cond_destroy TimerQueue;
          Call_pthread_mutex_destroy TimerQueue cond_mutex;
          Call_pthread_mutex_destroy TimerQueue mutex;
          Call_pthread_attr_destroy TimerQueue]).

(** [DeleteTimerQueue], lines 511-514. *)
Definition DeleteTimerQueue (TimerQueue : Z)
    : M (bool * list pthread_setup) :=
  DeleteTimerQueueEx TimerQueue NULL.

(** The timer 1 after it was armed with the completion routine 77, its
    argument 88, a due time of one second and a period of 250 ms. *)
Definition armed_with_routine : memory :=
  final_memory
    (SetWaitableTimer linux_build os_ok 1 (Some (-10000000)) 250 77 88 false
       fresh_timer_memory).


(** A periodic entry A at address 1, due at 10 s with a period of
    100 ms, in front of the one-shot entries B and C. *)
Definition queue_periodic_ABC : memory :=
  queue_memory 1
    [(1, queued 11 100 (at_seconds 10) 2);
     (2, queued 12 0 (at_seconds 20) 3);
     (3, queued 13 0 (at_seconds 30) NULL)].

(** An operating system on which [fcntl] fails. *)
Definition os_fcntl_fails : os_answers :=
  {| timerfd_create_ret := 5; fcntl_ret := -1; timer_create_ret := 0;
     timer_create_timerid := 9; timerfd_settime_ret := 0;
     timer_settime_ret := 0 |}.

(** The calls of a successful [InitializeWaitableTimer] on a build with
    both timer interfaces, for the timer at [timer] armed with the
    completion argument [arg] while the handler flag is [installed]. *)
Definition initialization_calls (os : os_answers) (timer arg : Z)
    (installed : bool) : list event :=
  if arg =? NULL then
    [Ev_timerfd_create; Ev_fcntl_O_NONBLOCK (timerfd_create_ret os)]
  else
    (if installed then [] else [Ev_sigaction_SIGALRM])
    ++ [Ev_timer_create timer].
(** * Properties *)

(** Split a conjunction into its parts, and nothing else. *)
Ltac split_all := repeat match goal with |- _ /\ _ => split end.

(** ** Machine integers *)

Section CIntFacts.

Lemma UINT32_id x : 0 <= x < 2 ^ 32 -> UINT32 x = x.
Proof. intros H. unfold UINT32, to_unsigned. now apply Z.mod_small. Qed.

Lemma UINT64_id x : 0 <= x < 2 ^ 64 -> UINT64 x = x.
Proof. intros H. unfold UINT64, to_unsigned. now apply Z.mod_small. Qed.

Lemma INT32_id x : - 2 ^ 31 <= x < 2 ^ 31 -> INT32 x = x.
Proof.
  intros H. unfold INT32, to_signed.
  change (32 - 1) with 31. rewrite Z.mod_small; lia.
Qed.

Lemma INT64_id x : - 2 ^ 63 <= x < 2 ^ 63 -> INT64 x = x.
Proof.
  intros H. unfold INT64, to_signed.
  change (64 - 1) with 63. rewrite Z.mod_small; lia.
Qed.

(** Going through the unsigned type does not change what the signed
    conversion sees. *)
Lemma INT64_UINT64 x : INT64 (UINT64 x) = INT64 x.
Proof.
  unfold INT64, UINT64, to_signed, to_unsigned.
  now rewrite Zplus_mod_idemp_l.
Qed.

Lemma INT64_UINT64_add x y : INT64 (UINT64 x + y) = INT64 (x + y).
Proof.
  unfold INT64, UINT64, to_signed, to_unsigned.
  rewrite <- Z.add_assoc, Zplus_mod_idemp_l.
  now rewrite Z.add_assoc.
Qed.

End CIntFacts.

(** ** Deadline arithmetic *)

Section DeadlineArithmetic.

(** Up to 4294 ms the 32-bit product does not wrap, and the function
    adds the milliseconds as the design document describes. *)
Lemma timespec_add_ms_small (ts : timespec) (ms : Z) :
  normalized ts ->
  0 <= ms <= 4294 ->
  - 2 ^ 63 <= tv_sec ts < 2 ^ 63 - 5 ->
  timespec_add_ms ts ms = add_ms_spec ts ms.
Proof.
  unfold normalized, timespec_add_ms, add_ms_spec.
  intros Hn Hms Hs.
  rewrite (UINT32_id (ms * 1000000)) by lia.
  rewrite (INT64_id (tv_nsec ts + ms * 1000000)) by lia.
  rewrite (UINT64_id (tv_nsec ts + ms * 1000000)) by lia.
  rewrite INT64_UINT64, INT64_UINT64_add.
  assert (0 <= (tv_nsec ts + ms * 1000000) / 1000000000 <= 5).
  { split.
    - apply Z.div_pos; lia.
    - apply Z.lt_succ_r. apply Z.div_lt_upper_bound; lia. }
  rewrite INT64_id by lia. reflexivity.
Qed.

Lemma add_ms_spec_total_ns (ts : timespec) (ms : Z) :
  total_ns (add_ms_spec ts ms) = total_ns ts + ms * 1000000.
Proof.
  unfold total_ns, add_ms_spec. cbn [tv_sec tv_nsec].
  pose proof (Z.div_mod (tv_nsec ts + ms * 1000000) 1000000000). lia.
Qed.

Lemma add_ms_spec_normalized (ts : timespec) (ms : Z) :
  normalized (add_ms_spec ts ms).
Proof.
  unfold normalized, add_ms_spec. cbn [tv_nsec].
  apply Z.mod_pos_bound. lia.
Qed.

(** On normalized timestamps the comparison orders the instants. *)
Lemma timespec_compare_ge (a b : timespec) :
  normalized a -> normalized b ->
  (timespec_compare a b >=? 0) = (total_ns b <=? total_ns a).
Proof.
  unfold normalized, timespec_compare, total_ns. intros Ha Hb.
  destruct (tv_sec a <? tv_sec b) eqn:E1.
  - apply Z.ltb_lt in E1. symmetry. simpl. apply Z.leb_gt. lia.
  - apply Z.ltb_ge in E1.
    destruct (tv_sec a >? tv_sec b) eqn:E2.
    + apply Z.gtb_lt in E2. symmetry. simpl. apply Z.leb_le. lia.
    + assert (tv_sec a = tv_sec b) by (rewrite Z.gtb_ltb in E2; apply Z.ltb_ge in E2; lia).
      rewrite INT64_id by lia. rewrite INT32_id by lia.
      destruct (tv_nsec a - tv_nsec b >=? 0) eqn:E3.
      * symmetry. apply Z.leb_le. apply Z.geb_le in E3. lia.
      * symmetry. apply Z.leb_gt. rewrite Z.geb_leb in E3.
        apply Z.leb_gt in E3. lia.
Qed.

End DeadlineArithmetic.

(** C8 -- [timespec_add_ms] is to add [ms * 10^6] nanoseconds for every
    unsigned 32-bit [ms].  The product [ms * 1000000] is formed in 32
    bits: at the normalized timestamp (0 s, 0 ns) and [ms = 5000] the
    function yields (0 s, 705032704 ns), while five seconds later is
    (5 s, 0 ns). *)
Theorem C8_timespec_add_ms_wraps_at_5000 :
  let ts := {| tv_sec := 0; tv_nsec := 0 |} in
  normalized ts /\ 0 <= 5000 < 2 ^ 32 /\
  timespec_add_ms ts 5000 = {| tv_sec := 0; tv_nsec := 705032704 |} /\
  add_ms_spec ts 5000 = {| tv_sec := 5; tv_nsec := 0 |} /\
  total_ns (timespec_add_ms ts 5000) <> total_ns ts + 5000 * 1000000.
Proof.
  cbv zeta. unfold normalized. cbn [tv_nsec].
  repeat split; try lia; try (vm_compute; congruence).
Qed.

(** ** Waitable timers *)

(** Symbolic execution of the straight-line code of the waitable timer:
    unfold the monad and split on every test. *)
Ltac run_monad :=
  repeat (first
    [ progress simplify_eq/=
    | progress (unfold bind, ret, load_timer, store_timer, emit, free in * )
    | case_match ]).

(** The same, reading every load back from the store before it. *)
Ltac run_arm :=
  repeat (first
    [ progress simplify_eq/=
    | match goal with
      | H : context [<[?p:=_]> _ !! ?p] |- _ => rewrite lookup_insert_eq in H
      end
    | progress (unfold bind, ret, load_timer, store_timer, emit, free in * )
    | case_match ]).

Ltac unfold_SetWaitableTimer :=
  unfold SetWaitableTimer, winpr_Handle_GetInfo, InitializeWaitableTimer,
    InstallWaitableTimerSignalHandler.

Section DueTime.

(** A relative due time [d] stands for [|d|] intervals of 100 ns. *)
Lemma SetWaitableTimer_timeout_relative (d per : Z) :
  - 2 ^ 63 < d < 0 ->
  exists its,
    SetWaitableTimer_timeout d per = Some its /\
    it_value its =
      {| tv_sec := Z.abs d / 10000000;
         tv_nsec := (Z.abs d mod 10000000) * 100 |}.
Proof.
  intros Hd. unfold SetWaitableTimer_timeout.
  assert (E1 : (d <? 0) = true) by (apply Z.ltb_lt; lia).
  assert (E2 : (d =? 0) = false) by (apply Z.eqb_neq; lia).
  rewrite E1, E2. cbn [negb].
  eexists. split; [reflexivity|]. cbn [it_value].
  rewrite INT64_id by lia.
  replace (d * -1) with (Z.abs d) by lia.
  rewrite Z.quot_div_nonneg, Z.rem_mod_nonneg by lia.
  pose proof (Z.mod_pos_bound (Z.abs d) 10000000 ltac:(lia)).
  rewrite INT64_id by lia. reflexivity.
Qed.

(** An absolute due time has no [itimerspec]. *)
Lemma SetWaitableTimer_timeout_absolute (d per : Z) :
  0 < d -> SetWaitableTimer_timeout d per = None.
Proof.
  intros Hd. unfold SetWaitableTimer_timeout.
  assert (E1 : (d <? 0) = false) by (apply Z.ltb_ge; lia).
  assert (E2 : (d =? 0) = false) by (apply Z.eqb_neq; lia).
  now rewrite E1, E2.
Qed.

(** A call that succeeds on a Linux build ends with the settime call
    that programs the [itimerspec] of the due time. *)
Lemma SetWaitableTimer_success_programs cfg os h d per pfn arg fr m m' :
  WITH_POSIX_TIMER cfg = true ->
  HAVE_TIMERFD_H cfg = true ->
  SetWaitableTimer cfg os h (Some d) per pfn arg fr m = Done true m' ->
  exists tr e its,
    trace m' = trace m ++ tr ++ [e] /\
    programmed e = Some its /\
    SetWaitableTimer_timeout d per = Some its.
Proof.
  intros Hc1 Hc2. unfold_SetWaitableTimer. rewrite Hc1, Hc2. intros H.
  run_monad;
    match goal with
    | |- exists tr e its, ((_ ++ [?a]) ++ [?b]) ++ [?c] = _ /\ _ =>
        exists [a; b], c
    | |- exists tr e its, (_ ++ [?a]) ++ [?c] = _ /\ _ => exists [a], c
    | |- exists tr e its, _ ++ [?c] = _ /\ _ => exists [], c
    end;
    eexists; rewrite <- ?app_assoc; (split; [ | split]); reflexivity.
Qed.

End DueTime.

Section Answers.

(** The calls of a [SetWaitableTimer] that returns [TRUE] on a Linux
    build end with the settime call, which the operating system has
    answered with 0. *)
Lemma SetWaitableTimer_success_answer cfg os h d per pfn arg fr m m' :
  WITH_POSIX_TIMER cfg = true ->
  HAVE_TIMERFD_H cfg = true ->
  SetWaitableTimer cfg os h (Some d) per pfn arg fr m = Done true m' ->
  exists tr e its,
    calls_since m m' = tr ++ [e] /\
    SetWaitableTimer_timeout d per = Some its /\
    ((exists fd_, e = Ev_timerfd_settime fd_ its) /\
     timerfd_settime_ret os = 0
     \/ (exists tid_, e = Ev_timer_settime tid_ its) /\
        timer_settime_ret os = 0).
Proof.
  intros Hc1 Hc2. unfold_SetWaitableTimer. rewrite Hc1, Hc2. intros H.
  unfold calls_since.
  run_monad; rewrite <- ?app_assoc, drop_app_length; cbn [app];
    match goal with
    | |- exists tr e its, [?a; ?b; ?c] = _ /\ _ => exists [a; b], c
    | |- exists tr e its, [?a; ?c] = _ /\ _ => exists [a], c
    | |- exists tr e its, [?c] = _ /\ _ => exists [], c
    end;
    eexists; (split; [reflexivity|]); (split; [reflexivity|]);
    repeat match goal with
      | H : negb _ = false |- _ => apply negb_false_iff in H
      | H : (_ =? _) = true |- _ => apply Z.eqb_eq in H
      end;
    first [ left; split; [eexists; reflexivity | assumption]
          | right; split; [eexists; reflexivity | assumption] ].
Qed.

(** The [itimerspec] of the least [LONGLONG] is not a valid time. *)
Lemma SetWaitableTimer_timeout_least (per : Z) (its : itimerspec) :
  SetWaitableTimer_timeout (- 2 ^ 63) per = Some its ->
  valid_itimerspec its = false.
Proof.
  unfold SetWaitableTimer_timeout.
  change (- 2 ^ 63 <? 0) with true. change (- 2 ^ 63 =? 0) with false.
  cbn [negb]. intros [= <-]. unfold valid_itimerspec. cbn [it_value].
  apply andb_false_iff. right. vm_compute. reflexivity.
Qed.

End Answers.

(** C7 -- For every negative due time [d] of a call of
    [SetWaitableTimer] that returns [TRUE], the calls end with the
    settime call whose initial countdown is [|d| div 10^7] seconds and
    [(|d| mod 10^7) * 100] nanoseconds, that is [|d| * 100] nanoseconds
    in all.  For the least [LONGLONG], whose magnitude [QuadPart * (-1)]
    cannot hold, this is stated of an operating system that refuses an
    invalid time. *)
Theorem C7_relative_due_time_countdown cfg os h d per pfn arg fr m m' :
  WITH_POSIX_TIMER cfg = true ->
  HAVE_TIMERFD_H cfg = true ->
  - 2 ^ 63 <= d < 0 ->
  SetWaitableTimer cfg os h (Some d) per pfn arg fr m = Done true m' ->
  - 2 ^ 63 < d \/ refuses_invalid_time os (calls_since m m') = true ->
  exists tr e its,
    trace m' = trace m ++ tr ++ [e] /\
    programmed e = Some its /\
    it_value its =
      {| tv_sec := Z.abs d / 10000000;
         tv_nsec := (Z.abs d mod 10000000) * 100 |} /\
    total_ns (it_value its) = Z.abs d * 100.
Proof.
  intros Hc1 Hc2 Hd Hrun Hos.
  assert (Hd' : - 2 ^ 63 < d < 0).
  { destruct Hos as [Hos | Hos]; [lia|].
    destruct (Z.eq_dec d (- 2 ^ 63)) as [-> | Hne]; [exfalso | lia].
    destruct (SetWaitableTimer_success_answer _ _ _ _ _ _ _ _ _ _
                Hc1 Hc2 Hrun)
      as (tr & e & its & Hcalls & Hits & He).
    apply SetWaitableTimer_timeout_least in Hits.
    rewrite Hcalls in Hos. unfold refuses_invalid_time in Hos.
    rewrite forallb_app in Hos. apply andb_true_iff in Hos as [_ Hos].
    cbn [forallb] in Hos.
    destruct He as [[[x ->] Hret] | [[x ->] Hret]];
      rewrite Hret, Hits in Hos; discriminate. }
  destruct (SetWaitableTimer_success_programs _ _ _ _ _ _ _ _ _ _ Hc1 Hc2 Hrun)
    as (tr & e & its & Htr & He & Hits).
  destruct (SetWaitableTimer_timeout_relative d per Hd') as (its' & Hits' & Hv).
  rewrite Hits in Hits'. injection Hits' as <-.
  exists tr, e, its. repeat split; try assumption.
  rewrite Hv. unfold total_ns. cbn [tv_sec tv_nsec].
  pose proof (Z.div_mod (Z.abs d) 10000000). lia.
Qed.

(** Arming with [d = -5,000,000] programs a countdown of 500 ms. *)
Lemma C7_countdown_of_500ms :
  exists tr e its,
    trace armed_500ms = trace fresh_timer_memory ++ tr ++ [e] /\
    programmed e = Some its /\
    it_value its = {| tv_sec := 0; tv_nsec := 500000000 |} /\
    total_ns (it_value its) = 500 * 1000000.
Proof.
  apply (C7_relative_due_time_countdown linux_build os_ok 1 (-5000000) 0
           NULL NULL false fresh_timer_memory armed_500ms);
    [ reflexivity | reflexivity | lia | vm_compute; reflexivity
    | right; vm_compute; reflexivity ].
Defined.


Section AbsoluteDueTime.

Ltac run_SetWaitableTimer :=
  repeat (first
    [ progress simplify_eq/=
    | match goal with
      | H : context [<[?p:=_]> _ !! ?p] |- _ => rewrite lookup_insert_eq in H
      end
    | progress (unfold bind, ret, load_timer, store_timer, emit, free in * )
    | case_match ]).

(** C4 (amended) -- For every waitable timer and every absolute
    (positive) due time, [SetWaitableTimer], built with POSIX timers,
    returns failure and arms nothing: no settime call is made, and a
    timer that was already initialized makes no call at all and keeps
    its backing resource (descriptor, native timer and initialized
    flag).  The stored period, completion routine and completion
    argument are not kept: once the handle and the period have passed
    validation they are those of the failed call. *)
Theorem C4_absolute_due_time_fails cfg os h t d per pfn arg fr m :
  WITH_POSIX_TIMER cfg = true ->
  waitable_timers m !! h = Some t ->
  0 < d ->
  exists m',
    SetWaitableTimer cfg os h (Some d) per pfn arg fr m = Done false m' /\
    (exists tr, trace m' = trace m ++ tr /\ omap programmed tr = []) /\
    (bInit t = true ->
     trace m' = trace m /\
     exists t',
       waitable_timers m' !! h = Some t' /\
       fd t' = fd t /\ tid t' = tid t /\ bInit t' = true) /\
    (h <> NULL -> 0 <= per ->
     forall t',
       waitable_timers m' !! h = Some t' ->
       lPeriod t' = per /\
       pfnCompletionRoutine t' = pfn /\
       lpArgToCompletionRoutine t' = arg).
Proof.
  intros Hc Ht Hd.
  destruct (SetWaitableTimer cfg os h (Some d) per pfn arg fr m)
    as [b m' | m' | m'] eqn:E;
    revert E; unfold_SetWaitableTimer;
    rewrite Hc, (SetWaitableTimer_timeout_absolute d per Hd); intros E.
  all: run_SetWaitableTimer.
  all: eexists; (split; [reflexivity|]); cbn; split; [|split].
  all: lazymatch goal with
       | |- exists tr, _ =>
           (* the events the call added *)
           first
             [ exists []; rewrite app_nil_r; split; reflexivity
             | rewrite <- ?app_assoc; eexists; split; reflexivity ]
       | |- bInit _ = true -> _ =>
           (* an initialized timer *)
           intros Hb;
           first
             [ rewrite Hb in *; discriminate
             | (split; [reflexivity|]);
               eexists;
               (split; [first [eassumption | apply lookup_insert_eq]|]);
               repeat split; first [assumption | reflexivity] ]
       | |- _ =>
           (* the stored arguments *)
           intros Hnull Hper t' Ht';
           first
             [ match goal with
               | H : (_ =? NULL) = true |- _ =>
                   apply Z.eqb_eq in H; contradiction
               | H : (_ <? 0) = true |- _ => apply Z.ltb_lt in H; lia
               end
             | rewrite lookup_delete_eq in Ht'; discriminate
             | rewrite lookup_insert_eq in Ht';
               injection Ht' as <-; repeat split; reflexivity ]
       end.
Qed.

End AbsoluteDueTime.

(** The amended claim of C4 at the timer 1 that was armed for 500 ms
    before. *)
Lemma C4_absolute_due_time_fails_on_armed_timer :
  exists m',
    SetWaitableTimer linux_build os_ok 1 (Some 1) 250 77 88 false
      armed_500ms = Done false m' /\
    (exists tr,
       trace m' = trace armed_500ms ++ tr /\ omap programmed tr = []) /\
    (bInit armed_timer = true ->
     trace m' = trace armed_500ms /\
     exists t',
       waitable_timers m' !! 1 = Some t' /\
       fd t' = fd armed_timer /\ tid t' = tid armed_timer /\
       bInit t' = true) /\
    (1 <> NULL -> 0 <= 250 ->
     forall t',
       waitable_timers m' !! 1 = Some t' ->
       lPeriod t' = 250 /\
       pfnCompletionRoutine t' = 77 /\
       lpArgToCompletionRoutine t' = 88).
Proof.
  apply (C4_absolute_due_time_fails linux_build os_ok 1 armed_timer 1 250
           77 88 false armed_500ms);
    [reflexivity | vm_compute; reflexivity | lia].
Defined.

(** The failed call with an absolute due time is not without effect: on
    the fresh timer 1 it stores the period, the completion routine and
    its argument, installs the signal handler and creates the native
    interval timer, so that the timer is initialized afterwards. *)
Lemma C4_failed_arm_overwrites_and_initializes :
  waitable_timers fresh_timer_memory !! 1 = Some fresh_timer /\
  0 < 1 /\
  SetWaitableTimer linux_build os_ok 1 (Some 1) 250 77 88 false
    fresh_timer_memory = Done false after_absolute_arm /\
  exists t',
    waitable_timers after_absolute_arm !! 1 = Some t' /\
    (lPeriod fresh_timer = 0 /\ lPeriod t' = 250) /\
    (pfnCompletionRoutine fresh_timer = NULL /\
     pfnCompletionRoutine t' = 77) /\
    (lpArgToCompletionRoutine fresh_timer = NULL /\
     lpArgToCompletionRoutine t' = 88) /\
    (bInit fresh_timer = false /\ bInit t' = true) /\
    (tid fresh_timer = 1234 /\ tid t' = 9) /\
    trace after_absolute_arm = [Ev_sigaction_SIGALRM; Ev_timer_create 1].
Proof.
  split; [vm_compute; reflexivity|].
  split; [lia|].
  split; [vm_compute; reflexivity|].
  eexists. split; [vm_compute; reflexivity|].
  split_all; vm_compute; reflexivity.
Qed.

Section Backing.

(** On a Linux build a successful initialization creates the backing
    resource that the completion argument selects: the countdown
    descriptor when the argument is null, the native interval timer
    otherwise.  The completion routine plays no part. *)
Lemma InitializeWaitableTimer_chooses_by_argument cfg os p t m m' :
  WITH_POSIX_TIMER cfg = true ->
  HAVE_TIMERFD_H cfg = true ->
  waitable_timers m !! p = Some t ->
  InitializeWaitableTimer cfg os p m = Done 0 m' ->
  exists tr,
    trace m' = trace m ++ tr /\
    omap created tr =
      [if lpArgToCompletionRoutine t =? NULL then Countdown else Interval].
Proof.
  intros Hc1 Hc2 Ht.
  unfold InitializeWaitableTimer, InstallWaitableTimerSignalHandler.
  rewrite Hc1, Hc2. intros H.
  run_monad; rewrite <- ?app_assoc; eexists; split; reflexivity.
Qed.

End Backing.

Section Lifetime.



End Lifetime.



(** ** Timer queues *)

Section MonadFacts.

Context {A B : Type}.

Lemma bind_Done (c : M A) (k : A -> M B) m a m' :
  c m = Done a m' -> bind c k m = k a m'.
Proof. unfold bind. now intros ->. Qed.

Lemma silent_ret (a : A) : silent (ret a).
Proof. now intros m. Qed.

Lemma silent_bind (c : M A) (k : A -> M B) :
  silent c -> (forall a, silent (k a)) -> silent (bind c k).
Proof.
  intros Hc Hk m. unfold bind. specialize (Hc m).
  destruct (c m) as [a m' | m' | m']; cbn in *; try assumption.
  now rewrite Hk.
Qed.

End MonadFacts.

Section MemoryFacts.

Lemma load_entry_live p n m :
  queue_timers m !! p = Some n -> load_entry p m = Done n m.
Proof. unfold load_entry. now intros ->. Qed.

Lemma store_entry_live p n n' m :
  queue_timers m !! p = Some n ->
  store_entry p n' m = Done tt (set_queue_timers (insert p n') m).
Proof. unfold store_entry. now intros ->. Qed.

Lemma load_head_live q qs m :
  timer_queues m !! q = Some qs -> load_head q m = Done (head qs) m.
Proof. unfold load_head. now intros ->. Qed.

Lemma store_head_live q qs p m :
  timer_queues m !! q = Some qs ->
  store_head q p m =
    Done tt (set_timer_queues (insert q {| head := p |}) m).
Proof. unfold store_head. now intros ->. Qed.

Lemma silent_load_entry p : silent (load_entry p).
Proof. intros m. unfold load_entry. now destruct (queue_timers m !! p). Qed.

Lemma silent_store_entry p n : silent (store_entry p n).
Proof. intros m. unfold store_entry. now destruct (queue_timers m !! p). Qed.

Lemma silent_load_head q : silent (load_head q).
Proof. intros m. unfold load_head. now destruct (timer_queues m !! q). Qed.

Lemma silent_store_head q p : silent (store_head q p).
Proof. intros m. unfold store_head. now destruct (timer_queues m !! q). Qed.

Lemma silent_malloc_entry r : silent (malloc_entry r).
Proof. intros m. unfold malloc_entry. now destruct (malloc_addr r =? NULL). Qed.

Lemma set_FireCount_twice a b n :
  set_FireCount b (set_FireCount a n) = set_FireCount b n.
Proof. reflexivity. Qed.

Lemma set_FireCount_same n : set_FireCount (FireCount n) n = n.
Proof. now destruct n. Qed.

End MemoryFacts.

Create HintDb silent.
#[local] Hint Resolve silent_load_entry silent_store_entry silent_load_head
  silent_store_head silent_malloc_entry : silent.

Section Insertion.

Lemma silent_InsertTimerQueueTimer_loop fuel timer node :
  silent (InsertTimerQueueTimer_loop fuel timer node).
Proof.
  revert node. induction fuel as [|fuel IH]; intros node; cbn.
  - now intros m.
  - apply silent_bind; [auto with silent|]. intros n.
    destruct (next n =? NULL); [apply silent_ret|].
    apply silent_bind; [auto with silent|]. intros t.
    destruct (_ <? 0); [apply silent_ret | apply IH].
Qed.

Lemma silent_InsertTimerQueueTimer fuel pHead timer :
  silent (InsertTimerQueueTimer fuel pHead timer).
Proof.
  unfold InsertTimerQueueTimer.
  apply silent_bind; [auto with silent|]. intros h.
  destruct (h =? NULL); [auto with silent|].
  apply silent_bind; [apply silent_InsertTimerQueueTimer_loop|]. intros node.
  apply silent_bind; [auto with silent|]. intros n.
  apply silent_bind.
  - destruct (next n =? NULL); [apply silent_ret|].
    apply silent_bind; [auto with silent|]. intros nn.
    apply silent_bind; [auto with silent|]. intros t. auto with silent.
  - intros _. apply silent_bind; [auto with silent|]. intros n'.
    auto with silent.
Qed.

(** Registration makes no call that leaves the program. *)
Lemma silent_CreateTimerQueueTimer fuel alloc tval q cb par due per fl :
  silent (CreateTimerQueueTimer fuel alloc tval q cb par due per fl).
Proof.
  unfold CreateTimerQueueTimer.
  apply silent_bind; [auto with silent|]. intros timer.
  destruct (_ || _); [apply silent_ret|].
  apply silent_bind; [auto with silent|]. intros t.
  apply silent_bind; [auto with silent|]. intros _.
  apply silent_bind; [apply silent_InsertTimerQueueTimer|]. intros _.
  apply silent_ret.
Qed.

End Insertion.

Section OneShot.

Lemma refired_none h n m :
  queue_timers m !! h = Some n -> refired 0 h n m = m.
Proof.
  intros Hn. unfold refired. destruct m as [wt tq qt g tr]. cbn in *.
  rewrite Z.add_0_r, set_FireCount_same, app_nil_r.
  now rewrite insert_id.
Qed.

(** A due one-shot entry at [node] is fired on every turn of the loop
    and is never left: whatever the fuel, the loop is still running
    when it is used up, and has fired the entry that many times. *)
Lemma one_shot_head_fires_forever fuel now q h n m :
  h <> NULL ->
  queue_timers m !! h = Some n ->
  Period n = 0 ->
  (timespec_compare now (ExpirationTime n) >=? 0) = true ->
  FireExpiredTimerQueueTimers_loop fuel now q h m
  = OutOfFuel (refired fuel h n m).
Proof.
  intros Hh. revert n m.
  induction fuel as [|fuel IH]; intros n m Hn Hp Hdue.
  - cbn. unfold out_of_fuel. now rewrite refired_none.
  - cbn [FireExpiredTimerQueueTimers_loop].
    apply Z.eqb_neq in Hh. rewrite Hh.
    rewrite (bind_Done _ _ _ _ _ (load_entry_live _ _ _ Hn)).
    rewrite Hdue. unfold call_Callback.
    erewrite bind_Done by reflexivity.
    erewrite bind_Done by (apply load_entry_live; exact Hn).
    erewrite bind_Done by (eapply store_entry_live; exact Hn).
    cbn [Period set_FireCount]. rewrite Hp. cbn [Z.eqb negb].
    rewrite (IH (set_FireCount (FireCount n + 1) n)); cycle 1.
    { cbn. apply lookup_insert_eq. }
    { exact Hp. }
    { exact Hdue. }
    f_equal. unfold refired. cbn.
    rewrite insert_insert_eq, <- app_assoc. cbn.
    f_equal. f_equal. unfold set_FireCount. cbn. f_equal. lia.
Qed.

End OneShot.

Section Replicate.

Lemma callbacks_app tr1 tr2 :
  callbacks (tr1 ++ tr2) = (callbacks tr1 + callbacks tr2)%nat.
Proof. unfold callbacks. now rewrite List.filter_app, length_app. Qed.

Lemma callbacks_replicate k fn param fired :
  callbacks (replicate k (Ev_Callback fn param fired)) = k.
Proof.
  induction k as [|k IH]; [reflexivity|].
  change (replicate (S k) ?e) with ([e] ++ replicate k e).
  rewrite callbacks_app, IH. reflexivity.
Qed.

End Replicate.

Section Pass.

(** A pass over a queue that is not empty reads the clock and runs the
    loop from the head. *)
Lemma FireExpiredTimerQueueTimers_nonempty fuel tval q qs m :
  timer_queues m !! q = Some qs ->
  head qs <> NULL ->
  FireExpiredTimerQueueTimers fuel tval q m =
  (FireExpiredTimerQueueTimers_loop fuel (timespec_gettimeofday tval) q
     (head qs) ;;; ret 0) m.
Proof.
  intros Hq Hh. unfold FireExpiredTimerQueueTimers.
  rewrite (bind_Done _ _ _ _ _ (load_head_live _ _ _ Hq)).
  apply Z.eqb_neq in Hh. rewrite Hh.
  now rewrite (bind_Done _ _ _ _ _ (load_head_live _ _ _ Hq)).
Qed.

End Pass.

(** C2 -- A due one-shot head is to be fired once and to be absent from
    the chain afterwards, and the pass is to terminate.  On the queue
    ABC at 15 s the head A is due and one-shot: the branch for a zero
    period neither removes the entry nor advances [node], so every
    amount of fuel is used up with the pass still running, A fired
    once per turn and still at the head of the chain. *)
Theorem C2_due_one_shot_head_is_fired_forever :
  forall fuel : nat,
    exists m',
      FireExpiredTimerQueueTimers fuel (mk_timeval 15 0) 100 queue_ABC
      = OutOfFuel m' /\
      trace m' = replicate fuel (Ev_Callback 11 0 true) /\
      callbacks (trace m') = fuel /\
      chain 4 m' 100 = Some [1; 2; 3].
Proof.
  intros fuel.
  exists (refired fuel 1 (queued 11 0 (at_seconds 10) 2) queue_ABC).
  split.
  - rewrite (FireExpiredTimerQueueTimers_nonempty fuel _ 100
               {| head := 1 |} queue_ABC eq_refl); [|discriminate].
    unfold bind. cbn [head].
    rewrite (one_shot_head_fires_forever fuel _ 100 1
               (queued 11 0 (at_seconds 10) 2) queue_ABC);
      [reflexivity | discriminate | reflexivity | reflexivity | reflexivity].
  - split; [reflexivity|]. split.
    + cbn [trace refired queue_ABC queue_memory app Callback Param queued].
      apply callbacks_replicate.
    + reflexivity.
Qed.

Section Detachment.

(** Inserting before a head with a later deadline: the loop stops at
    the head, and the new entry is linked behind the head in place of
    the head's successor [b], which no entry of the chain points to
    any more. *)
Lemma InsertTimerQueueTimer_replaces_successor fuel q h a b nb t nt m :
  timer_queues m !! q = Some {| head := h |} ->
  h <> NULL ->
  queue_timers m !! h = Some a ->
  next a = b ->
  b <> NULL ->
  queue_timers m !! b = Some nb ->
  queue_timers m !! t = Some nt ->
  t <> h ->
  (timespec_compare (ExpirationTime nt) (ExpirationTime a) <? 0) = true ->
  InsertTimerQueueTimer (S fuel) q t m =
  Done tt
    (set_queue_timers (insert h (set_next t a))
       (set_queue_timers (insert t (set_next (next nb) nt)) m)).
Proof.
  intros Hq Hh Ha Hab Hb Hnb Hnt Hth Hlt.
  unfold InsertTimerQueueTimer.
  rewrite (bind_Done _ _ _ _ _ (load_head_live _ _ _ Hq)).
  cbn [head]. apply Z.eqb_neq in Hh, Hb. rewrite Hh.
  assert (Hloop : InsertTimerQueueTimer_loop (S fuel) t h m = Done h m).
  { cbn [InsertTimerQueueTimer_loop].
    rewrite (bind_Done _ _ _ _ _ (load_entry_live _ _ _ Ha)).
    rewrite Hab, Hb.
    rewrite (bind_Done _ _ _ _ _ (load_entry_live _ _ _ Hnt)).
    now rewrite Hlt. }
  rewrite (bind_Done _ _ _ _ _ Hloop).
  rewrite (bind_Done _ _ _ _ _ (load_entry_live _ _ _ Ha)).
  rewrite Hab, Hb.
  unfold bind at 1.
  rewrite (bind_Done _ _ _ _ _ (load_entry_live _ _ _ Hnb)).
  rewrite (bind_Done _ _ _ _ _ (load_entry_live _ _ _ Hnt)).
  rewrite (store_entry_live _ _ _ _ Hnt).
  assert (Ha' : queue_timers
                  (set_queue_timers (insert t (set_next (next nb) nt)) m)
                !! h = Some a).
  { cbn. now rewrite lookup_insert_ne. }
  rewrite (bind_Done _ _ _ _ _ (load_entry_live _ _ _ Ha')).
  now rewrite (store_entry_live _ _ _ _ Ha').
Qed.

End Detachment.

(** C1 -- Registration is to splice the new entry before the first
    entry whose deadline is not smaller, to detach no queued entry and
    to leave the chain sorted.  The loop of [InsertTimerQueueTimer]
    stops at the first entry with a greater deadline and the new entry
    is then linked after it, in place of its successor: registering an
    entry due at 5 s on the chain A (10 s), B (20 s), C (30 s) yields
    the chain A, new, C -- B is detached and the deadlines read 10 s,
    5 s, 30 s. *)
Theorem C1_registration_detaches_and_misorders :
  chain 10 queue_ABC 100 = Some [1; 2; 3] /\
  sorted (deadlines queue_ABC [1; 2; 3]) = true /\
  CreateTimerQueueTimer 10
    (mk_malloc_result 4 (queued 0 0 zero_timespec NULL))
    (mk_timeval 5 0) 100 14 0 0 0 0 queue_ABC
  = Done (true, Some 4) after_register_at_5s /\
  chain 10 after_register_at_5s 100 = Some [1; 4; 3] /\
  deadlines after_register_at_5s [1; 4; 3]
  = [10000000000; 5000000000; 30000000000] /\
  sorted (deadlines after_register_at_5s [1; 4; 3]) = false /\
  is_Some (queue_timers after_register_at_5s !! 2).
Proof.
  split_all; try (vm_compute; reflexivity).
  vm_compute. eexists. reflexivity.
Qed.

(** A deadline between those of the last two entries is not spliced
    before the last entry either: the loop never compares with the
    tail, and the new entry is appended behind it. *)
Lemma registration_appends_behind_later_tail :
  CreateTimerQueueTimer 10
    (mk_malloc_result 4 (queued 0 0 zero_timespec NULL))
    (mk_timeval 25 0) 100 14 0 0 0 0 queue_ABC
  = Done (true, Some 4) after_register_at_25s /\
  chain 10 after_register_at_25s 100 = Some [1; 2; 3; 4] /\
  deadlines after_register_at_25s [1; 2; 3; 4]
  = [10000000000; 20000000000; 30000000000; 25000000000].
Proof. split_all; vm_compute; reflexivity. Qed.

(** C3 -- Cancellation is to remove the entry from the chain and to
    leave the other entries reachable.  [DeleteTimerQueueTimer] only
    frees the entry: after the head A of the chain A, B, C is deleted
    the call returns success and no callback ran, but the head of the
    queue still holds the address of A, whose storage is gone, and no
    walk from the head reaches B or C; after B is deleted, A still
    links to it. *)
Theorem C3_delete_frees_without_unlinking :
  chain 10 queue_ABC 100 = Some [1; 2; 3] /\
  DeleteTimerQueueTimer 100 1 NULL queue_ABC = Done true after_delete_A /\
  trace after_delete_A = [Ev_free 1] /\
  timer_queues after_delete_A !! 100 = Some {| head := 1 |} /\
  queue_timers after_delete_A !! 1 = None /\
  (forall fuel, chain fuel after_delete_A 100 = None) /\
  DeleteTimerQueueTimer 100 2 NULL queue_ABC = Done true after_delete_B /\
  (next <$> queue_timers after_delete_B !! 1) = Some 2 /\
  queue_timers after_delete_B !! 2 = None /\
  (forall fuel, chain fuel after_delete_B 100 = None).
Proof.
  split_all; try (vm_compute; reflexivity).
  - intros [|fuel]; vm_compute; reflexivity.
  - intros [|[|fuel]]; vm_compute; reflexivity.
Qed.

Section Cancellation.

(** Cancelling a live entry frees its storage and writes nothing
    else: the head of every queue and the links of all other entries
    are as before, whether or not they point to the freed entry. *)
Lemma DeleteTimerQueueTimer_only_frees q t ce n m :
  q <> NULL ->
  t <> NULL ->
  queue_timers m !! t = Some n ->
  timer_queues m !! t = None ->
  exists m',
    DeleteTimerQueueTimer q t ce m = Done true m' /\
    timer_queues m' = timer_queues m /\
    queue_timers m' = delete t (queue_timers m) /\
    trace m' = trace m ++ [Ev_free t].
Proof.
  intros Hq Ht Hn Hnq. unfold DeleteTimerQueueTimer.
  apply Z.eqb_neq in Hq, Ht. rewrite Hq, Ht. cbn [orb].
  unfold bind, free. rewrite Hn.
  eexists. split.
  - destruct (waitable_timers m !! t), (timer_queues m !! t); reflexivity.
  - cbn. repeat split. now apply delete_id.
Qed.

End Cancellation.

Section Locking.

Lemma DeleteTimerQueueTimer_trace q t ce m :
  trace (final_memory (DeleteTimerQueueTimer q t ce m)) = trace m \/
  trace (final_memory (DeleteTimerQueueTimer q t ce m))
  = trace m ++ [Ev_free t].
Proof.
  unfold DeleteTimerQueueTimer, bind, free, ret, emit.
  destruct (_ || _); [now left|].
  destruct (waitable_timers m !! t), (timer_queues m !! t),
    (queue_timers m !! t); cbn; auto.
Qed.

Lemma silent_grows {A : Type} (c : M A) : silent c -> grows c.
Proof. intros H m. exists []. now rewrite app_nil_r. Qed.

Lemma grows_emit e : grows (emit e).
Proof. intros m. now exists [e]. Qed.

Lemma grows_bind {A B : Type} (c : M A) (k : A -> M B) :
  grows c -> (forall a, grows (k a)) -> grows (bind c k).
Proof.
  intros Hc Hk m. unfold bind. destruct (Hc m) as [tr Htr].
  destruct (c m) as [a m' | m' | m']; cbn in *; eauto.
  destruct (Hk a m') as [tr' Htr']. exists (tr ++ tr').
  now rewrite Htr', Htr, app_assoc.
Qed.

Lemma grows_FireExpiredTimerQueueTimers_loop fuel now q node :
  grows (FireExpiredTimerQueueTimers_loop fuel now q node).
Proof.
  revert node. induction fuel as [|fuel IH]; intros node; cbn.
  - apply silent_grows. now intros m.
  - destruct (node =? NULL); [apply silent_grows, silent_ret|].
    apply grows_bind; [auto using silent_grows with silent|]. intros n.
    destruct (_ >=? 0); [|apply silent_grows, silent_ret].
    apply grows_bind; [apply grows_emit|]. intros _.
    apply grows_bind; [auto using silent_grows with silent|]. intros n'.
    apply grows_bind; [auto using silent_grows with silent|]. intros _.
    destruct (negb _); [|apply IH].
    apply grows_bind; [auto using silent_grows with silent|]. intros _.
    apply grows_bind; [auto using silent_grows with silent|]. intros _.
    apply grows_bind; [auto using silent_grows with silent|]. intros _.
    apply grows_bind;
      [apply silent_grows, silent_InsertTimerQueueTimer|]. intros _.
    apply grows_bind; [auto using silent_grows with silent|]. intros h.
    apply IH.
Qed.

Lemma grows_FireExpiredTimerQueueTimers fuel tval q :
  grows (FireExpiredTimerQueueTimers fuel tval q).
Proof.
  unfold FireExpiredTimerQueueTimers.
  apply grows_bind; [auto using silent_grows with silent|]. intros h.
  destruct (h =? NULL); [apply silent_grows, silent_ret|].
  apply grows_bind; [auto using silent_grows with silent|]. intros h'.
  apply grows_bind; [apply grows_FireExpiredTimerQueueTimers_loop|].
  intros _. apply silent_grows, silent_ret.
Qed.

(** The worker takes [cond_mutex] before anything else. *)
Lemma TimerQueueThread_turn_locks_first fuel tval_idle tval_fire q m :
  exists tr,
    trace (final_memory (TimerQueueThread_turn fuel tval_idle tval_fire q m))
    = trace m ++ Ev_pthread_mutex_lock q cond_mutex :: tr.
Proof.
  unfold TimerQueueThread_turn.
  match goal with
  | |- context [bind (emit ?e) ?k m] =>
      assert (Hk : grows (k tt)); [|destruct (Hk (final_memory (emit e m))) as [tr Htr]]
  end.
  - apply grows_bind; [auto using silent_grows with silent|]. intros h.
    apply grows_bind.
    + destruct (h =? NULL); [apply silent_grows, silent_ret|].
      apply grows_bind; [auto using silent_grows with silent|]. intros n.
      apply silent_grows, silent_ret.
    + intros abstime.
      apply grows_bind; [apply grows_emit|]. intros _.
      apply grows_bind; [apply grows_FireExpiredTimerQueueTimers|].
      intros _. apply grows_emit.
  - exists tr. unfold bind at 1. cbn [emit].
    cbn [emit final_memory trace] in Htr. rewrite Htr.
    now rewrite <- app_assoc.
Qed.

End Locking.

(** C9 -- Every mutation of the chain by a caller is to happen under
    the mutex the worker uses and to be followed by a signal on the
    condition variable.  The worker takes [cond_mutex] first on each
    turn, but neither caller makes any pthread call: registration
    makes no call at all and cancellation only calls [free], for all
    inputs; on the queue ABC a registration changes the chain with an
    empty trace. *)
Theorem C9_callers_neither_lock_nor_signal :
  (forall fuel alloc tval q cb par due per fl m,
     trace (final_memory
              (CreateTimerQueueTimer fuel alloc tval q cb par due per fl m))
     = trace m) /\
  (forall q t ce m,
     trace (final_memory (DeleteTimerQueueTimer q t ce m)) = trace m \/
     trace (final_memory (DeleteTimerQueueTimer q t ce m))
     = trace m ++ [Ev_free t]) /\
  (forall fuel tval_idle tval_fire q m,
     exists tr,
       trace (final_memory
                (TimerQueueThread_turn fuel tval_idle tval_fire q m))
       = trace m ++ Ev_pthread_mutex_lock q cond_mutex :: tr) /\
  chain 10 queue_ABC 100 <> chain 10 after_register_at_5s 100 /\
  trace after_register_at_5s = [] /\
  trace (final_memory
           (TimerQueueThread_turn 10 (mk_timeval 0 0) (mk_timeval 5 0) 100
              queue_ABC))
  = [Ev_pthread_mutex_lock 100 cond_mutex;
     Ev_pthread_cond_timedwait 100 (at_seconds 10);
     Ev_pthread_mutex_unlock 100 cond_mutex].
Proof.
  split; [intros; apply silent_CreateTimerQueueTimer|].
  split; [intros; apply DeleteTimerQueueTimer_trace|].
  split; [intros; apply TimerQueueThread_turn_locks_first|].
  split_all; try (vm_compute; reflexivity).
  vm_compute. discriminate.
Qed.

(** C10 -- For non-null handles [ChangeTimerQueueTimer] returns success
    and leaves the whole memory as it was: the entry, with its
    deadline, due time, period, callback, argument and fire count, and
    the chain of the queue. *)
Theorem C10_ChangeTimerQueueTimer_changes_nothing
    (TimerQueue Timer DueTime_ Period_ : Z) (m : memory) :
  TimerQueue <> NULL ->
  Timer <> NULL ->
  ChangeTimerQueueTimer TimerQueue Timer DueTime_ Period_ m = Done true m.
Proof.
  intros Hq Ht. unfold ChangeTimerQueueTimer.
  apply Z.eqb_neq in Hq, Ht. now rewrite Hq, Ht.
Qed.

(** Changing the entry A of the queue ABC changes nothing. *)
Lemma C10_ChangeTimerQueueTimer_on_queue_ABC :
  ChangeTimerQueueTimer 100 1 5000 250 queue_ABC = Done true queue_ABC.
Proof.
  apply (C10_ChangeTimerQueueTimer_changes_nothing 100 1 5000 250 queue_ABC);
    unfold NULL; lia.
Defined.

Section Periodic.

(** One turn of the loop on a due periodic head: the entry is fired,
    counted, given its next deadline and detached; it is then handed
    to [InsertTimerQueueTimer], and the loop goes on from the head. *)
Lemma periodic_head_turn fuel now q qs h n m :
  timer_queues m !! q = Some qs ->
  h <> NULL ->
  queue_timers m !! h = Some n ->
  (timespec_compare now (ExpirationTime n) >=? 0) = true ->
  Period n <> 0 ->
  FireExpiredTimerQueueTimers_loop (S fuel) now q h m =
  (InsertTimerQueueTimer fuel q h ;;;
   h' <- load_head q ;;
   FireExpiredTimerQueueTimers_loop fuel now q h')
    (fired_and_detached q h n m).
Proof.
  intros Hq Hh Hn Hdue Hp.
  cbn [FireExpiredTimerQueueTimers_loop].
  apply Z.eqb_neq in Hh, Hp. rewrite Hh.
  rewrite (bind_Done _ _ _ _ _ (load_entry_live _ _ _ Hn)).
  rewrite Hdue. unfold call_Callback.
  erewrite bind_Done by reflexivity.
  erewrite bind_Done by (apply load_entry_live; exact Hn).
  erewrite bind_Done by (eapply store_entry_live; exact Hn).
  cbn [Period set_FireCount]. rewrite Hp. cbn [negb].
  erewrite bind_Done by (eapply store_entry_live; apply lookup_insert_eq).
  erewrite bind_Done by (eapply store_head_live; exact Hq).
  erewrite bind_Done by (eapply store_entry_live; apply lookup_insert_eq).
  unfold fired_and_detached, set_queue_timers, set_timer_queues, emit.
  cbn. rewrite !insert_insert_eq. reflexivity.
Qed.

(** Up to 4294 ms the period is added exactly. *)
Lemma deadline_advances_by_period (d : timespec) (p : Z) :
  0 <= p <= 4294 ->
  normalized d ->
  - 2 ^ 63 <= tv_sec d < 2 ^ 63 - 5 ->
  normalized (timespec_add_ms d p) /\
  total_ns (timespec_add_ms d p) = total_ns d + p * 1000000.
Proof.
  intros Hp Hd Hs. rewrite timespec_add_ms_small by assumption.
  split; [apply add_ms_spec_normalized | apply add_ms_spec_total_ns].
Qed.

End Periodic.

Section CatchUp.

(** A turn of the loop on a lone periodic entry that is due. *)
Lemma lone_periodic_turn fuel now q h n m :
  timer_queues m !! q = Some {| head := h |} ->
  h <> NULL ->
  queue_timers m !! h = Some n ->
  next n = NULL ->
  (timespec_compare now (ExpirationTime n) >=? 0) = true ->
  Period n <> 0 ->
  FireExpiredTimerQueueTimers_loop (S fuel) now q h m =
  FireExpiredTimerQueueTimers_loop fuel now q h (lone_fired h n m).
Proof.
  intros Hq Hh Hn Hnext Hdue Hp.
  rewrite (periodic_head_turn fuel now q _ h n m Hq Hh Hn Hdue Hp).
  unfold InsertTimerQueueTimer.
  assert (Hq1 : timer_queues (fired_and_detached q h n m) !! q
                = Some {| head := NULL |}).
  { cbn. rewrite Hnext. apply lookup_insert_eq. }
  unfold bind at 1.
  rewrite (bind_Done _ _ _ _ _ (load_head_live _ _ _ Hq1)).
  cbn [head Z.eqb NULL].
  change (0 =? 0) with true. cbn match.
  rewrite (store_head_live _ _ _ _ Hq1).
  unfold bind.
  erewrite load_head_live by (cbn; apply lookup_insert_eq).
  cbn [head]. f_equal.
  unfold lone_fired, fired_and_detached, set_timer_queues. cbn.
  rewrite insert_insert_eq, insert_id by assumption. reflexivity.
Qed.

Lemma seconds_below (a b : timespec) :
  normalized a -> normalized b ->
  total_ns a <= total_ns b -> tv_sec a <= tv_sec b.
Proof. unfold normalized, total_ns. lia. Qed.

(** A lone periodic entry that is [k] whole periods behind the clock
    is fired [k + 1] times in one pass: the pass catches up. *)
Lemma lone_periodic_entry_catches_up (k : nat) :
  forall fuel now q h n m,
    timer_queues m !! q = Some {| head := h |} ->
    h <> NULL ->
    queue_timers m !! h = Some n ->
    next n = NULL ->
    0 < Period n <= 4294 ->
    normalized now ->
    tv_sec now < 2 ^ 63 - 5 ->
    normalized (ExpirationTime n) ->
    - 2 ^ 63 <= tv_sec (ExpirationTime n) ->
    total_ns (ExpirationTime n) + Z.of_nat k * (Period n * 1000000)
      <= total_ns now
      < total_ns (ExpirationTime n)
        + (Z.of_nat k + 1) * (Period n * 1000000) ->
    (k + 2 <= fuel)%nat ->
    exists m' n',
      FireExpiredTimerQueueTimers_loop fuel now q h m = Done tt m' /\
      trace m'
      = trace m
        ++ replicate (S k) (Ev_Callback (Callback n) (Param n) true) /\
      timer_queues m' = timer_queues m /\
      queue_timers m' !! h = Some n' /\
      FireCount n' = FireCount n + Z.of_nat (S k) /\
      total_ns (ExpirationTime n')
      = total_ns (ExpirationTime n)
        + Z.of_nat (S k) * (Period n * 1000000).
Proof.
  induction k as [|k IH];
    intros fuel now q h n m Hq Hh Hn Hnext Hp Hnow Hsec Hd Hlo Hk Hfuel.
  - destruct fuel as [|[|fuel]]; try lia.
    assert (Hle : total_ns (ExpirationTime n) <= total_ns now) by lia.
    pose proof (seconds_below _ _ Hd Hnow Hle) as Hs.
    destruct (deadline_advances_by_period (ExpirationTime n) (Period n))
      as [Hd1 Ht1]; try assumption; try lia.
    rewrite (lone_periodic_turn _ now q h n m Hq Hh Hn Hnext);
      [ | rewrite timespec_compare_ge by assumption; now apply Z.leb_le
        | lia ].
    cbn [FireExpiredTimerQueueTimers_loop].
    apply Z.eqb_neq in Hh. rewrite Hh.
    erewrite bind_Done
      by (apply load_entry_live; cbn; apply lookup_insert_eq).
    cbn [ExpirationTime set_next set_ExpirationTime].
    rewrite timespec_compare_ge by assumption.
    replace (_ <=? _) with false by (symmetry; apply Z.leb_gt; lia).
    eexists _, _. split; [reflexivity|].
    split; [reflexivity|]. split; [reflexivity|].
    split; [cbn; apply lookup_insert_eq|].
    cbn. split; lia.
  - destruct fuel as [|fuel]; try lia.
    assert (Hle : total_ns (ExpirationTime n) <= total_ns now) by lia.
    pose proof (seconds_below _ _ Hd Hnow Hle) as Hs.
    destruct (deadline_advances_by_period (ExpirationTime n) (Period n))
      as [Hd1 Ht1]; try assumption; try lia.
    rewrite (lone_periodic_turn _ now q h n m Hq Hh Hn Hnext);
      [ | rewrite timespec_compare_ge by assumption; now apply Z.leb_le
        | lia ].
    set (n1 := set_next NULL
                 (set_ExpirationTime
                    (timespec_add_ms (ExpirationTime n) (Period n))
                    (set_FireCount (FireCount n + 1) n))).
    assert (H1 : queue_timers (lone_fired h n m) !! h = Some n1)
      by (cbn; apply lookup_insert_eq).
    assert (H2 : 0 < Period n1 <= 4294) by (cbn; lia).
    assert (H3 : - 2 ^ 63 <= tv_sec (ExpirationTime n1)).
    { cbn [n1 ExpirationTime set_next set_ExpirationTime].
      rewrite timespec_add_ms_small by (try assumption; lia).
      pose proof (Z.div_pos (tv_nsec (ExpirationTime n)
                             + Period n * 1000000) 1000000000).
      unfold normalized in Hd. cbn. lia. }
    assert (H4 : total_ns (ExpirationTime n1)
                 + Z.of_nat k * (Period n1 * 1000000)
                 <= total_ns now
                 < total_ns (ExpirationTime n1)
                   + (Z.of_nat k + 1) * (Period n1 * 1000000)).
    { cbn [n1 ExpirationTime Period set_next set_ExpirationTime
             set_FireCount].
      rewrite Ht1. lia. }
    assert (H5 : (k + 2 <= fuel)%nat) by lia.
    destruct (IH fuel now q h n1 (lone_fired h n m) Hq Hh H1 eq_refl H2
                Hnow Hsec Hd1 H3 H4 H5)
      as (m' & n' & Hrun & Htr & Htq & Hn' & Hfc & Hexp).
    exists m', n'. split; [exact Hrun|].
      split.
      { rewrite Htr. cbn [lone_fired trace n1 Callback Param set_next
                            set_ExpirationTime set_FireCount].
        rewrite <- app_assoc. reflexivity. }
      split; [exact Htq|]. split; [exact Hn'|].
      cbn [n1 ExpirationTime Period FireCount set_next set_ExpirationTime
             set_FireCount] in Hfc, Hexp.
      rewrite Hfc, Hexp, Ht1. split; lia.
Qed.

End CatchUp.

(** One pass at 250 ms over the lone entry that was due at 0 ms with a
    period of 100 ms fires it three times, not at most once: its
    deadline is 300 ms afterwards. *)
Lemma C5_one_pass_fires_the_entry_three_times :
  (timespec_compare (timespec_gettimeofday (mk_timeval 0 250000))
     (at_millis 0) >=? 0) = true /\
  FireExpiredTimerQueueTimers 10 (mk_timeval 0 250000) 100 queue_periodic
  = Done 0 after_pass_at_250ms /\
  trace after_pass_at_250ms
  = [Ev_Callback 11 0 true; Ev_Callback 11 0 true; Ev_Callback 11 0 true] /\
  callbacks (trace after_pass_at_250ms) = 3%nat /\
  ~ (callbacks (trace after_pass_at_250ms) <= 1)%nat /\
  (FireCount <$> queue_timers after_pass_at_250ms !! 1) = Some 3 /\
  (ExpirationTime <$> queue_timers after_pass_at_250ms !! 1)
  = Some (at_millis 300) /\
  chain 10 after_pass_at_250ms 100 = Some [1].
Proof.
  split_all; try (vm_compute; reflexivity).
  vm_compute. lia.
Qed.

(** * Further properties of the code *)

(** Decide a closed statement about the order of integers. *)
Ltac closed_order :=
  unfold normalized; vm_compute; repeat split;
  first [reflexivity | discriminate].

(** ** Deadline arithmetic *)

Section AddMilliseconds.

Lemma timespec_add_ms_nsec_range (ts : timespec) (ms : Z) :
  0 <= tv_nsec (timespec_add_ms ts ms) < 1000000000.
Proof.
  unfold timespec_add_ms. cbn [tv_nsec]. apply Z.mod_pos_bound. lia.
Qed.

(** Whatever the timestamp and the count, also for a timestamp that is
    not normalized and for a count whose product wraps,
    [timespec_add_ms] leaves the nanoseconds in [0, 1e9). *)
Theorem timespec_add_ms_normalizes (ts : timespec) (ms : Z) :
  normalized (timespec_add_ms ts ms).
Proof. unfold normalized. apply timespec_add_ms_nsec_range. Qed.

(** On a normalized timestamp [timespec_add_ms] adds the 32-bit product
    [ms * 1000000 mod 2^32] nanoseconds: the full [ms] milliseconds for
    counts up to 4294, less for every greater count. *)
Theorem timespec_add_ms_adds_wrapped_product (ts : timespec) (ms : Z) :
  normalized ts ->
  0 <= ms < 2 ^ 32 ->
  - 2 ^ 63 <= tv_sec ts < 2 ^ 63 - 5 ->
  total_ns (timespec_add_ms ts ms)
  = total_ns ts + (ms * 1000000) mod 2 ^ 32 /\
  (ms <= 4294 ->
   total_ns (timespec_add_ms ts ms) = total_ns ts + ms * 1000000) /\
  (4294 < ms ->
   total_ns (timespec_add_ms ts ms) < total_ns ts + ms * 1000000).
Proof.
  intros Hn Hms Hs.
  assert (Hp : 0 <= (ms * 1000000) mod 2 ^ 32 < 2 ^ 32)
    by (apply Z.mod_pos_bound; lia).
  assert (Hgen : total_ns (timespec_add_ms ts ms)
                 = total_ns ts + (ms * 1000000) mod 2 ^ 32).
  { unfold normalized in Hn. unfold timespec_add_ms, total_ns.
    cbn [tv_sec tv_nsec].
    unfold UINT32, to_unsigned.
    set (p := (ms * 1000000) mod 2 ^ 32) in *. clearbody p.
    change (2 ^ 32) with 4294967296 in Hp.
    fold (UINT64 (INT64 (tv_nsec ts + p))).
    rewrite !(INT64_id (tv_nsec ts + p)) by lia.
    rewrite !(UINT64_id (tv_nsec ts + p)) by lia.
    fold (UINT64 (tv_sec ts)).
    rewrite INT64_UINT64, INT64_UINT64_add.
    assert (0 <= (tv_nsec ts + p) / 1000000000 <= 5).
    { split.
      - apply Z.div_pos; lia.
      - apply Z.lt_succ_r. apply Z.div_lt_upper_bound; lia. }
    rewrite INT64_id by lia.
    pose proof (Z.div_mod (tv_nsec ts + p) 1000000000 ltac:(lia)). lia. }
  split; [exact Hgen|]. split.
  - intros Hle. rewrite Hgen. rewrite Z.mod_small by lia. reflexivity.
  - intros Hgt. rewrite Hgen. lia.
Qed.

(** The product wraps at 5000 ms, and does not at 20 ms. *)
Lemma timespec_add_ms_adds_wrapped_product_at_5000 :
  total_ns (timespec_add_ms (at_seconds 10) 5000)
  = total_ns (at_seconds 10) + (5000 * 1000000) mod 2 ^ 32 /\
  (5000 <= 4294 ->
   total_ns (timespec_add_ms (at_seconds 10) 5000)
   = total_ns (at_seconds 10) + 5000 * 1000000) /\
  (4294 < 5000 ->
   total_ns (timespec_add_ms (at_seconds 10) 5000)
   < total_ns (at_seconds 10) + 5000 * 1000000).
Proof.
  apply (timespec_add_ms_adds_wrapped_product (at_seconds 10) 5000);
    unfold normalized; cbn; lia.
Defined.

End AddMilliseconds.

Section Comparison.

(** On normalized timestamps [timespec_compare] is the sign of the
    order of the instants: negative, zero or positive as the first
    instant is before, equal to or after the second, and exchanging the
    arguments negates the result. *)
Theorem timespec_compare_orders_instants (a b : timespec) :
  normalized a ->
  normalized b ->
  (timespec_compare a b < 0 <-> total_ns a < total_ns b) /\
  (timespec_compare a b = 0 <-> a = b) /\
  (0 < timespec_compare a b <-> total_ns b < total_ns a) /\
  timespec_compare b a = - timespec_compare a b.
Proof.
  unfold normalized, timespec_compare, total_ns. intros Ha Hb.
  destruct a as [sa na], b as [sb nb]. cbn [tv_sec tv_nsec] in *.
  rewrite !Z.gtb_ltb.
  assert (Heq : forall x y : Z,
             {| tv_sec := sa; tv_nsec := na |}
             = {| tv_sec := sb; tv_nsec := nb |} <-> sa = sb /\ na = nb).
  { intros _ _. split; [intros [= -> ->]; auto | intros [-> ->]; auto]. }
  rewrite (Heq 0 0). clear Heq.
  destruct (Z.ltb_spec sa sb) as [Hlt | Hge].
  - destruct (Z.ltb_spec sb sa); lia.
  - destruct (Z.ltb_spec sb sa) as [Hgt | Hle]; [lia|].
    assert (sa = sb) by lia. subst sb.
    rewrite (INT64_id (na - nb)), (INT32_id (na - nb)) by lia.
    rewrite (INT64_id (nb - na)), (INT32_id (nb - na)) by lia.
    lia.
Qed.

(** The comparison of 10 s with 20 s. *)
Lemma timespec_compare_orders_10s_and_20s :
  (timespec_compare (at_seconds 10) (at_seconds 20) < 0
   <-> total_ns (at_seconds 10) < total_ns (at_seconds 20)) /\
  (timespec_compare (at_seconds 10) (at_seconds 20) = 0
   <-> at_seconds 10 = at_seconds 20) /\
  (0 < timespec_compare (at_seconds 10) (at_seconds 20)
   <-> total_ns (at_seconds 20) < total_ns (at_seconds 10)) /\
  timespec_compare (at_seconds 20) (at_seconds 10)
  = - timespec_compare (at_seconds 10) (at_seconds 20).
Proof.
  apply (timespec_compare_orders_instants (at_seconds 10) (at_seconds 20));
    unfold normalized; cbn; lia.
Defined.

End Comparison.

(** ** Chains *)

Section Chains.

Lemma linked_inj m p l1 l2 : linked m p l1 -> linked m p l2 -> l1 = l2.
Proof.
  revert p l2. induction l1 as [|x l1 IH]; intros p [|y l2]; cbn.
  - reflexivity.
  - intros -> (<- & Hy & _). contradiction.
  - intros (<- & Hx & _) ->. contradiction.
  - intros (<- & _ & n & Hn & H1) (<- & _ & n' & Hn' & H2).
    rewrite Hn in Hn'. injection Hn' as <-.
    f_equal. eapply IH; eassumption.
Qed.

Lemma linked_suffix m p l x :
  linked m p l -> x ∈ l ->
  exists l1 l2, l = l1 ++ x :: l2 /\ linked m x (x :: l2).
Proof.
  revert p. induction l as [|y l IH]; intros p Hl Hx.
  - now apply elem_of_nil in Hx.
  - apply elem_of_cons in Hx as [-> | Hx].
    + exists [], l. split; [reflexivity|].
      destruct Hl as (-> & Hl). cbn. auto.
    + destruct Hl as (_ & _ & n & _ & Hl).
      destruct (IH _ Hl Hx) as (l1 & l2 & -> & H).
      exists (y :: l1), l2. auto.
Qed.

(** A chain that ends visits no entry twice. *)
Lemma linked_NoDup m p l : linked m p l -> NoDup l.
Proof.
  revert p. induction l as [|x l IH]; intros p Hl.
  - constructor.
  - pose proof Hl as (-> & Hx & n & Hn & Hl').
    constructor; [|eapply IH; eassumption].
    intros Hin.
    destruct (linked_suffix _ _ _ _ Hl' Hin) as (l1 & l2 & E & Hs).
    pose proof (linked_inj _ _ _ _ Hl Hs) as E'.
    injection E' as E'. subst l.
    apply (f_equal length) in E'. rewrite length_app in E'. cbn in E'. lia.
Qed.

(** Only the entries of a chain matter to it. *)
Lemma linked_frame m m' p l :
  linked m p l ->
  (forall x, x ∈ l -> queue_timers m' !! x = queue_timers m !! x) ->
  linked m' p l.
Proof.
  revert p. induction l as [|x l IH]; intros p Hl Hsame; [exact Hl|].
  destruct Hl as (-> & Hx & n & Hn & Hl).
  split; [reflexivity|]. split; [assumption|].
  exists n. split.
  - rewrite Hsame; [assumption | apply elem_of_cons; auto].
  - apply IH; [assumption|].
    intros y Hy. apply Hsame. apply elem_of_cons. auto.
Qed.

Lemma linked_chain_from m p l fuel :
  linked m p l -> (length l < fuel)%nat -> chain_from fuel m p = Some l.
Proof.
  revert p fuel. induction l as [|x l IH]; intros p fuel Hl Hf.
  - cbn in Hl. subst p. destruct fuel; [lia|]. reflexivity.
  - destruct Hl as (-> & Hx & n & Hn & Hl).
    destruct fuel as [|fuel]; [cbn in Hf; lia|].
    cbn [chain_from]. apply Z.eqb_neq in Hx. rewrite Hx, Hn.
    rewrite (IH _ fuel Hl); [reflexivity | cbn in Hf; lia].
Qed.

Lemma chain_from_linked m p l fuel :
  chain_from fuel m p = Some l -> linked m p l.
Proof.
  revert p l. induction fuel as [|fuel IH]; intros p l; cbn; [discriminate|].
  destruct (Z.eqb_spec p NULL) as [-> | Hp].
  - intros [= <-]. reflexivity.
  - destruct (queue_timers m !! p) as [n|] eqn:Hn; [|discriminate].
    destruct (chain_from fuel m (next n)) as [l'|] eqn:Hc; [|discriminate].
    intros [= <-]. cbn.
    split; [reflexivity|]. split; [assumption|]. eauto.
Qed.

Lemma chain_from_length m p l fuel :
  chain_from fuel m p = Some l -> (length l < fuel)%nat.
Proof.
  revert p l. induction fuel as [|fuel IH]; intros p l; cbn; [discriminate|].
  destruct (p =? NULL).
  - intros [= <-]. cbn. lia.
  - destruct (queue_timers m !! p) as [n|]; [|discriminate].
    destruct (chain_from fuel m (next n)) as [l'|] eqn:Hc; [|discriminate].
    intros [= <-]. cbn. apply IH in Hc. lia.
Qed.

End Chains.

(** ** Insertion, entry by entry *)

Section InsertionRefinement.

Lemma InsertTimerQueueTimer_in_parts fuel q t :
  InsertTimerQueueTimer fuel q t =
  (h <- load_head q ;;
   if h =? NULL then store_head q t
   else
     node <- InsertTimerQueueTimer_loop fuel t h ;;
     InsertTimerQueueTimer_link t node).
Proof. reflexivity. Qed.

Lemma earlier_than_live m t nt x nx :
  queue_timers m !! t = Some nt ->
  queue_timers m !! x = Some nx ->
  earlier_than m t x
  = (timespec_compare (ExpirationTime nt) (ExpirationTime nx) <? 0).
Proof. unfold earlier_than. now intros -> ->. Qed.

(** The walk and the linking, from an entry [p] of a chain that ends. *)
Lemma walk_and_link m t nt :
  queue_timers m !! t = Some nt ->
  next nt = NULL ->
  t <> NULL ->
  forall l p fuel,
    linked m p l ->
    l <> [] ->
    t ∉ l ->
    (length l <= fuel)%nat ->
    exists m',
      (node <- InsertTimerQueueTimer_loop fuel t p ;;
       InsertTimerQueueTimer_link t node) m = Done tt m' /\
      linked m' p (insert_chain (earlier_than m t) t l) /\
      (forall x, x ∉ l -> x <> t ->
                 queue_timers m' !! x = queue_timers m !! x) /\
      (forall x nx, x ∈ l -> queue_timers m !! x = Some nx ->
                    exists p', queue_timers m' !! x = Some (set_next p' nx)) /\
      (exists p', queue_timers m' !! t = Some (set_next p' nt)) /\
      timer_queues m' = timer_queues m /\
      waitable_timers m' = waitable_timers m /\
      trace m' = trace m.
Proof.
  intros Hnt Hnext Ht.
  induction l as [|a l IH]; intros p fuel Hl Hne Hin Hfuel; [congruence|].
  destruct Hl as (-> & Ha & na & Hna & Hl).
  apply not_elem_of_cons in Hin as [Hta Hin].
  destruct fuel as [|fuel]; [cbn in Hfuel; lia|].
  destruct l as [|b rest].
  - (* the tail *)
    cbn in Hl.
    exists (set_queue_timers (insert a (set_next t na)) m).
    split.
    { unfold bind at 1. cbn [InsertTimerQueueTimer_loop].
      rewrite (bind_Done _ _ _ _ _ (load_entry_live _ _ _ Hna)).
      rewrite Hl. cbn [Z.eqb NULL]. change (0 =? 0) with true. cbn match.
      unfold ret at 1. unfold InsertTimerQueueTimer_link.
      rewrite (bind_Done _ _ _ _ _ (load_entry_live _ _ _ Hna)).
      rewrite Hl. change (NULL =? NULL) with true. cbn match.
      unfold bind at 1. unfold ret at 1.
      rewrite (bind_Done _ _ _ _ _ (load_entry_live _ _ _ Hna)).
      now rewrite (store_entry_live _ _ _ _ Hna). }
    split.
    { cbn. split; [reflexivity|]. split; [assumption|].
      eexists. split; [apply lookup_insert_eq|]. cbn.
      split; [reflexivity|]. split; [assumption|].
      exists nt. split; [|assumption].
      rewrite lookup_insert_ne by congruence. assumption. }
    split.
    { intros x Hx _. cbn. apply not_elem_of_cons in Hx as [Hx _].
      now rewrite lookup_insert_ne by congruence. }
    split.
    { intros x nx Hx Hnx. apply list_elem_of_singleton in Hx. subst x.
      rewrite Hna in Hnx. injection Hnx as <-.
      exists t. cbn. apply lookup_insert_eq. }
    split.
    { exists (next nt). cbn. rewrite lookup_insert_ne by congruence.
      rewrite Hnt. f_equal. now destruct nt. }
    cbn. auto.
  - (* an entry with a successor *)
    pose proof Hl as (Hb & Hbn & nb & Hnb & Hrest).
    apply not_elem_of_cons in Hin as [Htb Hin].
    assert (Hdup : NoDup (a :: b :: rest)).
    { apply (linked_NoDup m a). cbn. split; [reflexivity|].
      split; [assumption|]. exists na. split; [assumption|]. exact Hl. }
    apply NoDup_cons in Hdup as [Hanot Hdup].
    apply NoDup_cons in Hdup as [Hbnot Hdup].
    apply not_elem_of_cons in Hanot as [Hab Harest].
    cbn [insert_chain].
    rewrite (earlier_than_live _ _ _ _ _ Hnt Hna).
    assert (Hstep :
              InsertTimerQueueTimer_loop (S fuel) t a m =
              if timespec_compare (ExpirationTime nt) (ExpirationTime na) <? 0
              then Done a m
              else InsertTimerQueueTimer_loop fuel t b m).
    { cbn [InsertTimerQueueTimer_loop].
      rewrite (bind_Done _ _ _ _ _ (load_entry_live _ _ _ Hna)).
      rewrite Hb. apply Z.eqb_neq in Hbn. rewrite Hbn.
      rewrite (bind_Done _ _ _ _ _ (load_entry_live _ _ _ Hnt)).
      now destruct (_ <? 0). }
    destruct (timespec_compare (ExpirationTime nt) (ExpirationTime na) <? 0)
      eqn:Hcmp.
    + (* the walk stops here: the successor is replaced *)
      set (m1 := set_queue_timers (insert t (set_next (next nb) nt)) m).
      exists (set_queue_timers (insert a (set_next t na)) m1).
      assert (Hna1 : queue_timers m1 !! a = Some na).
      { cbn. now rewrite lookup_insert_ne by congruence. }
      split.
      { unfold bind at 1. rewrite Hstep.
        unfold InsertTimerQueueTimer_link.
        rewrite (bind_Done _ _ _ _ _ (load_entry_live _ _ _ Hna)).
        rewrite Hb. apply Z.eqb_neq in Hbn. rewrite Hbn.
        unfold bind at 1.
        rewrite (bind_Done _ _ _ _ _ (load_entry_live _ _ _ Hnb)).
        rewrite (bind_Done _ _ _ _ _ (load_entry_live _ _ _ Hnt)).
        rewrite (store_entry_live _ _ _ _ Hnt). fold m1.
        rewrite (bind_Done _ _ _ _ _ (load_entry_live _ _ _ Hna1)).
        now rewrite (store_entry_live _ _ _ _ Hna1). }
      split.
      { cbn. split; [reflexivity|]. split; [assumption|].
        eexists. split; [apply lookup_insert_eq|]. cbn.
        split; [reflexivity|]. split; [assumption|].
        eexists. split.
        { rewrite lookup_insert_ne by congruence. apply lookup_insert_eq. }
        cbn. apply (linked_frame m); [assumption|].
        intros x Hx. cbn.
        rewrite !lookup_insert_ne; [reflexivity | |];
          intros ->; contradiction. }
      split.
      { intros x Hx Hxt. cbn. apply not_elem_of_cons in Hx as [Hx _].
        now rewrite !lookup_insert_ne by congruence. }
      split.
      { intros x nx Hx Hnx. cbn.
        destruct (decide (x = a)) as [-> | Hxa].
        - rewrite Hna in Hnx. injection Hnx as <-.
          exists t. apply lookup_insert_eq.
        - exists (next nx).
          rewrite !lookup_insert_ne; [ | | congruence].
          + rewrite Hnx. f_equal. now destruct nx.
          + intros ->. apply elem_of_cons in Hx as [-> | Hx]; [congruence|].
            apply elem_of_cons in Hx as [-> | Hx]; [congruence|].
            contradiction. }
      split.
      { eexists. cbn. rewrite lookup_insert_ne by congruence.
        apply lookup_insert_eq. }
      cbn. auto.
    + (* the walk goes on *)
      destruct (IH b fuel) as (m' & Hrun & Hlinked & Hframe & Hin' & Ht' & Hq & Hw & Htr).
      { rewrite Hb in Hl. exact Hl. }
      { discriminate. }
      { apply not_elem_of_cons. auto. }
      { cbn in Hfuel |- *. lia. }
      exists m'.
      split.
      { unfold bind at 1. rewrite Hstep. exact Hrun. }
      split.
      { cbn [linked]. split; [reflexivity|]. split; [assumption|].
        exists na. split.
        - rewrite Hframe; [assumption | | congruence].
          apply not_elem_of_cons. auto.
        - rewrite Hb. exact Hlinked. }
      split.
      { intros x Hx Hxt. apply not_elem_of_cons in Hx as [Hxa Hx].
        now apply Hframe. }
      split.
      { intros x nx Hx Hnx.
        apply elem_of_cons in Hx as [-> | Hx].
        - exists (next nx). rewrite Hframe.
          + rewrite Hnx. f_equal. now destruct nx.
          + apply not_elem_of_cons. auto.
          + congruence.
        - now apply Hin'. }
      auto.
Qed.

End InsertionRefinement.

Section InsertChain.

Lemma insert_chain_appends earlier t l :
  (forall x, x ∈ l -> earlier x = false) ->
  insert_chain earlier t l = l ++ [t].
Proof.
  induction l as [|a l IH]; intros He; [reflexivity|].
  destruct l as [|b rest]; [reflexivity|].
  cbn [insert_chain]. rewrite (He a) by (apply elem_of_cons; auto).
  cbn [app]. f_equal. apply IH.
  intros x Hx. apply He. apply elem_of_cons. auto.
Qed.

Lemma insert_chain_replaces earlier t l1 a b l2 :
  (forall x, x ∈ l1 -> earlier x = false) ->
  earlier a = true ->
  insert_chain earlier t (l1 ++ a :: b :: l2) = l1 ++ a :: t :: l2.
Proof.
  intros He Ha. induction l1 as [|c l1 IH].
  - cbn. now rewrite Ha.
  - cbn [app insert_chain].
    destruct (l1 ++ a :: b :: l2) as [|d rest] eqn:E.
    { now destruct l1. }
    rewrite (He c) by (apply elem_of_cons; auto).
    f_equal. apply IH.
    intros x Hx. apply He. apply elem_of_cons. auto.
Qed.

Lemma insert_chain_length earlier t l :
  (length (insert_chain earlier t l) <= S (length l))%nat.
Proof.
  induction l as [|a l IH]; [cbn; lia|].
  destruct l as [|b rest]; [cbn; lia|].
  change (insert_chain earlier t (a :: b :: rest))
    with (if earlier a then a :: t :: rest
          else a :: insert_chain earlier t (b :: rest)).
  destruct (earlier a); cbn [length] in *; lia.
Qed.

End InsertChain.

Section InsertionOnChains.

Lemma InsertTimerQueueTimer_on_chain fuel q t nt l m :
  chain (S (length l)) m q = Some l ->
  queue_timers m !! t = Some nt ->
  next nt = NULL ->
  t <> NULL ->
  t ∉ l ->
  (length l <= fuel)%nat ->
  exists m',
    InsertTimerQueueTimer fuel q t m = Done tt m' /\
    chain (S (S (length l))) m' q
    = Some (insert_chain (earlier_than m t) t l) /\
    (forall x nx,
       queue_timers m !! x = Some nx ->
       exists p', queue_timers m' !! x = Some (set_next p' nx)) /\
    waitable_timers m' = waitable_timers m /\
    trace m' = trace m.
Proof.
  unfold chain. intros Hchain Hnt Hnext Ht Hin Hfuel.
  destruct (timer_queues m !! q) as [[h]|] eqn:Hq; [|discriminate].
  cbn [head] in Hchain. apply chain_from_linked in Hchain.
  rewrite InsertTimerQueueTimer_in_parts.
  rewrite (bind_Done _ _ _ _ _ (load_head_live _ _ _ Hq)). cbn [head].
  destruct l as [|a l].
  - (* the empty chain *)
    cbn in Hchain. subst h. change (NULL =? NULL) with true. cbn match.
    rewrite (store_head_live _ _ _ _ Hq).
    eexists. split; [reflexivity|]. cbn.
    rewrite lookup_insert_eq. cbn [head].
    apply Z.eqb_neq in Ht. rewrite Ht, Hnt, Hnext.
    change (NULL =? NULL) with true. cbn match.
    split; [reflexivity|]. split; [|auto].
    intros x nx Hx. exists (next nx). rewrite Hx. f_equal. now destruct nx.
  - (* a chain with a head *)
    pose proof Hchain as (-> & Ha & _).
    apply Z.eqb_neq in Ha. rewrite Ha.
    destruct (walk_and_link m t nt Hnt Hnext Ht (a :: l) a fuel)
      as (m' & Hrun & Hlinked & Hframe & Hin' & Ht' & Hq' & Hw & Htr);
      try assumption; [discriminate|].
    exists m'. split; [exact Hrun|].
    rewrite Hq', Hq. cbn [head].
    split.
    { apply linked_chain_from; [assumption|].
      pose proof (insert_chain_length (earlier_than m t) t (a :: l)).
      lia. }
    split; [|auto].
    intros x nx Hx.
    destruct (decide (x = t)) as [-> | Hxt].
    + rewrite Hnt in Hx. injection Hx as <-. exact Ht'.
    + destruct (decide (x ∈ a :: l)) as [Hxl | Hxl].
      * now apply Hin'.
      * exists (next nx). rewrite Hframe by assumption.
        rewrite Hx. f_equal. now destruct nx.
Qed.

(** Insertion on a chain that ends.  When the new entry [t] is live,
    not yet queued and has a null [next], [InsertTimerQueueTimer]
    returns, and the chain it leaves is [insert_chain] of the chain it
    found: the new entry is added behind the first entry that has a
    successor and a later deadline, in place of that successor, or
    behind the tail.  Every live entry keeps all its fields but [next];
    no call leaves the program. *)
Theorem InsertTimerQueueTimer_refines_insert_chain fuel q t nt l m :
  chain (S (length l)) m q = Some l ->
  queue_timers m !! t = Some nt ->
  next nt = NULL ->
  t <> NULL ->
  t ∉ l ->
  (length l <= fuel)%nat ->
  exists m',
    InsertTimerQueueTimer fuel q t m = Done tt m' /\
    chain (S (S (length l))) m' q
    = Some (insert_chain (earlier_than m t) t l) /\
    (forall x nx,
       queue_timers m !! x = Some nx ->
       exists p', queue_timers m' !! x = Some (set_next p' nx)) /\
    waitable_timers m' = waitable_timers m /\
    trace m' = trace m.
Proof. apply InsertTimerQueueTimer_on_chain. Qed.

End InsertionOnChains.

(** The entry due at 25 s is linked behind C (30 s): the walk never
    compares with the tail. *)
Lemma InsertTimerQueueTimer_refines_insert_chain_at_25s :
  exists m',
    InsertTimerQueueTimer 10 100 4 (queue_ABC_and (at_seconds 25))
    = Done tt m' /\
    chain 5 m' 100
    = Some (insert_chain
              (earlier_than (queue_ABC_and (at_seconds 25)) 4) 4 [1; 2; 3]) /\
    (forall x nx,
       queue_timers (queue_ABC_and (at_seconds 25)) !! x = Some nx ->
       exists p', queue_timers m' !! x = Some (set_next p' nx)) /\
    waitable_timers m' = waitable_timers (queue_ABC_and (at_seconds 25)) /\
    trace m' = trace (queue_ABC_and (at_seconds 25)).
Proof.
  apply (InsertTimerQueueTimer_refines_insert_chain 10 100 4
           (queued 14 0 (at_seconds 25) NULL) [1; 2; 3]
           (queue_ABC_and (at_seconds 25)));
    [ vm_compute; reflexivity | vm_compute; reflexivity | reflexivity
    | unfold NULL; lia | | cbn; lia ].
  intros H. repeat (apply elem_of_cons in H as [H | H]; [lia|]).
  now apply elem_of_nil in H.
Defined.

Section EntryLoss.

(** When the new deadline compares smaller than the one of a queued
    entry [a] that has a successor [b], and of no entry before [a], the
    new entry takes the place of [b]: the chain has as many entries as
    before, and [b], still allocated, is on it no more. *)
Theorem InsertTimerQueueTimer_drops_the_successor
    fuel q t nt l1 a b l2 m :
  chain (S (length (l1 ++ a :: b :: l2))) m q = Some (l1 ++ a :: b :: l2) ->
  queue_timers m !! t = Some nt ->
  next nt = NULL ->
  t <> NULL ->
  t ∉ (l1 ++ a :: b :: l2) ->
  (length (l1 ++ a :: b :: l2) <= fuel)%nat ->
  (forall x, x ∈ l1 -> earlier_than m t x = false) ->
  earlier_than m t a = true ->
  exists m',
    InsertTimerQueueTimer fuel q t m = Done tt m' /\
    chain (S (S (length (l1 ++ a :: b :: l2)))) m' q
    = Some (l1 ++ a :: t :: l2) /\
    (b ∉ l1 ++ a :: t :: l2) /\
    is_Some (queue_timers m' !! b).
Proof.
  intros Hchain Hnt Hnext Ht Hin Hfuel He Ha.
  destruct (InsertTimerQueueTimer_on_chain
              fuel q t nt _ m Hchain Hnt Hnext Ht Hin Hfuel)
    as (m' & Hrun & Hchain' & Hkeep & _).
  rewrite (insert_chain_replaces _ _ _ _ _ _ He Ha) in Hchain'.
  exists m'. split; [exact Hrun|]. split; [exact Hchain'|].
  assert (Hdup : NoDup (l1 ++ a :: b :: l2)).
  { unfold chain in Hchain.
    destruct (timer_queues m !! q) as [qs|]; [|discriminate].
    apply chain_from_linked in Hchain. eapply linked_NoDup. exact Hchain. }
  assert (Hlive : is_Some (queue_timers m !! b)).
  { unfold chain in Hchain.
    destruct (timer_queues m !! q) as [qs|]; [|discriminate].
    apply chain_from_linked in Hchain.
    destruct (linked_suffix _ _ _ b Hchain) as (k1 & k2 & _ & Hs).
    - apply elem_of_app. right. apply elem_of_cons. right.
      apply elem_of_cons. auto.
    - destruct Hs as (_ & _ & n & Hn & _). eauto. }
  split.
  - apply NoDup_app in Hdup as (_ & Hdisj & Hd2).
    apply NoDup_cons in Hd2 as [Hab Hd2].
    apply NoDup_cons in Hd2 as [Hb2 _].
    apply not_elem_of_app in Hin as [_ Hin].
    apply not_elem_of_cons in Hin as [_ Hin].
    apply not_elem_of_cons in Hin as [Htb _].
    apply not_elem_of_app. split.
    + intros Hb1. apply (Hdisj b Hb1).
      apply elem_of_cons. right. apply elem_of_cons. auto.
    + apply not_elem_of_cons. split.
      { intros ->. apply Hab. apply elem_of_cons. auto. }
      apply not_elem_of_cons. split; [congruence | assumption].
  - destruct Hlive as [nb Hnb].
    destruct (Hkeep b nb Hnb) as [p' Hp']. eauto.
Qed.

End EntryLoss.

(** The entry due at 15 s takes the place of C behind B (20 s). *)
Lemma InsertTimerQueueTimer_drops_the_successor_at_15s :
  exists m',
    InsertTimerQueueTimer 10 100 4 (queue_ABC_and (at_seconds 15))
    = Done tt m' /\
    chain 5 m' 100 = Some ([1] ++ 2 :: 4 :: []) /\
    (3 ∉ [1] ++ 2 :: 4 :: []) /\
    is_Some (queue_timers m' !! 3).
Proof.
  apply (InsertTimerQueueTimer_drops_the_successor 10 100 4
           (queued 14 0 (at_seconds 15) NULL) [1] 2 3 []
           (queue_ABC_and (at_seconds 15)));
    [ vm_compute; reflexivity | vm_compute; reflexivity | reflexivity
    | unfold NULL; lia | | cbn; lia | | vm_compute; reflexivity ].
  - intros H. repeat (apply elem_of_cons in H as [H | H]; [lia|]).
    now apply elem_of_nil in H.
  - intros x Hx. apply list_elem_of_singleton in Hx. subst x.
    vm_compute. reflexivity.
Defined.

(** ** Registration in deadline order *)

Section DeadlineOrder.

Lemma sorted_app_last (ds : list Z) (d : Z) :
  sorted ds = true ->
  (forall y, y ∈ ds -> y <= d) ->
  sorted (ds ++ [d]) = true.
Proof.
  induction ds as [|x ds IH]; intros Hs Hle; [reflexivity|].
  destruct ds as [|y ds].
  - cbn. rewrite andb_true_r. apply Z.leb_le. apply Hle.
    apply elem_of_cons. auto.
  - cbn [app sorted] in *. apply andb_true_iff in Hs as [Hxy Hs].
    rewrite Hxy. cbn [andb]. apply IH; [assumption|].
    intros z Hz. apply Hle. apply elem_of_cons. auto.
Qed.

Lemma deadlines_same m m' l :
  (forall x, x ∈ l ->
     ExpirationTime <$> queue_timers m' !! x
     = ExpirationTime <$> queue_timers m !! x) ->
  deadlines m' l = deadlines m l.
Proof.
  intros H. unfold deadlines. apply list_omap_ext.
  induction l as [|x l IH]; constructor.
  - specialize (H x ltac:(apply elem_of_cons; auto)).
    destruct (queue_timers m' !! x), (queue_timers m !! x);
      cbn in *; congruence.
  - apply IH. intros y Hy. apply H. apply elem_of_cons. auto.
Qed.

Lemma chain_live m q l x fuel :
  chain fuel m q = Some l -> x ∈ l -> is_Some (queue_timers m !! x).
Proof.
  unfold chain. destruct (timer_queues m !! q) as [qs|]; [|discriminate].
  intros Hc Hx. apply chain_from_linked in Hc.
  destruct (linked_suffix _ _ _ _ Hc Hx) as (l1 & l2 & _ & Hs).
  destruct Hs as (_ & _ & n & Hn & _). eauto.
Qed.

Lemma chain_frame m m' q l fuel :
  chain fuel m q = Some l ->
  timer_queues m' = timer_queues m ->
  (forall x, x ∈ l -> queue_timers m' !! x = queue_timers m !! x) ->
  chain fuel m' q = Some l.
Proof.
  unfold chain. intros Hc -> Hsame.
  destruct (timer_queues m !! q) as [qs|]; [|discriminate].
  pose proof (chain_from_length _ _ _ _ Hc).
  apply chain_from_linked in Hc.
  apply linked_chain_from; [|assumption].
  eapply linked_frame; eassumption.
Qed.

(** Registrations in deadline order keep the chain whole and sorted.
    On a chain that ends, with [malloc] answering fresh storage whose
    [next] happens to be null, an entry whose deadline is not before
    any queued deadline is appended behind the tail: every queued entry
    stays on the chain, in place, and a sorted chain stays sorted. *)
Theorem CreateTimerQueueTimer_appends_in_deadline_order
    fuel alloc tval q cb par due per fl l m :
  chain (S (length l)) m q = Some l ->
  q <> NULL ->
  malloc_addr alloc <> NULL ->
  queue_timers m !! malloc_addr alloc = None ->
  next (malloc_contents alloc) = NULL ->
  (forall x nx,
     x ∈ l -> queue_timers m !! x = Some nx ->
     normalized (ExpirationTime nx) /\
     total_ns (ExpirationTime nx)
     <= total_ns (registration_deadline tval due)) ->
  (length l <= fuel)%nat ->
  exists m',
    CreateTimerQueueTimer fuel alloc tval q cb par due per fl m
    = Done (true, Some (malloc_addr alloc)) m' /\
    chain (S (S (length l))) m' q = Some (l ++ [malloc_addr alloc]) /\
    deadlines m' (l ++ [malloc_addr alloc])
    = deadlines m l ++ [total_ns (registration_deadline tval due)] /\
    (sorted (deadlines m l) = true ->
     sorted (deadlines m' (l ++ [malloc_addr alloc])) = true).
Proof.
  intros Hchain Hq Ht Hfresh Hnext Hle Hfuel.
  set (t := malloc_addr alloc) in *.
  set (d := registration_deadline tval due) in *.
  set (nt := {| Flags := fl; DueTime := due; Period := per; Param := par;
                Callback := cb; FireCount := 0;
                StartTime :=
                  timespec_add_ms (timespec_gettimeofday tval) due;
                ExpirationTime := d; timerQueue := q;
                next := next (malloc_contents alloc) |}).
  set (m1 := set_queue_timers (insert t nt)
               (set_queue_timers (insert t (malloc_contents alloc)) m)).
  assert (Htl : t ∉ l).
  { intros Hin. destruct (chain_live _ _ _ _ _ Hchain Hin) as [n Hn].
    congruence. }
  assert (Hsame : forall x, x ∈ l ->
                    queue_timers m1 !! x = queue_timers m !! x).
  { intros x Hx. cbn. rewrite !lookup_insert_ne; [reflexivity | |];
      intros <-; contradiction. }
  assert (Hchain1 : chain (S (length l)) m1 q = Some l).
  { apply (chain_frame m); [assumption | reflexivity | assumption]. }
  assert (Hnt1 : queue_timers m1 !! t = Some nt)
    by (cbn; apply lookup_insert_eq).
  assert (Hd : normalized d).
  { unfold d, registration_deadline, timespec_copy, normalized.
    cbn [tv_nsec]. apply timespec_add_ms_nsec_range. }
  assert (Hnever : forall x, x ∈ l -> earlier_than m1 t x = false).
  { intros x Hx. destruct (chain_live _ _ _ _ _ Hchain Hx) as [nx Hnx].
    destruct (Hle x nx Hx Hnx) as [Hnorm Hord].
    rewrite (earlier_than_live m1 t nt x nx);
      [ | assumption | rewrite Hsame; assumption ].
    cbn [nt ExpirationTime].
    pose proof (timespec_compare_ge d (ExpirationTime nx) Hd Hnorm) as Hge.
    apply Z.ltb_ge.
    assert ((timespec_compare d (ExpirationTime nx) >=? 0) = true) as Hc.
    { rewrite Hge. now apply Z.leb_le. }
    apply Z.geb_le in Hc. lia. }
  destruct (InsertTimerQueueTimer_on_chain
              fuel q t nt l m1 Hchain1 Hnt1 Hnext Ht Htl Hfuel)
    as (m' & Hrun & Hchain' & Hkeep & _).
  rewrite (insert_chain_appends _ _ _ Hnever) in Hchain'.
  exists m'. split.
  { unfold CreateTimerQueueTimer, malloc_entry. fold t.
    apply Z.eqb_neq in Ht, Hq.
    unfold bind at 1. rewrite Ht. rewrite Ht, Hq. cbn [orb].
    erewrite bind_Done
      by (apply load_entry_live; cbn; apply lookup_insert_eq).
    erewrite bind_Done
      by (eapply store_entry_live; cbn; apply lookup_insert_eq).
    change (bind (InsertTimerQueueTimer fuel q t)
              (fun _ => ret (true, Some t)) m1 = Done (true, Some t) m').
    unfold bind. rewrite Hrun. reflexivity. }
  split; [exact Hchain'|].
  assert (Hds : deadlines m' (l ++ [t]) = deadlines m l ++ [total_ns d]).
  { unfold deadlines. rewrite omap_app. f_equal.
    - apply (deadlines_same m m' l). intros x Hx.
      destruct (chain_live _ _ _ _ _ Hchain Hx) as [nx Hnx].
      destruct (Hkeep x nx) as [p' Hp'];
        [rewrite Hsame; assumption|].
      rewrite Hp', Hnx. reflexivity.
    - destruct (Hkeep t nt Hnt1) as [p' Hp']. cbn. rewrite Hp'.
      reflexivity. }
  split; [exact Hds|].
  intros Hsorted. rewrite Hds. apply sorted_app_last; [assumption|].
  intros y Hy. unfold deadlines in Hy.
  apply list_elem_of_omap in Hy as (x & Hx & Hy).
  destruct (queue_timers m !! x) as [nx|] eqn:Hnx; [|discriminate].
  cbn in Hy. injection Hy as <-. apply (Hle x nx Hx Hnx).
Qed.

End DeadlineOrder.

(** Registering at 35 s on the chain A (10 s), B (20 s), C (30 s). *)
Lemma CreateTimerQueueTimer_appends_at_35s :
  exists m',
    CreateTimerQueueTimer 10
      (mk_malloc_result 4 (queued 0 0 zero_timespec NULL))
      (mk_timeval 35 0) 100 14 0 0 0 0 queue_ABC
    = Done (true, Some 4) m' /\
    chain 5 m' 100 = Some ([1; 2; 3] ++ [4]) /\
    deadlines m' ([1; 2; 3] ++ [4])
    = deadlines queue_ABC [1; 2; 3]
      ++ [total_ns (registration_deadline (mk_timeval 35 0) 0)] /\
    (sorted (deadlines queue_ABC [1; 2; 3]) = true ->
     sorted (deadlines m' ([1; 2; 3] ++ [4])) = true).
Proof.
  apply (CreateTimerQueueTimer_appends_in_deadline_order 10
           (mk_malloc_result 4 (queued 0 0 zero_timespec NULL))
           (mk_timeval 35 0) 100 14 0 0 0 0 [1; 2; 3] queue_ABC);
    [ vm_compute; reflexivity | unfold NULL; lia | unfold NULL; cbn; lia
    | vm_compute; reflexivity | reflexivity | | cbn; lia ].
  intros x nx Hx Hnx.
  repeat (apply elem_of_cons in Hx as [-> | Hx]);
    [ | | | now apply elem_of_nil in Hx ];
    vm_compute in Hnx; injection Hnx as <-;
    (split; [unfold normalized; cbn; lia | vm_compute; discriminate]).
Defined.

(** ** What a firing pass may change *)

Section FiringInvariant.

Lemma same_registration_refl n : same_registration n n.
Proof. unfold same_registration. auto 10. Qed.

Lemma same_registration_trans n1 n2 n3 :
  same_registration n1 n2 -> same_registration n2 n3 ->
  same_registration n1 n3.
Proof. unfold same_registration. intuition congruence. Qed.

Lemma fired_from_refl m : fired_from m m.
Proof.
  unfold fired_from. split_all; try reflexivity.
  - intros p. destruct (queue_timers m !! p); [|trivial].
    split; [apply same_registration_refl | lia].
  - exists []. rewrite app_nil_r. split; [reflexivity | constructor].
Qed.

Lemma fired_from_trans m1 m2 m3 :
  fired_from m1 m2 -> fired_from m2 m3 -> fired_from m1 m3.
Proof.
  intros (Hw1 & Hg1 & Hq1 & He1 & tr1 & Ht1 & Hf1)
         (Hw2 & Hg2 & Hq2 & He2 & tr2 & Ht2 & Hf2).
  unfold fired_from. split_all.
  - congruence.
  - congruence.
  - intros q. rewrite Hq2. apply Hq1.
  - intros p. specialize (He1 p). specialize (He2 p).
    destruct (queue_timers m1 !! p), (queue_timers m2 !! p),
      (queue_timers m3 !! p); try tauto.
    destruct He1, He2. split; [eapply same_registration_trans; eauto | lia].
  - exists (tr1 ++ tr2). split; [rewrite Ht2, Ht1; symmetry; apply app_assoc|].
    apply Forall_app. split; [assumption|].
    eapply Forall_impl; [exact Hf2|].
    intros e (p & n2 & Hn2 & ->). specialize (He1 p). rewrite Hn2 in He1.
    destruct (queue_timers m1 !! p) as [n1|] eqn:Hn1; [|contradiction].
    destruct He1 as [(_ & _ & _ & Hpar & Hcb & _) _].
    exists p, n1. split; [exact Hn1|]. now rewrite Hpar, Hcb.
Qed.

(** Sequencing. *)
Lemma fired_from_bind {A B : Type} (c : M A) (k : A -> M B) m :
  fired_from m (final_memory (c m)) ->
  (forall a m1, c m = Done a m1 -> fired_from m1 (final_memory (k a m1))) ->
  fired_from m (final_memory (bind c k m)).
Proof.
  intros Hc Hk. unfold bind.
  destruct (c m) as [a m1 | m1 | m1] eqn:E; cbn in *; try assumption.
  eapply fired_from_trans; [exact Hc|]. now apply Hk.
Qed.

Lemma load_entry_Done p n m m1 :
  load_entry p m = Done n m1 -> m1 = m /\ queue_timers m !! p = Some n.
Proof.
  unfold load_entry. destruct (queue_timers m !! p); [|discriminate].
  intros [= -> ->]. auto.
Qed.

Lemma load_head_Done q h m m1 :
  load_head q m = Done h m1 ->
  m1 = m /\ exists qs, timer_queues m !! q = Some qs /\ head qs = h.
Proof.
  unfold load_head. destruct (timer_queues m !! q) as [qs|]; [|discriminate].
  intros [= <- <-]. eauto.
Qed.

Lemma fired_from_load_entry p m :
  fired_from m (final_memory (load_entry p m)).
Proof.
  unfold load_entry. destruct (queue_timers m !! p); apply fired_from_refl.
Qed.

Lemma fired_from_load_head q m :
  fired_from m (final_memory (load_head q m)).
Proof.
  unfold load_head. destruct (timer_queues m !! q); apply fired_from_refl.
Qed.

(** A store that keeps the registration data of the entry. *)
Lemma fired_from_store_entry p n v m :
  queue_timers m !! p = Some n ->
  same_registration n v ->
  FireCount n <= FireCount v ->
  fired_from m (final_memory (store_entry p v m)).
Proof.
  intros Hn Hsame Hfc. rewrite (store_entry_live _ _ _ _ Hn).
  unfold fired_from. cbn. split_all; try reflexivity.
  - intros x. destruct (decide (p = x)) as [<- | Hne].
    + rewrite lookup_insert_eq, Hn. auto.
    + rewrite lookup_insert_ne by assumption.
      destruct (queue_timers m !! x); [|trivial].
      split; [apply same_registration_refl | lia].
  - exists []. rewrite app_nil_r. split; [reflexivity | constructor].
Qed.

Lemma fired_from_store_head q h m :
  fired_from m (final_memory (store_head q h m)).
Proof.
  unfold store_head.
  destruct (timer_queues m !! q) as [qs|] eqn:Hq; [|apply fired_from_refl].
  unfold fired_from. cbn. split_all; try reflexivity.
  - intros x. destruct (decide (q = x)) as [<- | Hne].
    + rewrite lookup_insert_eq, Hq. split; eauto.
    + now rewrite lookup_insert_ne.
  - intros p. destruct (queue_timers m !! p); [|trivial].
    split; [apply same_registration_refl | lia].
  - exists []. rewrite app_nil_r. split; [reflexivity | constructor].
Qed.

Lemma fired_from_call_Callback p n m :
  queue_timers m !! p = Some n ->
  fired_from m (final_memory (call_Callback (Callback n) (Param n) true m)).
Proof.
  intros Hn. unfold fired_from. cbn. split_all; try reflexivity.
  - intros x. destruct (queue_timers m !! x); [|trivial].
    split; [apply same_registration_refl | lia].
  - eexists. split; [reflexivity|]. repeat constructor. eauto.
Qed.

Lemma InsertTimerQueueTimer_loop_reads fuel t p m :
  final_memory (InsertTimerQueueTimer_loop fuel t p m) = m.
Proof.
  revert p. induction fuel as [|fuel IH]; intros p; [reflexivity|].
  cbn [InsertTimerQueueTimer_loop]. unfold bind, load_entry.
  destruct (queue_timers m !! p) as [n|]; [|reflexivity].
  destruct (next n =? NULL); [reflexivity|].
  destruct (queue_timers m !! t) as [nt|]; [|reflexivity].
  destruct (_ <? 0); [reflexivity | apply IH].
Qed.

Lemma set_next_same_registration p n : same_registration n (set_next p n).
Proof. unfold same_registration. cbn. auto 10. Qed.

Lemma fired_from_InsertTimerQueueTimer fuel q t m :
  fired_from m (final_memory (InsertTimerQueueTimer fuel q t m)).
Proof.
  rewrite InsertTimerQueueTimer_in_parts.
  apply fired_from_bind; [apply fired_from_load_head|].
  intros h m1 _. destruct (h =? NULL); [apply fired_from_store_head|].
  apply fired_from_bind.
  { rewrite InsertTimerQueueTimer_loop_reads. apply fired_from_refl. }
  intros node m2 _. unfold InsertTimerQueueTimer_link.
  apply fired_from_bind; [apply fired_from_load_entry|].
  intros n m3 _.
  apply fired_from_bind.
  - destruct (next n =? NULL); [apply fired_from_refl|].
    apply fired_from_bind; [apply fired_from_load_entry|].
    intros nn m4 _.
    apply fired_from_bind; [apply fired_from_load_entry|].
    intros nt m5 Hnt. apply load_entry_Done in Hnt as [-> Hnt].
    eapply fired_from_store_entry;
      [exact Hnt | apply set_next_same_registration | cbn; lia].
  - intros _ m4 _.
    apply fired_from_bind; [apply fired_from_load_entry|].
    intros n' m5 Hn'. apply load_entry_Done in Hn' as [-> Hn'].
    eapply fired_from_store_entry;
      [exact Hn' | apply set_next_same_registration | cbn; lia].
Qed.

Lemma fired_from_loop fuel now q :
  forall node m,
    fired_from m
      (final_memory (FireExpiredTimerQueueTimers_loop fuel now q node m)).
Proof.
  induction fuel as [|fuel IH]; intros node m; [apply fired_from_refl|].
  cbn [FireExpiredTimerQueueTimers_loop].
  destruct (node =? NULL); [apply fired_from_refl|].
  apply fired_from_bind; [apply fired_from_load_entry|].
  intros n m1 Hn. apply load_entry_Done in Hn as [-> Hn].
  destruct (_ >=? 0); [|apply fired_from_refl].
  apply fired_from_bind; [now apply (fired_from_call_Callback node)|].
  intros [] m1 Hm1.
  assert (Hn1 : queue_timers m1 !! node = Some n).
  { unfold call_Callback, emit in Hm1. injection Hm1 as Hm1.
    subst m1. exact Hn. }
  apply fired_from_bind; [apply fired_from_load_entry|].
  intros n' m2 Hn'. apply load_entry_Done in Hn' as [-> Hn'].
  rewrite Hn1 in Hn'. injection Hn' as <-.
  apply fired_from_bind.
  { eapply fired_from_store_entry; [exact Hn1 | | cbn; lia].
    unfold same_registration. cbn. auto 10. }
  intros [] m2 Hm2. rewrite (store_entry_live _ _ _ _ Hn1) in Hm2.
  injection Hm2 as Hm2. subst m2.
  cbn [Period set_FireCount].
  destruct (negb (Period n =? 0)); [|apply IH].
  apply fired_from_bind.
  { eapply fired_from_store_entry;
      [cbn; apply lookup_insert_eq | | cbn; lia].
    unfold same_registration. cbn. auto 10. }
  intros [] m3 Hm3.
  erewrite store_entry_live in Hm3 by (cbn; apply lookup_insert_eq).
  injection Hm3 as Hm3. subst m3.
  apply fired_from_bind; [apply fired_from_store_head|].
  intros [] m4 Hm4.
  assert (Hn4 : exists n4, queue_timers m4 !! node = Some n4 /\
                           same_registration n4
                             (set_next NULL
                                (set_ExpirationTime
                                   (timespec_add_ms (ExpirationTime n)
                                      (Period n))
                                   (set_FireCount (FireCount n + 1) n))) /\
                           FireCount n4 = FireCount n + 1).
  { unfold store_head in Hm4. cbn in Hm4.
    destruct (timer_queues m1 !! q); [|discriminate].
    injection Hm4 as Hm4. subst m4. cbn. rewrite lookup_insert_eq.
    eexists. split; [reflexivity|]. split; [|reflexivity].
    unfold same_registration. cbn. auto 10. }
  destruct Hn4 as (n4 & Hn4 & Hsame4 & Hfc4).
  apply fired_from_bind.
  { eapply fired_from_store_entry; [exact Hn4 | exact Hsame4 | cbn; lia]. }
  intros _ m5 _.
  apply fired_from_bind; [apply fired_from_InsertTimerQueueTimer|].
  intros _ m6 _.
  apply fired_from_bind; [apply fired_from_load_head|].
  intros h m7 _. apply IH.
Qed.

Lemma pass_fired_from fuel tval q m :
  fired_from m (final_memory (FireExpiredTimerQueueTimers fuel tval q m)).
Proof.
  unfold FireExpiredTimerQueueTimers.
  apply fired_from_bind; [apply fired_from_load_head|].
  intros h m1 _. destruct (h =? NULL); [apply fired_from_refl|].
  apply fired_from_bind; [apply fired_from_load_head|].
  intros h' m2 _.
  apply fired_from_bind; [apply fired_from_loop|].
  intros _ m3 _. apply fired_from_refl.
Qed.

(** A pass of [FireExpiredTimerQueueTimers] that returns has, by its
    own statements, only fired: it has freed and allocated nothing,
    left the waitable timers and the registration data of every entry
    alone, and the calls it made are callbacks of entries, each with
    its entry's parameter and [TRUE]. *)
Theorem FireExpiredTimerQueueTimers_only_fires fuel tval q m r m' :
  FireExpiredTimerQueueTimers fuel tval q m = Done r m' ->
  only_fired m m'.
Proof.
  intros Hrun. pose proof (pass_fired_from fuel tval q m) as H.
  rewrite Hrun in H. cbn [final_memory] in H.
  destruct H as (Hw & Hg & Hq & He & Htr).
  unfold only_fired. split_all; try assumption.
  intros p. specialize (He p).
  destruct (queue_timers m !! p), (queue_timers m' !! p); tauto.
Qed.

End FiringInvariant.

(** The pass at 250 ms over the lone periodic entry, which fires three
    times. *)
Lemma FireExpiredTimerQueueTimers_only_fires_at_250ms :
  only_fired queue_periodic after_pass_at_250ms.
Proof.
  apply (FireExpiredTimerQueueTimers_only_fires 10 (mk_timeval 0 250000) 100
           queue_periodic 0 after_pass_at_250ms).
  vm_compute. reflexivity.
Defined.


(** ** Passes, turns and calls at the edges *)

Section NothingDue.

Lemma pass_with_nothing_due fuel tval q qs m :
  timer_queues m !! q = Some qs ->
  head qs = NULL \/
  (exists n,
     queue_timers m !! head qs = Some n /\
     timespec_compare (timespec_gettimeofday tval) (ExpirationTime n) < 0) ->
  FireExpiredTimerQueueTimers (S fuel) tval q m = Done 0 m.
Proof.
  intros Hq Hcase. unfold FireExpiredTimerQueueTimers.
  rewrite (bind_Done _ _ _ _ _ (load_head_live _ _ _ Hq)).
  destruct (Z.eqb_spec (head qs) NULL) as [E | E]; [reflexivity|].
  destruct Hcase as [? | (n & Hn & Hlt)]; [contradiction|].
  rewrite (bind_Done _ _ _ _ _ (load_head_live _ _ _ Hq)).
  unfold bind at 1. cbn [FireExpiredTimerQueueTimers_loop].
  apply Z.eqb_neq in E. rewrite E.
  rewrite (bind_Done _ _ _ _ _ (load_entry_live _ _ _ Hn)).
  replace (_ >=? 0) with false; [reflexivity|].
  symmetry. rewrite Z.geb_leb. apply Z.leb_gt. exact Hlt.
Qed.

(** A pass over a queue that is empty, or whose head is not due yet,
    returns 0 and leaves the memory as it was: no callback runs and no
    entry behind the head is looked at. *)
Theorem FireExpiredTimerQueueTimers_nothing_due fuel tval q qs m :
  timer_queues m !! q = Some qs ->
  head qs = NULL \/
  (exists n,
     queue_timers m !! head qs = Some n /\
     timespec_compare (timespec_gettimeofday tval) (ExpirationTime n) < 0) ->
  FireExpiredTimerQueueTimers (S fuel) tval q m = Done 0 m.
Proof. apply pass_with_nothing_due. Qed.

End NothingDue.

(** At 5 s nothing of the queue ABC is due. *)
Lemma FireExpiredTimerQueueTimers_nothing_due_at_5s :
  FireExpiredTimerQueueTimers 1 (mk_timeval 5 0) 100 queue_ABC
  = Done 0 queue_ABC.
Proof.
  apply (FireExpiredTimerQueueTimers_nothing_due 0 (mk_timeval 5 0) 100
           {| head := 1 |} queue_ABC);
    [ reflexivity | right ].
  exists (queued 11 0 (at_seconds 10) 2).
  split; [reflexivity | vm_compute; reflexivity].
Defined.

Section RegistrationFailure.

(** A registration fails when [malloc] fails or the queue handle is
    null: it returns [FALSE], stores nothing through [phNewTimer] and
    touches no queue.  With a null queue handle the entry that was
    allocated is not released. *)
Theorem CreateTimerQueueTimer_fails_without_queue_or_storage
    fuel alloc tval q cb par due per fl m :
  malloc_addr alloc = NULL \/ q = NULL ->
  exists m',
    CreateTimerQueueTimer fuel alloc tval q cb par due per fl m
    = Done (false, None) m' /\
    timer_queues m' = timer_queues m /\
    trace m' = trace m /\
    queue_timers m'
    = (if malloc_addr alloc =? NULL then queue_timers m
       else <[malloc_addr alloc := malloc_contents alloc]> (queue_timers m)).
Proof.
  intros Hcase. unfold CreateTimerQueueTimer, malloc_entry, bind.
  destruct (Z.eqb_spec (malloc_addr alloc) NULL) as [E | E].
  - change (NULL =? NULL) with true. cbn [orb]. unfold ret. eauto.
  - destruct Hcase as [? | ->]; [contradiction|].
    apply Z.eqb_neq in E. rewrite E.
    change (NULL =? NULL) with true. cbn [orb]. unfold ret.
    eexists. split; [reflexivity|]. cbn. auto.
Qed.

End RegistrationFailure.

(** A registration on the null queue handle. *)
Lemma CreateTimerQueueTimer_fails_on_null_queue :
  exists m',
    CreateTimerQueueTimer 10
      (mk_malloc_result 4 (queued 0 0 zero_timespec NULL))
      (mk_timeval 5 0) NULL 14 0 0 0 0 queue_ABC
    = Done (false, None) m' /\
    timer_queues m' = timer_queues queue_ABC /\
    trace m' = trace queue_ABC /\
    queue_timers m'
    = (if 4 =? NULL then queue_timers queue_ABC
       else <[4 := queued 0 0 zero_timespec NULL]>
              (queue_timers queue_ABC)).
Proof.
  apply (CreateTimerQueueTimer_fails_without_queue_or_storage 10
           (mk_malloc_result 4 (queued 0 0 zero_timespec NULL))
           (mk_timeval 5 0) NULL 14 0 0 0 0 queue_ABC).
  right. reflexivity.
Defined.

Section DoubleCancellation.

(** Cancelling the same entry twice frees it twice: the first call
    returns [TRUE] and releases the storage, the second passes the same
    pointer to [free] again, which is a fault. *)
Theorem DeleteTimerQueueTimer_twice_is_a_double_free q t ce ce' n m :
  q <> NULL ->
  t <> NULL ->
  queue_timers m !! t = Some n ->
  timer_queues m !! t = None ->
  waitable_timers m !! t = None ->
  exists m1,
    DeleteTimerQueueTimer q t ce m = Done true m1 /\
    queue_timers m1 !! t = None /\
    trace m1 = trace m ++ [Ev_free t] /\
    DeleteTimerQueueTimer q t ce' m1 = Fault m1.
Proof.
  intros Hq Ht Hn Hnq Hnw. unfold DeleteTimerQueueTimer.
  apply Z.eqb_neq in Hq, Ht. rewrite Hq, Ht. cbn [orb].
  unfold bind, free. rewrite Hn, Hnq, Hnw.
  eexists. split; [reflexivity|]. cbn.
  rewrite !lookup_delete_eq. auto.
Qed.

End DoubleCancellation.

(** Cancelling the entry B of the queue ABC twice. *)
Lemma DeleteTimerQueueTimer_twice_on_B :
  exists m1,
    DeleteTimerQueueTimer 100 2 NULL queue_ABC = Done true m1 /\
    queue_timers m1 !! 2 = None /\
    trace m1 = trace queue_ABC ++ [Ev_free 2] /\
    DeleteTimerQueueTimer 100 2 NULL m1 = Fault m1.
Proof.
  apply (DeleteTimerQueueTimer_twice_is_a_double_free 100 2 NULL NULL
           (queued 12 0 (at_seconds 20) 3) queue_ABC);
    [ unfold NULL; lia | unfold NULL; lia | reflexivity | reflexivity
    | reflexivity ].
Defined.

Section PassCatchesUp.

Lemma timespec_gettimeofday_instant tval :
  0 <= tval_usec tval < 1000000 ->
  normalized (timespec_gettimeofday tval) /\
  total_ns (timespec_gettimeofday tval)
  = tval_sec tval * 1000000000 + tval_usec tval * 1000.
Proof.
  intros Hu. unfold normalized, total_ns, timespec_gettimeofday.
  cbn [tv_sec tv_nsec]. rewrite INT64_id by lia. lia.
Qed.

(** A pass over a queue whose only entry is periodic and [k] whole
    periods behind the clock returns 0 after it fired that entry
    [k + 1] times: the fire count has grown by [k + 1], the deadline by
    [k + 1] periods, to the first instant of the series that is after
    the clock reading, and the entry is the whole chain again. *)
Theorem FireExpiredTimerQueueTimers_lone_entry_catches_up
    (k : nat) fuel tval q h n m :
  timer_queues m !! q = Some {| head := h |} ->
  h <> NULL ->
  queue_timers m !! h = Some n ->
  next n = NULL ->
  0 < Period n <= 4294 ->
  0 <= tval_usec tval < 1000000 ->
  tval_sec tval < 2 ^ 63 - 5 ->
  normalized (ExpirationTime n) ->
  - 2 ^ 63 <= tv_sec (ExpirationTime n) ->
  total_ns (ExpirationTime n) + Z.of_nat k * (Period n * 1000000)
    <= tval_sec tval * 1000000000 + tval_usec tval * 1000
    < total_ns (ExpirationTime n)
      + (Z.of_nat k + 1) * (Period n * 1000000) ->
  (k + 2 <= fuel)%nat ->
  exists m' n',
    FireExpiredTimerQueueTimers fuel tval q m = Done 0 m' /\
    trace m'
    = trace m ++ replicate (S k) (Ev_Callback (Callback n) (Param n) true) /\
    queue_timers m' !! h = Some n' /\
    FireCount n' = FireCount n + Z.of_nat (S k) /\
    total_ns (ExpirationTime n')
    = total_ns (ExpirationTime n) + Z.of_nat (S k) * (Period n * 1000000) /\
    tval_sec tval * 1000000000 + tval_usec tval * 1000
    < total_ns (ExpirationTime n') /\
    timer_queues m' = timer_queues m.
Proof.
  intros Hq Hh Hn Hnext Hp Hu Hs Hd Hlo Hk Hfuel.
  destruct (timespec_gettimeofday_instant tval Hu) as [Hnow Htot].
  destruct (lone_periodic_entry_catches_up k fuel (timespec_gettimeofday tval)
              q h n m Hq Hh Hn Hnext Hp Hnow)
    as (m' & n' & Hrun & Htr & Hq' & Hn' & Hfc & Hexp);
    try assumption; [rewrite Htot; exact Hk|].
  exists m', n'. split.
  - rewrite (FireExpiredTimerQueueTimers_nonempty fuel tval q _ m Hq Hh).
    unfold bind. cbn [head]. rewrite Hrun. reflexivity.
  - split_all; try assumption. rewrite Hexp. lia.
Qed.

End PassCatchesUp.

(** The lone entry with a period of 100 ms that was due at 0 ms is two
    whole periods behind at 250 ms: one pass fires it three times. *)
Lemma FireExpiredTimerQueueTimers_lone_entry_catches_up_at_250ms :
  exists m' n',
    FireExpiredTimerQueueTimers 10 (mk_timeval 0 250000) 100 queue_periodic
    = Done 0 m' /\
    trace m'
    = trace queue_periodic
      ++ replicate 3
           (Ev_Callback (Callback (queued 11 100 (at_millis 0) NULL))
              (Param (queued 11 100 (at_millis 0) NULL)) true) /\
    queue_timers m' !! 1 = Some n' /\
    FireCount n'
    = FireCount (queued 11 100 (at_millis 0) NULL) + Z.of_nat 3 /\
    total_ns (ExpirationTime n')
    = total_ns (ExpirationTime (queued 11 100 (at_millis 0) NULL))
      + Z.of_nat 3 * (Period (queued 11 100 (at_millis 0) NULL) * 1000000) /\
    tval_sec (mk_timeval 0 250000) * 1000000000
    + tval_usec (mk_timeval 0 250000) * 1000
    < total_ns (ExpirationTime n') /\
    timer_queues m' = timer_queues queue_periodic.
Proof.
  apply (FireExpiredTimerQueueTimers_lone_entry_catches_up 2 10
           (mk_timeval 0 250000) 100 1
           (queued 11 100 (at_millis 0) NULL) queue_periodic);
    [ reflexivity | unfold NULL; lia | reflexivity | reflexivity
    | closed_order | closed_order | closed_order | closed_order
    | closed_order | closed_order | lia ].
Defined.

(** ** The worker *)

Section WorkerTurns.

(** A turn of the worker on an empty queue: it takes [cond_mutex],
    waits until exactly 20 ms after the clock reading, fires nothing
    and releases the mutex; the objects are as before. *)
Theorem TimerQueueThread_turn_idles_for_20ms
    fuel tval_idle tval_fire q qs m :
  timer_queues m !! q = Some qs ->
  head qs = NULL ->
  0 <= tval_usec tval_idle < 1000000 ->
  - 2 ^ 63 <= tval_sec tval_idle < 2 ^ 63 - 5 ->
  exists m' abstime,
    TimerQueueThread_turn fuel tval_idle tval_fire q m = Done tt m' /\
    trace m'
    = trace m
      ++ [Ev_pthread_mutex_lock q cond_mutex;
          Ev_pthread_cond_timedwait q abstime;
          Ev_pthread_mutex_unlock q cond_mutex] /\
    normalized abstime /\
    total_ns abstime
    = tval_sec tval_idle * 1000000000 + tval_usec tval_idle * 1000
      + 20 * 1000000 /\
    queue_timers m' = queue_timers m /\
    timer_queues m' = timer_queues m /\
    waitable_timers m' = waitable_timers m.
Proof.
  intros Hq Hh Hu Hs.
  destruct (timespec_gettimeofday_instant tval_idle Hu) as [Hnow Htot].
  exists (final_memory (TimerQueueThread_turn fuel tval_idle tval_fire q m)),
    (timespec_add_ms (timespec_gettimeofday tval_idle) 20).
  unfold TimerQueueThread_turn, FireExpiredTimerQueueTimers.
  unfold bind, emit, load_head, ret. cbn.
  rewrite Hq, Hh. change (NULL =? NULL) with true. cbn.
  rewrite Hq. cbn. rewrite Hh. change (NULL =? NULL) with true. cbn.
  rewrite <- !app_assoc. cbn.
  split_all; try reflexivity.
  - apply timespec_add_ms_nsec_range.
  - rewrite timespec_add_ms_small; [ | assumption | lia | exact Hs].
    rewrite add_ms_spec_total_ns, Htot. reflexivity.
Qed.

(** A turn on a queue whose head is not due when the wait ends: the
    wait was set to end at the deadline of the head, nothing fires, and
    the mutex is released. *)
Theorem TimerQueueThread_turn_waits_for_the_head
    fuel tval_idle tval_fire q qs n m :
  timer_queues m !! q = Some qs ->
  head qs <> NULL ->
  queue_timers m !! head qs = Some n ->
  timespec_compare (timespec_gettimeofday tval_fire) (ExpirationTime n) < 0 ->
  exists m',
    TimerQueueThread_turn (S fuel) tval_idle tval_fire q m = Done tt m' /\
    trace m'
    = trace m
      ++ [Ev_pthread_mutex_lock q cond_mutex;
          Ev_pthread_cond_timedwait q (ExpirationTime n);
          Ev_pthread_mutex_unlock q cond_mutex] /\
    queue_timers m' = queue_timers m /\
    timer_queues m' = timer_queues m.
Proof.
  intros Hq Hh Hn Hlt.
  exists (mk_memory (waitable_timers m) (timer_queues m) (queue_timers m)
            (g_WaitableTimerSignalHandlerInstalled m)
            (trace m
             ++ [Ev_pthread_mutex_lock q cond_mutex;
                 Ev_pthread_cond_timedwait q (ExpirationTime n);
                 Ev_pthread_mutex_unlock q cond_mutex])).
  split; [|split_all; reflexivity].
  unfold TimerQueueThread_turn.
  unfold bind at 1. cbn [emit].
  erewrite bind_Done by (apply load_head_live; cbn; exact Hq).
  apply Z.eqb_neq in Hh. rewrite Hh.
  unfold bind at 1.
  erewrite bind_Done by (apply load_entry_live; cbn; exact Hn).
  unfold ret at 1. unfold bind at 1. cbn [emit].
  unfold bind at 1.
  erewrite (pass_with_nothing_due fuel tval_fire q qs);
    [ | cbn; exact Hq | right; exists n; split; [cbn; exact Hn | exact Hlt] ].
  unfold timespec_copy. destruct (ExpirationTime n).
  unfold emit. cbn. rewrite <- !app_assoc. reflexivity.
Qed.

End WorkerTurns.

(** A turn on the queue ABC whose wait ends at 5 s. *)
Lemma TimerQueueThread_turn_waits_for_A :
  exists m',
    TimerQueueThread_turn 1 (mk_timeval 0 0) (mk_timeval 5 0) 100 queue_ABC
    = Done tt m' /\
    trace m'
    = trace queue_ABC
      ++ [Ev_pthread_mutex_lock 100 cond_mutex;
          Ev_pthread_cond_timedwait 100
            (ExpirationTime (queued 11 0 (at_seconds 10) 2));
          Ev_pthread_mutex_unlock 100 cond_mutex] /\
    queue_timers m' = queue_timers queue_ABC /\
    timer_queues m' = timer_queues queue_ABC.
Proof.
  apply (TimerQueueThread_turn_waits_for_the_head 0 (mk_timeval 0 0)
           (mk_timeval 5 0) 100 {| head := 1 |}
           (queued 11 0 (at_seconds 10) 2) queue_ABC);
    [ reflexivity | unfold NULL; cbn; lia | reflexivity
    | vm_compute; reflexivity ].
Defined.

(** An idle turn with the clock at 7.5 s. *)
Lemma TimerQueueThread_turn_idles_at_7500ms :
  exists m' abstime,
    TimerQueueThread_turn 0 (mk_timeval 7 500000) (mk_timeval 8 0) 100
      queue_empty = Done tt m' /\
    trace m'
    = trace queue_empty
      ++ [Ev_pthread_mutex_lock 100 cond_mutex;
          Ev_pthread_cond_timedwait 100 abstime;
          Ev_pthread_mutex_unlock 100 cond_mutex] /\
    normalized abstime /\
    total_ns abstime
    = tval_sec (mk_timeval 7 500000) * 1000000000
      + tval_usec (mk_timeval 7 500000) * 1000 + 20 * 1000000 /\
    queue_timers m' = queue_timers queue_empty /\
    timer_queues m' = timer_queues queue_empty /\
    waitable_timers m' = waitable_timers queue_empty.
Proof.
  apply (TimerQueueThread_turn_idles_for_20ms 0 (mk_timeval 7 500000)
           (mk_timeval 8 0) 100 {| head := NULL |} queue_empty);
    [ reflexivity | reflexivity | closed_order | closed_order ].
Defined.

(** ** Arming a waitable timer *)


Section Rejection.

(** The checks that come before the first store: on a null handle, a
    handle of another type, a null due time pointer or a negative
    period, [SetWaitableTimer] returns [FALSE] and the memory is as it
    was. *)
Theorem SetWaitableTimer_rejects_before_it_writes
    cfg os h due per pfn arg fr m :
  h = NULL \/ is_Some (waitable_timers m !! h)
  \/ is_Some (timer_queues m !! h) \/ is_Some (queue_timers m !! h) ->
  h = NULL \/ waitable_timers m !! h = None \/ due = None \/ per < 0 ->
  SetWaitableTimer cfg os h due per pfn arg fr m = Done false m.
Proof.
  intros Hres Hbad. unfold SetWaitableTimer, winpr_Handle_GetInfo.
  unfold bind at 1.
  destruct (Z.eqb_spec h NULL) as [E | E]; [reflexivity|].
  destruct Hres as [? | Hres]; [contradiction|].
  destruct Hbad as [? | Hbad]; [contradiction|].
  destruct (waitable_timers m !! h) as [t|] eqn:Ht.
  - cbn. destruct Hbad as [? | [-> | Hper]]; [discriminate | reflexivity |].
    destruct due; [|reflexivity].
    apply Z.ltb_lt in Hper. now rewrite Hper.
  - destruct Hres as [[? ?] | [[q Hq] | [n Hn]]]; [discriminate | |].
    + now rewrite Hq.
    + rewrite Hn. now destruct (timer_queues m !! h).
Qed.

End Rejection.

(** Arming the queue 100, which is no waitable timer. *)
Lemma SetWaitableTimer_rejects_a_queue_handle :
  SetWaitableTimer linux_build os_ok 100 (Some (-5000000)) 0 NULL NULL false
    queue_ABC = Done false queue_ABC.
Proof.
  apply (SetWaitableTimer_rejects_before_it_writes linux_build os_ok 100
           (Some (-5000000)) 0 NULL NULL false queue_ABC).
  - right. right. left. vm_compute. eauto.
  - right. left. reflexivity.
Defined.

Section InstallOnce.

(** The signal handler is installed by the first call only: a call
    ends with the flag set, makes the [sigaction] call exactly when the
    flag was not set, and a further call does nothing. *)
Theorem InstallWaitableTimerSignalHandler_installs_once m :
  exists m1,
    InstallWaitableTimerSignalHandler m = Done 0 m1 /\
    g_WaitableTimerSignalHandlerInstalled m1 = true /\
    trace m1
    = trace m
      ++ (if g_WaitableTimerSignalHandlerInstalled m then []
          else [Ev_sigaction_SIGALRM]) /\
    InstallWaitableTimerSignalHandler m1 = Done 0 m1.
Proof.
  unfold InstallWaitableTimerSignalHandler.
  destruct (g_WaitableTimerSignalHandlerInstalled m) eqn:Hg; cbn.
  - exists m. rewrite Hg, app_nil_r. cbn. auto.
  - eexists. split; [reflexivity|]. cbn. auto.
Qed.

End InstallOnce.

Section Rearm.

(** Arming a timer that is already initialized makes one system call
    and creates nothing: [timerfd_settime] on the stored descriptor
    when the call gives no completion routine, [timer_settime] on the
    stored timer id when it gives one, whichever resource the first arm
    created.  The call returns whether that call succeeded; either way
    the timer holds the arguments and the [itimerspec] of this call. *)
Theorem SetWaitableTimer_rearms_with_one_call
    cfg os h t d per pfn arg fr its m :
  WITH_POSIX_TIMER cfg = true ->
  HAVE_TIMERFD_H cfg = true ->
  h <> NULL ->
  waitable_timers m !! h = Some t ->
  bInit t = true ->
  0 <= per ->
  SetWaitableTimer_timeout d per = Some its ->
  exists m',
    SetWaitableTimer cfg os h (Some d) per pfn arg fr m
    = Done ((if pfn =? NULL then timerfd_settime_ret os
             else timer_settime_ret os) =? 0) m' /\
    trace m'
    = trace m
      ++ [if pfn =? NULL then Ev_timerfd_settime (fd t) its
          else Ev_timer_settime (tid t) its] /\
    waitable_timers m' !! h
    = Some (set_timeout its (set_arm_arguments per pfn arg t)) /\
    queue_timers m' = queue_timers m /\
    timer_queues m' = timer_queues m.
Proof.
  intros Hc1 Hc2 Hh Ht Hb Hper Hits.
  apply Z.eqb_neq in Hh. apply Z.ltb_ge in Hper.
  destruct (SetWaitableTimer cfg os h (Some d) per pfn arg fr m)
    as [b m' | m' | m'] eqn:E;
    revert E; unfold_SetWaitableTimer; rewrite Hc1, Hc2, Hits; intros E.
  all: run_arm.
  all: try congruence.
  all: repeat match goal with
         | H : negb _ = true |- _ => apply negb_true_iff in H
         | H : negb _ = false |- _ => apply negb_false_iff in H
         end.
  all: try congruence.
  all: repeat match goal with
         | H : (_ =? _) = _ |- _ => rewrite H; clear H
         end.
  all: eexists; (split; [reflexivity|]); cbn;
    rewrite ?insert_insert_eq, ?lookup_insert_eq; auto.
Qed.

End Rearm.

(** Arming the timer 1, which has a countdown descriptor, with a
    completion routine: the countdown goes to [timer_settime]. *)
Lemma SetWaitableTimer_rearms_the_armed_timer :
  exists m',
    SetWaitableTimer linux_build os_ok 1 (Some (-10000000)) 250 77 88 false
      armed_500ms
    = Done ((if 77 =? NULL then timerfd_settime_ret os_ok
             else timer_settime_ret os_ok) =? 0) m' /\
    trace m'
    = trace armed_500ms
      ++ [if 77 =? NULL
          then Ev_timerfd_settime (fd armed_timer)
                 {| it_interval := at_millis 250; it_value := at_seconds 1 |}
          else Ev_timer_settime (tid armed_timer)
                 {| it_interval := at_millis 250;
                    it_value := at_seconds 1 |}] /\
    waitable_timers m' !! 1
    = Some (set_timeout
              {| it_interval := at_millis 250; it_value := at_seconds 1 |}
              (set_arm_arguments 250 77 88 armed_timer)) /\
    queue_timers m' = queue_timers armed_500ms /\
    timer_queues m' = timer_queues armed_500ms.
Proof.
  apply (SetWaitableTimer_rearms_with_one_call linux_build os_ok 1
           armed_timer (-10000000) 250 77 88 false
           {| it_interval := at_millis 250; it_value := at_seconds 1 |}
           armed_500ms);
    [ reflexivity | reflexivity | unfold NULL; lia | vm_compute; reflexivity
    | reflexivity | lia | vm_compute; reflexivity ].
Defined.

Section ProgrammedPeriod.

Lemma SetWaitableTimer_timeout_interval d per its :
  SetWaitableTimer_timeout d per = Some its ->
  0 <= per ->
  d <= 0 /\
  normalized (it_interval its) /\
  total_ns (it_interval its) = per * 1000000 /\
  (d = 0 -> it_value its = it_interval its).
Proof.
  unfold SetWaitableTimer_timeout. intros H Hper.
  assert (Hi : normalized
                 (if per >? 0
                  then {| tv_sec := Z.quot per 1000;
                          tv_nsec := INT64 (Z.rem per 1000 * 1000000) |}
                  else zero_timespec) /\
               total_ns
                 (if per >? 0
                  then {| tv_sec := Z.quot per 1000;
                          tv_nsec := INT64 (Z.rem per 1000 * 1000000) |}
                  else zero_timespec) = per * 1000000).
  { unfold normalized, total_ns.
    destruct (Z.gtb_spec per 0) as [Hpos | Hzero]; cbn [tv_sec tv_nsec].
    - rewrite Z.quot_div_nonneg, Z.rem_mod_nonneg by lia.
      pose proof (Z.mod_pos_bound per 1000 ltac:(lia)).
      pose proof (Z.div_mod per 1000 ltac:(lia)).
      rewrite INT64_id by lia. lia.
    - cbn. lia. }
  destruct (Z.ltb_spec d 0) as [Hneg | Hnn].
  - assert (E : (d =? 0) = false) by (apply Z.eqb_neq; lia).
    rewrite E in H. cbn [negb] in H. injection H as <-. cbn [it_interval].
    split; [lia|]. split; [apply Hi|]. split; [apply Hi | lia].
  - destruct (Z.eqb_spec d 0) as [-> | Hd]; [|discriminate].
    cbn [negb] in H. injection H as <-. cbn [it_interval it_value].
    split; [lia|]. split; [apply Hi|]. split; [apply Hi | reflexivity].
Qed.

Lemma SetWaitableTimer_success_period cfg os h d per pfn arg fr m m' :
  SetWaitableTimer cfg os h (Some d) per pfn arg fr m = Done true m' ->
  0 <= per.
Proof.
  unfold_SetWaitableTimer. intros H.
  destruct (Z.ltb_spec per 0) as [Hneg | Hnn]; [|assumption].
  exfalso. run_arm.
Qed.

(** A call that succeeds on a Linux build has programmed, besides the
    initial countdown, an interval of exactly [lPeriod] milliseconds
    (none for a period of 0); for a zero due time the initial countdown
    is that interval, so that a zero due time with a zero period
    programs the all-zero [itimerspec]. *)
Theorem SetWaitableTimer_programs_the_period
    cfg os h d per pfn arg fr m m' :
  WITH_POSIX_TIMER cfg = true ->
  HAVE_TIMERFD_H cfg = true ->
  SetWaitableTimer cfg os h (Some d) per pfn arg fr m = Done true m' ->
  exists tr e its,
    trace m' = trace m ++ tr ++ [e] /\
    programmed e = Some its /\
    d <= 0 /\ 0 <= per /\
    normalized (it_interval its) /\
    total_ns (it_interval its) = per * 1000000 /\
    (d = 0 -> it_value its = it_interval its) /\
    (d = 0 -> per = 0 -> its = zero_itimerspec).
Proof.
  intros Hc1 Hc2 Hrun.
  pose proof (SetWaitableTimer_success_period _ _ _ _ _ _ _ _ _ _ Hrun) as Hp.
  destruct (SetWaitableTimer_success_programs _ _ _ _ _ _ _ _ _ _ Hc1 Hc2 Hrun)
    as (tr & e & its & Htr & He & Hits).
  destruct (SetWaitableTimer_timeout_interval _ _ _ Hits Hp)
    as (Hd & Hn & Ht & Hv).
  exists tr, e, its. split_all; try assumption.
  intros -> ->. unfold SetWaitableTimer_timeout in Hits. cbn in Hits.
  now injection Hits as <-.
Qed.

End ProgrammedPeriod.

(** Arming the fresh timer 1 with a zero due time and 250 ms. *)
Lemma SetWaitableTimer_programs_250ms :
  exists tr e its,
    trace armed_every_250ms = trace fresh_timer_memory ++ tr ++ [e] /\
    programmed e = Some its /\
    0 <= 0 /\ 0 <= 250 /\
    normalized (it_interval its) /\
    total_ns (it_interval its) = 250 * 1000000 /\
    (0 = 0 -> it_value its = it_interval its) /\
    (0 = 0 -> 250 = 0 -> its = zero_itimerspec).
Proof.
  apply (SetWaitableTimer_programs_the_period linux_build os_ok 1 0 250
           NULL NULL false fresh_timer_memory armed_every_250ms);
    [ reflexivity | reflexivity | vm_compute; reflexivity ].
Defined.

Section CreationFailure.

(** When the first arm needs a countdown descriptor and
    [timerfd_create] fails, [InitializeWaitableTimer] frees the timer
    itself: [SetWaitableTimer] returns [FALSE] after the calls
    [timerfd_create] and [free], the storage behind the handle that the
    caller still holds is released, and no other object has changed.
    A descriptor 0 counts as a failure. *)
Theorem SetWaitableTimer_frees_the_timer_when_timerfd_create_fails
    cfg os h t d per pfn fr m :
  HAVE_TIMERFD_H cfg = true ->
  h <> NULL ->
  waitable_timers m !! h = Some t ->
  timer_queues m !! h = None ->
  queue_timers m !! h = None ->
  bInit t = false ->
  0 <= per ->
  timerfd_create_ret os <= 0 ->
  exists m',
    SetWaitableTimer cfg os h (Some d) per pfn NULL fr m = Done false m' /\
    waitable_timers m' !! h = None /\
    trace m' = trace m ++ [Ev_timerfd_create; Ev_free h] /\
    (forall p, p <> h -> waitable_timers m' !! p = waitable_timers m !! p) /\
    timer_queues m' = timer_queues m /\
    queue_timers m' = queue_timers m /\
    g_WaitableTimerSignalHandlerInstalled m'
    = g_WaitableTimerSignalHandlerInstalled m.
Proof.
  intros Hc Hh Ht Hq Hn Hb Hper Hfd.
  apply Z.eqb_neq in Hh. apply Z.ltb_ge in Hper. apply Z.leb_le in Hfd.
  destruct (SetWaitableTimer cfg os h (Some d) per pfn NULL fr m)
    as [b m' | m' | m'] eqn:E;
    revert E; unfold_SetWaitableTimer; rewrite Hc; intros E.
  all: run_arm.
  all: try congruence.
  all: try (change (NULL =? NULL) with true in *; discriminate).
  all: try (rewrite Hb in *; discriminate).
  all: eexists; (split; [reflexivity|]); cbn.
  all: rewrite ?lookup_delete_eq, <- ?app_assoc.
  all: split_all; try reflexivity; try (apply delete_id; assumption).
  all: intros p Hp; rewrite lookup_delete_ne by congruence;
    rewrite !lookup_insert_ne by congruence; reflexivity.
Qed.

End CreationFailure.

(** The first arm of the fresh timer 1 when no descriptor is left. *)
Lemma SetWaitableTimer_frees_the_fresh_timer :
  exists m',
    SetWaitableTimer linux_build os_without_descriptors 1 (Some (-5000000))
      0 NULL NULL false fresh_timer_memory = Done false m' /\
    waitable_timers m' !! 1 = None /\
    trace m' = trace fresh_timer_memory ++ [Ev_timerfd_create; Ev_free 1] /\
    (forall p,
       p <> 1 ->
       waitable_timers m' !! p = waitable_timers fresh_timer_memory !! p) /\
    timer_queues m' = timer_queues fresh_timer_memory /\
    queue_timers m' = queue_timers fresh_timer_memory /\
    g_WaitableTimerSignalHandlerInstalled m'
    = g_WaitableTimerSignalHandlerInstalled fresh_timer_memory.
Proof.
  apply (SetWaitableTimer_frees_the_timer_when_timerfd_create_fails
           linux_build os_without_descriptors 1 fresh_timer (-5000000) 0
           NULL false fresh_timer_memory);
    [ reflexivity | unfold NULL; lia | vm_compute; reflexivity
    | reflexivity | reflexivity | reflexivity | lia | cbn; lia ].
Defined.

(** ** The signal handler *)

Section SignalHandler.

(** The handler does nothing for a signal other than [SIGALRM], for a
    null timer reference, which it does not follow, and for a timer
    that has no completion routine, periodic or not. *)
Theorem WaitableTimerSignalHandler_ignores signum p m :
  p = NULL \/ signum <> SIGALRM \/
  (exists t, waitable_timers m !! p = Some t /\
             pfnCompletionRoutine t = NULL) ->
  WaitableTimerSignalHandler signum p m = Done None m.
Proof.
  unfold WaitableTimerSignalHandler.
  intros [-> | [Hs | (t & Ht & Hr)]].
  - reflexivity.
  - apply Z.eqb_neq in Hs. rewrite Hs. cbn [negb]. now rewrite orb_true_r.
  - destruct (_ || _); [reflexivity|].
    unfold bind, load_timer. rewrite Ht, Hr. reflexivity.
Qed.

(** On [SIGALRM] for a timer with a completion routine the handler
    calls the routine once, with the stored argument and two zeros.  A
    one-shot timer is left alone; a periodic timer is programmed again
    with [timer_settime], with an interval of exactly its period and
    the initial countdown that its stored [itimerspec] holds. *)
Theorem WaitableTimerSignalHandler_dispatches p t m :
  p <> NULL ->
  waitable_timers m !! p = Some t ->
  pfnCompletionRoutine t <> NULL ->
  0 <= lPeriod t ->
  exists m',
    WaitableTimerSignalHandler SIGALRM p m
    = Done (Some (pfnCompletionRoutine t, lpArgToCompletionRoutine t, 0, 0))
        m' /\
    trace m'
    = trace m
      ++ (if lPeriod t =? 0 then []
          else [Ev_timer_settime (tid t)
                  {| it_interval := period_interval (lPeriod t);
                     it_value := it_value (timeout t) |}]) /\
    normalized (period_interval (lPeriod t)) /\
    total_ns (period_interval (lPeriod t)) = lPeriod t * 1000000 /\
    (lPeriod t = 0 -> m' = m).
Proof.
  intros Hp Ht Hr Hper. unfold WaitableTimerSignalHandler.
  apply Z.eqb_neq in Hp, Hr. rewrite Hp. cbn [orb negb].
  change (SIGALRM =? SIGALRM) with true. cbn [negb].
  unfold bind, load_timer. rewrite Ht, Hr. cbn [negb]. rewrite Ht.
  assert (Hint : normalized (period_interval (lPeriod t)) /\
                 total_ns (period_interval (lPeriod t))
                 = lPeriod t * 1000000).
  { unfold normalized, total_ns, period_interval. cbn [tv_sec tv_nsec].
    rewrite Z.quot_div_nonneg, Z.rem_mod_nonneg by lia.
    pose proof (Z.mod_pos_bound (lPeriod t) 1000 ltac:(lia)).
    pose proof (Z.div_mod (lPeriod t) 1000 ltac:(lia)).
    rewrite INT64_id by lia. lia. }
  destruct (Z.eqb_spec (lPeriod t) 0) as [E | E]; cbn [negb].
  - exists m. unfold ret. rewrite app_nil_r. split_all; tauto.
  - unfold store_timer. rewrite Ht. unfold emit, ret. cbn.
    eexists. split; [reflexivity|]. cbn.
    split_all; tauto.
Qed.

End SignalHandler.

(** The handler on the timer 1, armed with the routine 77 and 250 ms. *)
Lemma WaitableTimerSignalHandler_dispatches_on_armed_timer :
  exists m',
    WaitableTimerSignalHandler SIGALRM 1 armed_with_routine
    = Done (Some (77, 88, 0, 0)) m' /\
    trace m'
    = trace armed_with_routine
      ++ (if 250 =? 0 then []
          else [Ev_timer_settime 9
                  {| it_interval := period_interval 250;
                     it_value := at_seconds 1 |}]) /\
    normalized (period_interval 250) /\
    total_ns (period_interval 250) = 250 * 1000000 /\
    (250 = 0 -> m' = armed_with_routine).
Proof.
  apply (WaitableTimerSignalHandler_dispatches 1
           {| fd := -1; lPeriod := 250; bManualReset := false;
              pfnCompletionRoutine := 77; lpArgToCompletionRoutine := 88;
              bInit := true; tid := 9;
              timeout := {| it_interval := at_millis 250;
                            it_value := at_seconds 1 |} |}
           armed_with_routine);
    [ unfold NULL; lia | vm_compute; reflexivity | unfold NULL; cbn; lia
    | cbn; lia ].
Defined.

(** A pending signal for another reason, on the same timer. *)
Lemma WaitableTimerSignalHandler_ignores_SIGUSR1 :
  WaitableTimerSignalHandler 10 1 armed_with_routine
  = Done None armed_with_routine.
Proof.
  apply (WaitableTimerSignalHandler_ignores 10 1 armed_with_routine).
  right. left. unfold SIGALRM. lia.
Defined.

(** ** The life of a timer queue *)

Section QueueLife.

(** [CreateTimerQueue] starts the worker on a queue whose head it never
    set: the head is what the fresh storage held.  When that is the
    address of no live entry, the first turn of the worker is a fault,
    right after it took the mutex. *)
Theorem CreateTimerQueue_leaves_the_head_unset
    alloc fuel tval_idle tval_fire m :
  malloc_addr alloc <> NULL ->
  exists m1 calls,
    CreateTimerQueue alloc m = Done (malloc_addr alloc, calls) m1 /\
    last calls
    = Some (Call_pthread_create_TimerQueueThread (malloc_addr alloc)) /\
    head <$> timer_queues m1 !! malloc_addr alloc
    = Some (head (malloc_contents alloc)) /\
    trace m1 = trace m /\
    (head (malloc_contents alloc) <> NULL ->
     queue_timers m !! head (malloc_contents alloc) = None ->
     exists m2,
       TimerQueueThread_turn fuel tval_idle tval_fire (malloc_addr alloc) m1
       = Fault m2 /\
       trace m2
       = trace m ++ [Ev_pthread_mutex_lock (malloc_addr alloc) cond_mutex]).
Proof.
  intros Ha. unfold CreateTimerQueue, StartTimerQueueThread.
  apply Z.eqb_neq in Ha. rewrite Ha.
  unfold bind, store_queue_field. cbn. rewrite lookup_insert_eq. unfold ret.
  eexists _, _. split; [reflexivity|]. cbn.
  rewrite lookup_insert_eq. cbn.
  split_all; try reflexivity.
  intros Hh Hdead. unfold TimerQueueThread_turn, bind, emit, load_head.
  cbn. rewrite lookup_insert_eq. cbn [head].
  apply Z.eqb_neq in Hh. rewrite Hh.
  unfold load_entry. cbn. rewrite Hdead.
  eexists. split; reflexivity.
Qed.

(** [DeleteTimerQueue] on a null handle returns [FALSE] and does
    nothing.  On a queue it destroys the pthread objects, frees the
    queue and returns [TRUE]; it frees none of the entries and stops no
    thread: the worker's next turn on the queue is a fault. *)
Theorem DeleteTimerQueue_frees_the_queue_only
    q qs fuel tval_idle tval_fire m :
  q <> NULL ->
  timer_queues m !! q = Some qs ->
  exists m',
    DeleteTimerQueue NULL m = Done (false, []) m /\
    DeleteTimerQueue q m
    = Done (true,
            [Call_pthread_cond_destroy q;
             Call_pthread_mutex_destroy q cond_mutex;
             Call_pthread_mutex_destroy q mutex;
             Call_pthread_attr_destroy q]) m' /\
    trace m' = trace m ++ [Ev_free q] /\
    timer_queues m' !! q = None /\
    (forall p, p <> q -> queue_timers m' !! p = queue_timers m !! p) /\
    exists m2,
      TimerQueueThread_turn fuel tval_idle tval_fire q m' = Fault m2.
Proof.
  intros Hq Hqs. unfold DeleteTimerQueue, DeleteTimerQueueEx.
  apply Z.eqb_neq in Hq. rewrite Hq. change (NULL =? NULL) with true.
  unfold bind, free, ret. rewrite Hqs.
  eexists. split; [reflexivity|].
  split.
  { destruct (waitable_timers m !! q); reflexivity. }
  cbn. rewrite lookup_delete_eq.
  split_all; try reflexivity.
  - intros p Hp. now rewrite lookup_delete_ne.
  - unfold TimerQueueThread_turn, bind, emit, load_head. cbn.
    rewrite lookup_delete_eq. eauto.
Qed.

End QueueLife.

(** Deleting the queue ABC. *)
Lemma DeleteTimerQueue_frees_the_queue_ABC_only :
  exists m',
    DeleteTimerQueue NULL queue_ABC = Done (false, []) queue_ABC /\
    DeleteTimerQueue 100 queue_ABC
    = Done (true,
            [Call_pthread_cond_destroy 100;
             Call_pthread_mutex_destroy 100 cond_mutex;
             Call_pthread_mutex_destroy 100 mutex;
             Call_pthread_attr_destroy 100]) m' /\
    trace m' = trace queue_ABC ++ [Ev_free 100] /\
    timer_queues m' !! 100 = None /\
    (forall p, p <> 100 ->
               queue_timers m' !! p = queue_timers queue_ABC !! p) /\
    exists m2,
      TimerQueueThread_turn 10 (mk_timeval 0 0) (mk_timeval 5 0) 100 m'
      = Fault m2.
Proof.
  apply (DeleteTimerQueue_frees_the_queue_only 100 {| head := 1 |} 10
           (mk_timeval 0 0) (mk_timeval 5 0) queue_ABC);
    [ unfold NULL; lia | reflexivity ].
Defined.

(** Creating a queue in storage that held the stale head 4242. *)
Lemma CreateTimerQueue_leaves_a_stale_head :
  exists m1 calls,
    CreateTimerQueue (mk_malloc_result 200 {| head := 4242 |}) empty_memory
    = Done (200, calls) m1 /\
    last calls = Some (Call_pthread_create_TimerQueueThread 200) /\
    head <$> timer_queues m1 !! 200 = Some 4242 /\
    trace m1 = trace empty_memory /\
    (4242 <> NULL ->
     queue_timers empty_memory !! 4242 = None ->
     exists m2,
       TimerQueueThread_turn 10 (mk_timeval 0 0) (mk_timeval 5 0) 200 m1
       = Fault m2 /\
       trace m2
       = trace empty_memory ++ [Ev_pthread_mutex_lock 200 cond_mutex]).
Proof.
  apply (CreateTimerQueue_leaves_the_head_unset
           (mk_malloc_result 200 {| head := 4242 |}) 10 (mk_timeval 0 0)
           (mk_timeval 5 0) empty_memory).
  unfold NULL. cbn. lia.
Defined.

(** ** Links that registration and firing leave behind *)

Section StaleLink.

(** [CreateTimerQueueTimer] never stores into [next].  Registered on an
    empty queue, the entry becomes the head with a fire count of 0 and
    the deadline of the registration, and its [next] is what the fresh
    storage held: when that is the address of no live entry, the chain
    of the queue does not end in live storage. *)
Theorem CreateTimerQueueTimer_keeps_the_stale_link
    fuel alloc tval q cb par due per fl m :
  timer_queues m !! q = Some {| head := NULL |} ->
  q <> NULL ->
  malloc_addr alloc <> NULL ->
  exists m' n,
    CreateTimerQueueTimer fuel alloc tval q cb par due per fl m
    = Done (true, Some (malloc_addr alloc)) m' /\
    head <$> timer_queues m' !! q = Some (malloc_addr alloc) /\
    queue_timers m' !! malloc_addr alloc = Some n /\
    next n = next (malloc_contents alloc) /\
    FireCount n = 0 /\
    ExpirationTime n = registration_deadline tval due /\
    (next (malloc_contents alloc) <> NULL ->
     next (malloc_contents alloc) <> malloc_addr alloc ->
     queue_timers m !! next (malloc_contents alloc) = None ->
     forall k, chain k m' q = None).
Proof.
  intros Hq Hqn Ha. unfold CreateTimerQueueTimer, malloc_entry.
  apply Z.eqb_neq in Ha, Hqn. unfold bind at 1. rewrite Ha, Ha, Hqn.
  cbn [orb].
  erewrite bind_Done
    by (apply load_entry_live; cbn; apply lookup_insert_eq).
  erewrite bind_Done
    by (eapply store_entry_live; cbn; apply lookup_insert_eq).
  rewrite InsertTimerQueueTimer_in_parts.
  unfold bind at 1.
  erewrite bind_Done by (apply load_head_live; cbn; exact Hq).
  cbn [head]. change (NULL =? NULL) with true. cbn match.
  erewrite store_head_live by (cbn; exact Hq).
  eexists _, _. split; [reflexivity|]. cbn.
  rewrite !lookup_insert_eq. cbn.
  split; [reflexivity|]. split; [reflexivity|]. cbn.
  split_all; try reflexivity.
  intros Hs Hne Hdead k. unfold chain. cbn. rewrite lookup_insert_eq.
  cbn [head]. destruct k as [|k]; [reflexivity|].
  cbn [chain_from]. rewrite Ha. cbn. rewrite lookup_insert_eq.
  cbn [next]. destruct k as [|k]; [reflexivity|].
  cbn [chain_from]. apply Z.eqb_neq in Hs. rewrite Hs.
  cbn. rewrite !lookup_insert_ne by congruence. now rewrite Hdead.
Qed.

End StaleLink.

(** Registering on the empty queue in storage with the stale link
    4242. *)
Lemma CreateTimerQueueTimer_keeps_the_stale_link_4242 :
  exists m' n,
    CreateTimerQueueTimer 10
      (mk_malloc_result 4 (queued 0 0 zero_timespec 4242))
      (mk_timeval 5 0) 100 14 0 0 0 0 queue_empty
    = Done (true, Some 4) m' /\
    head <$> timer_queues m' !! 100 = Some 4 /\
    queue_timers m' !! 4 = Some n /\
    next n = 4242 /\
    FireCount n = 0 /\
    ExpirationTime n = registration_deadline (mk_timeval 5 0) 0 /\
    (4242 <> NULL ->
     4242 <> 4 ->
     queue_timers queue_empty !! 4242 = None ->
     forall k, chain k m' 100 = None).
Proof.
  apply (CreateTimerQueueTimer_keeps_the_stale_link 10
           (mk_malloc_result 4 (queued 0 0 zero_timespec 4242))
           (mk_timeval 5 0) 100 14 0 0 0 0 queue_empty);
    [ reflexivity | unfold NULL; lia | unfold NULL; cbn; lia ].
Defined.

Section Reinsertion.

Lemma insert_chain_keeps_the_head earlier t b rest :
  exists l', insert_chain earlier t (b :: rest) = b :: l'.
Proof.
  destruct rest as [|c rest]; [cbn; eauto|].
  cbn [insert_chain]. destruct (earlier b); eauto.
Qed.

Lemma chain_head m q x l k :
  chain k m q = Some (x :: l) ->
  exists qs, timer_queues m !! q = Some qs /\ head qs = x.
Proof.
  unfold chain. destruct (timer_queues m !! q) as [qs|]; [|discriminate].
  intros H. apply chain_from_linked in H. destruct H as (E & _).
  exists qs. split; [reflexivity | exact E].
Qed.

(** A periodic head that fires is not re-inserted at the head when it
    has a successor: after the turn its successor [b] is the head,
    whatever the deadlines, the fired entry is inserted into the rest of
    the chain as a registration would be, and the loop goes on with
    [b]. *)
Theorem periodic_head_goes_behind_its_successor
    fuel now q a na b rest m :
  chain (S (length (a :: b :: rest))) m q = Some (a :: b :: rest) ->
  queue_timers m !! a = Some na ->
  (timespec_compare now (ExpirationTime na) >=? 0) = true ->
  Period na <> 0 ->
  (length (b :: rest) <= fuel)%nat ->
  exists m2 l',
    FireExpiredTimerQueueTimers_loop (S fuel) now q a m
    = FireExpiredTimerQueueTimers_loop fuel now q b m2 /\
    chain (S (S (length (b :: rest)))) m2 q = Some (b :: l') /\
    b :: l'
    = insert_chain (earlier_than (fired_and_detached q a na m) a) a
        (b :: rest) /\
    a ∈ l' /\
    trace m2 = trace m ++ [Ev_Callback (Callback na) (Param na) true].
Proof.
  intros Hchain Hna Hdue Hper Hfuel.
  pose proof Hchain as Hchain0.
  unfold chain in Hchain.
  destruct (timer_queues m !! q) as [qs|] eqn:Hq; [|discriminate].
  pose proof (chain_from_length _ _ _ _ Hchain) as Hlen.
  apply chain_from_linked in Hchain.
  pose proof (linked_NoDup _ _ _ Hchain) as Hdup.
  apply NoDup_cons in Hdup as [Ha_notin _].
  destruct Hchain as (Hhead & Ha & na' & Hna' & Hrest).
  rewrite Hna in Hna'. injection Hna' as <-.
  pose proof Hrest as (Hb & _).
  set (m1 := fired_and_detached q a na m).
  set (na1 := set_next NULL
                (set_ExpirationTime
                   (timespec_add_ms (ExpirationTime na) (Period na))
                   (set_FireCount (FireCount na + 1) na))).
  assert (Hna1 : queue_timers m1 !! a = Some na1)
    by (cbn; apply lookup_insert_eq).
  assert (Hchain1 : chain (S (length (b :: rest))) m1 q = Some (b :: rest)).
  { unfold chain. cbn [m1 fired_and_detached timer_queues].
    rewrite lookup_insert_eq. cbn [head].
    apply linked_chain_from; [|lia].
    apply (linked_frame m); [exact Hrest|].
    intros x Hx. cbn. apply lookup_insert_ne. intros <-. contradiction. }
  destruct (InsertTimerQueueTimer_on_chain fuel q a na1 (b :: rest) m1
              Hchain1 Hna1 eq_refl Ha Ha_notin Hfuel)
    as (m2 & Hrun & Hchain2 & Hkeep & _ & Htr).
  destruct (insert_chain_keeps_the_head (earlier_than m1 a) a b rest)
    as [l' Hl'].
  rewrite Hl' in Hchain2.
  destruct (chain_head _ _ _ _ _ Hchain2) as (qs2 & Hq2 & Hh2).
  exists m2, l'. split.
  { rewrite (periodic_head_turn fuel now q qs a na m Hq Ha Hna Hdue Hper).
    fold m1. unfold bind at 1. rewrite Hrun.
    rewrite (bind_Done _ _ _ _ _ (load_head_live _ _ _ Hq2)).
    now rewrite Hh2. }
  split; [exact Hchain2|]. split; [now rewrite Hl'|].
  split; [|rewrite Htr; reflexivity].
  (* the fired entry is on the chain again *)
  assert (Hin : a ∈ insert_chain (earlier_than m1 a) a (b :: rest)).
  { clear. generalize (b :: rest) as l. intros l.
    induction l as [|x l IH]; [cbn; apply elem_of_cons; auto|].
    destruct l as [|y l].
    - cbn. apply elem_of_cons. right. apply elem_of_cons. auto.
    - change (insert_chain (earlier_than m1 a) a (x :: y :: l))
        with (if earlier_than m1 a x then x :: a :: l
              else x :: insert_chain (earlier_than m1 a) a (y :: l)).
      destruct (earlier_than m1 a x).
      + apply elem_of_cons. right. apply elem_of_cons. auto.
      + apply elem_of_cons. right. exact IH. }
  rewrite Hl' in Hin. apply elem_of_cons in Hin as [-> | Hin]; [|exact Hin].
  exfalso. apply Ha_notin. apply elem_of_cons. auto.
Qed.

End Reinsertion.

(** The periodic head A of the queue A, B, C fires at 10 s: B becomes
    the head and A goes behind it. *)
Lemma periodic_head_goes_behind_B :
  exists m2 l',
    FireExpiredTimerQueueTimers_loop (S 5) (at_seconds 10) 100 1
      queue_periodic_ABC
    = FireExpiredTimerQueueTimers_loop 5 (at_seconds 10) 100 2 m2 /\
    chain (S (S (length [2; 3]))) m2 100 = Some (2 :: l') /\
    2 :: l'
    = insert_chain
        (earlier_than
           (fired_and_detached 100 1 (queued 11 100 (at_seconds 10) 2)
              queue_periodic_ABC) 1) 1 [2; 3] /\
    1 ∈ l' /\
    trace m2
    = trace queue_periodic_ABC
      ++ [Ev_Callback (Callback (queued 11 100 (at_seconds 10) 2))
            (Param (queued 11 100 (at_seconds 10) 2)) true].
Proof.
  apply (periodic_head_goes_behind_its_successor 5 (at_seconds 10) 100 1
           (queued 11 100 (at_seconds 10) 2) 2 [3] queue_periodic_ABC);
    [ vm_compute; reflexivity | reflexivity | vm_compute; reflexivity
    | cbn; lia | cbn; lia ].
Defined.

(** ** The first arm of a waitable timer *)

Section FirstArm.

(** The first arm on a build with both timer interfaces, every call of
    the operating system succeeding.  The backing resource is chosen by
    the completion argument, the settime call by the completion routine:
    the arm programs the descriptor or the native timer id that the
    initialization stored only when the two agree, and the field the
    timer was created with otherwise. *)
Theorem SetWaitableTimer_first_arm
    cfg os h t d per pfn arg fr its m :
  WITH_POSIX_TIMER cfg = true ->
  HAVE_TIMERFD_H cfg = true ->
  h <> NULL ->
  waitable_timers m !! h = Some t ->
  bInit t = false ->
  0 <= per ->
  SetWaitableTimer_timeout d per = Some its ->
  0 < timerfd_create_ret os ->
  fcntl_ret os = 0 ->
  timer_create_ret os = 0 ->
  exists m' t',
    SetWaitableTimer cfg os h (Some d) per pfn arg fr m
    = Done ((if pfn =? NULL then timerfd_settime_ret os
             else timer_settime_ret os) =? 0) m' /\
    trace m'
    = trace m
      ++ initialization_calls os h arg (g_WaitableTimerSignalHandlerInstalled m)
      ++ [if pfn =? NULL then Ev_timerfd_settime (fd t') its
          else Ev_timer_settime (tid t') its] /\
    waitable_timers m' !! h = Some t' /\
    bInit t' = true /\
    fd t' = (if arg =? NULL then timerfd_create_ret os else fd t) /\
    tid t' = (if arg =? NULL then tid t else timer_create_timerid os) /\
    g_WaitableTimerSignalHandlerInstalled m'
    = (if arg =? NULL then g_WaitableTimerSignalHandlerInstalled m
       else true).
Proof.
  intros Hc1 Hc2 Hh Ht Hb Hper Hits Hfd Hfc Htc.
  apply Z.eqb_neq in Hh. apply Z.ltb_ge in Hper.
  assert (Hfd' : (timerfd_create_ret os <=? 0) = false)
    by (apply Z.leb_gt; exact Hfd).
  unfold initialization_calls.
  destruct (SetWaitableTimer cfg os h (Some d) per pfn arg fr m)
    as [b m' | m' | m'] eqn:E;
    revert E; unfold_SetWaitableTimer;
    unfold InitializeWaitableTimer, InstallWaitableTimerSignalHandler;
    rewrite Hc1, Hc2, Hits, Hfc, Htc; intros E.
  all: run_arm.
  all: try congruence.
  all: repeat match goal with
         | H : negb _ = true |- _ => apply negb_true_iff in H
         | H : negb _ = false |- _ => apply negb_false_iff in H
         end.
  all: try congruence.
  all: repeat match goal with
         | H : (_ =? _) = _ |- _ => rewrite ?H; clear H
         end.
  all: eexists _, _; (split; [reflexivity|]); cbn;
    rewrite ?insert_insert_eq, ?lookup_insert_eq, <- ?app_assoc; cbn;
    (split; [|split; [reflexivity|]]); cbn;
    split_all; try reflexivity.
Qed.

(** When [fcntl] fails on the fresh descriptor, the arm closes the
    descriptor and returns [FALSE]; the timer keeps the number of the
    closed descriptor in [fd], stays uninitialized and holds the
    arguments of the failed arm. *)
Theorem SetWaitableTimer_keeps_the_closed_descriptor
    cfg os h t d per pfn fr m :
  HAVE_TIMERFD_H cfg = true ->
  h <> NULL ->
  waitable_timers m !! h = Some t ->
  bInit t = false ->
  0 <= per ->
  0 < timerfd_create_ret os ->
  fcntl_ret os <> 0 ->
  exists m',
    SetWaitableTimer cfg os h (Some d) per pfn NULL fr m = Done false m' /\
    trace m'
    = trace m
      ++ [Ev_timerfd_create; Ev_fcntl_O_NONBLOCK (timerfd_create_ret os);
          Ev_close (timerfd_create_ret os)] /\
    waitable_timers m' !! h
    = Some (set_fd (timerfd_create_ret os)
              (set_arm_arguments per pfn NULL t)).
Proof.
  intros Hc2 Hh Ht Hb Hper Hfd Hfc.
  apply Z.eqb_neq in Hh, Hfc. apply Z.ltb_ge in Hper.
  assert (Hfd' : (timerfd_create_ret os <=? 0) = false)
    by (apply Z.leb_gt; exact Hfd).
  destruct (SetWaitableTimer cfg os h (Some d) per pfn NULL fr m)
    as [b m' | m' | m'] eqn:E;
    revert E; unfold_SetWaitableTimer;
    unfold InitializeWaitableTimer;
    rewrite Hc2, Hfc; intros E.
  all: run_arm.
  all: try congruence.
  all: repeat match goal with
         | H : negb _ = true |- _ => apply negb_true_iff in H
         | H : negb _ = false |- _ => apply negb_false_iff in H
         end.
  all: try congruence.
  all: eexists; (split; [reflexivity|]); cbn;
    rewrite ?insert_insert_eq, ?lookup_insert_eq, <- ?app_assoc; cbn;
    split_all; try reflexivity.
Qed.

End FirstArm.

(** The first arm of the fresh timer 1 with the routine 77 and the
    argument 88: the handler is installed and the native timer created
    and programmed. *)
Lemma SetWaitableTimer_first_arm_with_routine_and_argument :
  exists m' t',
    SetWaitableTimer linux_build os_ok 1 (Some (-5000000)) 0 77 88 false
      fresh_timer_memory
    = Done ((if 77 =? NULL then timerfd_settime_ret os_ok
             else timer_settime_ret os_ok) =? 0) m' /\
    trace m'
    = trace fresh_timer_memory
      ++ initialization_calls os_ok 1 88
           (g_WaitableTimerSignalHandlerInstalled fresh_timer_memory)
      ++ [if 77 =? NULL
          then Ev_timerfd_settime (fd t')
                 {| it_interval := zero_timespec;
                    it_value := at_millis 500 |}
          else Ev_timer_settime (tid t')
                 {| it_interval := zero_timespec;
                    it_value := at_millis 500 |}] /\
    waitable_timers m' !! 1 = Some t' /\
    bInit t' = true /\
    fd t' = (if 88 =? NULL then timerfd_create_ret os_ok
             else fd fresh_timer) /\
    tid t' = (if 88 =? NULL then tid fresh_timer
              else timer_create_timerid os_ok) /\
    g_WaitableTimerSignalHandlerInstalled m'
    = (if 88 =? NULL
       then g_WaitableTimerSignalHandlerInstalled fresh_timer_memory
       else true).
Proof.
  apply (SetWaitableTimer_first_arm linux_build os_ok 1 fresh_timer
           (-5000000) 0 77 88 false
           {| it_interval := zero_timespec; it_value := at_millis 500 |}
           fresh_timer_memory);
    [ reflexivity | reflexivity | unfold NULL; lia
    | vm_compute; reflexivity | reflexivity | lia
    | vm_compute; reflexivity | cbn; lia | reflexivity | reflexivity ].
Defined.

(** The first arm of the fresh timer 1 when [fcntl] fails: descriptor 5
    is closed and stays in the timer. *)
Lemma SetWaitableTimer_keeps_the_closed_descriptor_5 :
  exists m',
    SetWaitableTimer linux_build os_fcntl_fails 1 (Some (-5000000)) 0 NULL
      NULL false fresh_timer_memory
    = Done false m' /\
    trace m'
    = trace fresh_timer_memory
      ++ [Ev_timerfd_create;
          Ev_fcntl_O_NONBLOCK (timerfd_create_ret os_fcntl_fails);
          Ev_close (timerfd_create_ret os_fcntl_fails)] /\
    waitable_timers m' !! 1
    = Some (set_fd (timerfd_create_ret os_fcntl_fails)
              (set_arm_arguments 0 NULL NULL fresh_timer)).
Proof.
  apply (SetWaitableTimer_keeps_the_closed_descriptor linux_build
           os_fcntl_fails 1 fresh_timer (-5000000) 0 NULL false
           fresh_timer_memory);
    [ reflexivity | unfold NULL; lia | vm_compute; reflexivity
    | reflexivity | lia | cbn; lia | cbn; lia ].
Defined.

(** ** A turn of the pass on a periodic head *)

Section PeriodicTurn.

Lemma insert_chain_nonempty earlier t l :
  exists x l', insert_chain earlier t l = x :: l'.
Proof.
  destruct l as [|a [|b l]]; cbn; eauto.
  destruct (earlier a); eauto.
Qed.

Lemma insert_chain_holds_the_entry earlier t l :
  t ∈ insert_chain earlier t l.
Proof.
  induction l as [|x l IH]; [cbn; apply elem_of_cons; auto|].
  destruct l as [|y l].
  - cbn. apply elem_of_cons. right. apply elem_of_cons. auto.
  - change (insert_chain earlier t (x :: y :: l))
      with (if earlier x then x :: t :: l
            else x :: insert_chain earlier t (y :: l)).
    destruct (earlier x).
    + apply elem_of_cons. right. apply elem_of_cons. auto.
    + apply elem_of_cons. right. exact IH.
Qed.

(** One turn of the loop on a due periodic head [a] of a chain that
    ends: the entry is fired, counted, given its next deadline and
    taken off the chain, which is then the rest; [InsertTimerQueueTimer]
    returns and leaves [insert_chain] of the rest; the loop goes on with
    the head of that chain. *)
Lemma periodic_head_turn_on_chain fuel now q a na rest m :
  chain (S (length (a :: rest))) m q = Some (a :: rest) ->
  queue_timers m !! a = Some na ->
  (timespec_compare now (ExpirationTime na) >=? 0) = true ->
  Period na <> 0 ->
  (length rest <= fuel)%nat ->
  exists m2 p',
    chain (S (length rest)) (fired_and_detached q a na m) q = Some rest /\
    InsertTimerQueueTimer fuel q a (fired_and_detached q a na m)
    = Done tt m2 /\
    chain (S (S (length rest))) m2 q
    = Some (insert_chain (earlier_than (fired_and_detached q a na m) a) a
              rest) /\
    queue_timers m2 !! a
    = Some (set_next p'
              (set_ExpirationTime
                 (timespec_add_ms (ExpirationTime na) (Period na))
                 (set_FireCount (FireCount na + 1) na))) /\
    trace m2 = trace m ++ [Ev_Callback (Callback na) (Param na) true] /\
    FireExpiredTimerQueueTimers_loop (S fuel) now q a m
    = FireExpiredTimerQueueTimers_loop fuel now q
        (hd NULL
           (insert_chain (earlier_than (fired_and_detached q a na m) a) a
              rest)) m2.
Proof.
  intros Hchain Hna Hdue Hper Hfuel.
  unfold chain in Hchain.
  destruct (timer_queues m !! q) as [qs|] eqn:Hq; [|discriminate].
  apply chain_from_linked in Hchain.
  pose proof (linked_NoDup _ _ _ Hchain) as Hdup.
  apply NoDup_cons in Hdup as [Ha_notin _].
  destruct Hchain as (Hhead & Ha & na' & Hna' & Hrest).
  rewrite Hna in Hna'. injection Hna' as <-.
  set (m1 := fired_and_detached q a na m).
  set (na1 := set_next NULL
                (set_ExpirationTime
                   (timespec_add_ms (ExpirationTime na) (Period na))
                   (set_FireCount (FireCount na + 1) na))).
  assert (Hna1 : queue_timers m1 !! a = Some na1)
    by (cbn; apply lookup_insert_eq).
  assert (Hchain1 : chain (S (length rest)) m1 q = Some rest).
  { unfold chain. cbn [m1 fired_and_detached timer_queues].
    rewrite lookup_insert_eq. cbn [head].
    apply linked_chain_from; [|lia].
    apply (linked_frame m); [exact Hrest|].
    intros x Hx. cbn. apply lookup_insert_ne. intros <-. contradiction. }
  destruct (InsertTimerQueueTimer_on_chain fuel q a na1 rest m1
              Hchain1 Hna1 eq_refl Ha Ha_notin Hfuel)
    as (m2 & Hrun & Hchain2 & Hkeep & _ & Htr).
  destruct (Hkeep a na1 Hna1) as [p' Hna2].
  destruct (insert_chain_nonempty (earlier_than m1 a) a rest)
    as (x & l' & Hl').
  exists m2, p'. split; [exact Hchain1|]. split; [exact Hrun|].
  split; [exact Hchain2|]. split; [exact Hna2|].
  split; [rewrite Htr; reflexivity|].
  rewrite Hl' in Hchain2 |- *.
  destruct (chain_head _ _ _ _ _ Hchain2) as (qs2 & Hq2 & Hh2).
  rewrite (periodic_head_turn fuel now q qs a na m Hq Ha Hna Hdue Hper).
  fold m1. unfold bind at 1. rewrite Hrun.
  rewrite (bind_Done _ _ _ _ _ (load_head_live _ _ _ Hq2)).
  now rewrite Hh2.
Qed.

End PeriodicTurn.

(** C5 (amended) -- For every due entry at the head with a period
    greater than 0, a turn of the loop of [FireExpiredTimerQueueTimers]
    invokes its callback, increments its fire count, advances its
    deadline with [timespec_add_ms] by its period (by exactly that many
    milliseconds for periods up to 4294 ms), detaches it from the head
    and re-inserts it with [InsertTimerQueueTimer], the routine that
    registration uses: the chain is then [insert_chain] of the rest and
    holds the entry.  The pass goes on from the head of that chain,
    with no limit on how often it fires the same entry: an entry that
    is at the head and still due after the advance is fired again in
    the same pass. *)
Theorem C5_periodic_head_is_fired_and_reinserted fuel now q a na rest m :
  chain (S (length (a :: rest))) m q = Some (a :: rest) ->
  queue_timers m !! a = Some na ->
  (timespec_compare now (ExpirationTime na) >=? 0) = true ->
  0 < Period na ->
  (length rest <= fuel)%nat ->
  exists m2 na2 l2,
    chain (S (length rest)) (fired_and_detached q a na m) q = Some rest /\
    InsertTimerQueueTimer fuel q a (fired_and_detached q a na m)
    = Done tt m2 /\
    l2 = insert_chain (earlier_than (fired_and_detached q a na m) a) a rest /\
    chain (S (S (length rest))) m2 q = Some l2 /\
    a ∈ l2 /\
    trace m2 = trace m ++ [Ev_Callback (Callback na) (Param na) true] /\
    queue_timers m2 !! a = Some na2 /\
    FireCount na2 = FireCount na + 1 /\
    ExpirationTime na2 = timespec_add_ms (ExpirationTime na) (Period na) /\
    (Period na <= 4294 ->
     normalized (ExpirationTime na) ->
     - 2 ^ 63 <= tv_sec (ExpirationTime na) < 2 ^ 63 - 5 ->
     normalized (ExpirationTime na2) /\
     total_ns (ExpirationTime na2)
     = total_ns (ExpirationTime na) + Period na * 1000000) /\
    FireExpiredTimerQueueTimers_loop (S fuel) now q a m
    = FireExpiredTimerQueueTimers_loop fuel now q (hd NULL l2) m2 /\
    (hd NULL l2 = a ->
     (timespec_compare now (ExpirationTime na2) >=? 0) = true ->
     forall fuel',
       fuel = S fuel' ->
       exists m3 na3 h3,
         FireExpiredTimerQueueTimers_loop (S fuel) now q a m
         = FireExpiredTimerQueueTimers_loop fuel' now q h3 m3 /\
         trace m3
         = trace m
           ++ [Ev_Callback (Callback na) (Param na) true;
               Ev_Callback (Callback na) (Param na) true] /\
         queue_timers m3 !! a = Some na3 /\
         FireCount na3 = FireCount na + 2).
Proof.
  intros Hchain Hna Hdue Hper Hfuel.
  assert (Hper' : Period na <> 0) by lia.
  destruct (periodic_head_turn_on_chain fuel now q a na rest m
              Hchain Hna Hdue Hper' Hfuel)
    as (m2 & p' & Hchain1 & Hrun & Hchain2 & Hna2 & Htr & Hloop).
  eexists m2, _, _.
  split; [exact Hchain1|]. split; [exact Hrun|]. split; [reflexivity|].
  split; [exact Hchain2|].
  split; [apply insert_chain_holds_the_entry|].
  split; [exact Htr|]. split; [exact Hna2|].
  split; [reflexivity|]. split; [reflexivity|].
  split.
  { intros Hsmall Hnorm Hrange. cbn.
    apply deadline_advances_by_period; [lia | assumption | assumption]. }
  split; [exact Hloop|].
  intros Hhd Hdue2 fuel' ->.
  (* the entry is at the head only when it is alone *)
  assert (Hrest : rest = []).
  { destruct rest as [|b rest]; [reflexivity|]. exfalso.
    destruct (insert_chain_keeps_the_head
                (earlier_than (fired_and_detached q a na m) a) a b rest)
      as [l' Hl'].
    rewrite Hl' in Hhd. cbn in Hhd. subst b.
    unfold chain in Hchain.
    destruct (timer_queues m !! q); [|discriminate].
    apply chain_from_linked, linked_NoDup, NoDup_cons in Hchain as [Hn _].
    apply Hn. apply elem_of_cons. auto. }
  subst rest. cbn [insert_chain hd length] in *.
  destruct (periodic_head_turn_on_chain fuel' now q a _ [] m2
              Hchain2 Hna2 Hdue2 Hper' ltac:(cbn; lia))
    as (m3 & p3 & _ & _ & _ & Hna3 & Htr3 & Hloop3).
  eexists m3, _, _. split; [rewrite Hloop; exact Hloop3|].
  split; [rewrite Htr3, Htr, <- app_assoc; reflexivity|].
  split; [exact Hna3|]. cbn. lia.
Qed.

(** The lone entry with a period of 100 ms that was due at 0 ms, at
    250 ms: it is fired, re-inserted as the whole chain, and fired
    again. *)
Lemma C5_periodic_head_turn_at_250ms :
  exists m2 na2 l2,
    chain (S (length (@nil Z)))
      (fired_and_detached 100 1 (queued 11 100 (at_millis 0) NULL)
         queue_periodic) 100 = Some [] /\
    InsertTimerQueueTimer 9 100 1
      (fired_and_detached 100 1 (queued 11 100 (at_millis 0) NULL)
         queue_periodic)
    = Done tt m2 /\
    l2 = insert_chain
           (earlier_than
              (fired_and_detached 100 1 (queued 11 100 (at_millis 0) NULL)
                 queue_periodic) 1) 1 [] /\
    chain (S (S (length (@nil Z)))) m2 100 = Some l2 /\
    1 ∈ l2 /\
    trace m2
    = trace queue_periodic
      ++ [Ev_Callback (Callback (queued 11 100 (at_millis 0) NULL))
            (Param (queued 11 100 (at_millis 0) NULL)) true] /\
    queue_timers m2 !! 1 = Some na2 /\
    FireCount na2 = FireCount (queued 11 100 (at_millis 0) NULL) + 1 /\
    ExpirationTime na2
    = timespec_add_ms (ExpirationTime (queued 11 100 (at_millis 0) NULL))
        (Period (queued 11 100 (at_millis 0) NULL)) /\
    (Period (queued 11 100 (at_millis 0) NULL) <= 4294 ->
     normalized (ExpirationTime (queued 11 100 (at_millis 0) NULL)) ->
     - 2 ^ 63 <= tv_sec (ExpirationTime (queued 11 100 (at_millis 0) NULL))
       < 2 ^ 63 - 5 ->
     normalized (ExpirationTime na2) /\
     total_ns (ExpirationTime na2)
     = total_ns (ExpirationTime (queued 11 100 (at_millis 0) NULL))
       + Period (queued 11 100 (at_millis 0) NULL) * 1000000) /\
    FireExpiredTimerQueueTimers_loop (S 9) (at_millis 250) 100 1
      queue_periodic
    = FireExpiredTimerQueueTimers_loop 9 (at_millis 250) 100 (hd NULL l2)
        m2 /\
    (hd NULL l2 = 1 ->
     (timespec_compare (at_millis 250) (ExpirationTime na2) >=? 0) = true ->
     forall fuel',
       9%nat = S fuel' ->
       exists m3 na3 h3,
         FireExpiredTimerQueueTimers_loop (S 9) (at_millis 250) 100 1
           queue_periodic
         = FireExpiredTimerQueueTimers_loop fuel' (at_millis 250) 100 h3
             m3 /\
         trace m3
         = trace queue_periodic
           ++ [Ev_Callback (Callback (queued 11 100 (at_millis 0) NULL))
                 (Param (queued 11 100 (at_millis 0) NULL)) true;
               Ev_Callback (Callback (queued 11 100 (at_millis 0) NULL))
                 (Param (queued 11 100 (at_millis 0) NULL)) true] /\
         queue_timers m3 !! 1 = Some na3 /\
         FireCount na3
         = FireCount (queued 11 100 (at_millis 0) NULL) + 2).
Proof.
  apply (C5_periodic_head_is_fired_and_reinserted 9 (at_millis 250) 100 1
           (queued 11 100 (at_millis 0) NULL) [] queue_periodic);
    [ vm_compute; reflexivity | reflexivity | vm_compute; reflexivity
    | cbn; lia | cbn; lia ].
Defined.
